(** * Billing and webhook reconciliation of stock-signals-saas

    A shallow embedding of the payment subsystem of the backend:

    - [app/services/redis_service.py]   (class [RedisService])
    - [app/middleware/rate_limit.py]    (class [RateLimiter])
    - [app/services/stripe_service.py]  (class [StripeService])
    - [app/services/razorpay_service.py] (class [RazorpayService])
    - [app/routers/billing.py]          (the [/billing] endpoints)

    Python coroutines become functions in a state-and-exception monad over
    a [World] that holds the [users] table, the ORM session of the running
    request, the global [redis_service] and the log of calls into the
    provider SDKs.  The Redis server, the Stripe and Razorpay SDKs, [hmac],
    [json.loads] and the settings are the environment: the server is
    modelled as a keyspace with expiry times, the libraries as the fields
    of a record [Env] over which every theorem quantifies. *)

From Stdlib Require Import ZArith String Ascii List Lia QArith.
From stdpp Require Import base option gmap strings list pretty.

Open Scope string_scope.
Open Scope Z_scope.

(** ** Python values and exceptions *)

(** The exception classes that occur in the modelled code, with the part of
    the class hierarchy that its [except] clauses can observe. *)
Inductive ExcClass :=
| Exception
| ValueError
| JSONDecodeError              (* json.JSONDecodeError, a ValueError *)
| UnicodeDecodeError           (* a ValueError *)
| TypeError
| AttributeError
| KeyError
| OverflowError
| StripeError                  (* stripe.error.StripeError *)
| StripeSignatureVerificationError   (* stripe.error.SignatureVerificationError *)
| RazorpaySignatureVerificationError (* razorpay.errors.SignatureVerificationError *)
| ResponseError                (* redis.exceptions.ResponseError *)
| OtherException (name : string).

(** [issubclass c base], for the bases named in an [except] clause. *)
Definition issubclass (c base : ExcClass) : bool :=
  match base, c with
  | Exception, _ => true
  | ValueError, (ValueError | JSONDecodeError | UnicodeDecodeError) => true
  | StripeError, (StripeError | StripeSignatureVerificationError) => true
  | StripeSignatureVerificationError, StripeSignatureVerificationError => true
  | RazorpaySignatureVerificationError, RazorpaySignatureVerificationError => true
  | TypeError, TypeError => true
  | AttributeError, AttributeError => true
  | KeyError, KeyError => true
  | OverflowError, OverflowError => true
  | ResponseError, ResponseError => true
  | JSONDecodeError, JSONDecodeError => true
  | UnicodeDecodeError, UnicodeDecodeError => true
  | _, _ => false
  end.

(** A raised exception: an ordinary one carries its class and the text that
    [str(e)] yields; fastapi's [HTTPException] carries status and detail. *)
Inductive PyExc :=
| Exc (cls : ExcClass) (text : string)
| HTTPException (status_code : Z) (detail : string).

(** starlette's [HTTPException.__str__] is ["{status_code}: {detail}"]. *)
Definition str_exc (e : PyExc) : string :=
  match e with
  | Exc _ text => text
  | HTTPException sc d => pretty sc +:+ ": " +:+ d
  end.

Definition isinstance (e : PyExc) (base : ExcClass) : bool :=
  match e with
  | Exc c _ => issubclass c base
  | HTTPException _ _ => issubclass Exception base
  end.

Definition HTTP_400_BAD_REQUEST : Z := 400.
Definition HTTP_429_TOO_MANY_REQUESTS : Z := 429.
Definition HTTP_500_INTERNAL_SERVER_ERROR : Z := 500.
Definition HTTP_401_UNAUTHORIZED : Z := 401.

(** Python floats, as far as [bool()] and [int()] look at them. *)
Inductive PyFloat :=
| FNan
| FInf (negative : bool)
| FFinite (q : Q).

(** The values [json.loads] builds. *)
#[warnings="-register-all"]
Inductive json :=
| JNull
| JBool (b : bool)
| JInt (n : Z)
| JFloat (f : PyFloat)
| JStr (s : string)
| JArr (items : list json)
| JObj (fields : list (string * json)).

(** Truth value of a Python object (what [if x:] tests). *)
Definition truthy (v : json) : bool :=
  match v with
  | JNull => false
  | JBool b => b
  | JInt n => negb (n =? 0)
  | JFloat (FFinite q) => negb (Qnum q =? 0)
  | JFloat _ => true
  | JStr s => negb (String.eqb s "")
  | JArr l => match l with [] => false | _ => true end
  | JObj l => match l with [] => false | _ => true end
  end.

Definition truthy_str (s : string) : bool := negb (String.eqb s "").

(** [d.get(key)] on a dict built by [json.loads]: a repeated key keeps its
    last value. *)
Fixpoint dict_get (fields : list (string * json)) (key : string) : option json :=
  match fields with
  | [] => None
  | (k, v) :: rest =>
      match dict_get rest key with
      | Some v' => Some v'
      | None => if String.eqb k key then Some v else None
      end
  end.

(** *** [int(str)]

    Base-ten literal: optional surrounding whitespace, an optional sign,
    then digits, where single underscores may separate digits.  Characters
    are code points below 256, so the digits are the ASCII ones and the
    whitespace is tab to carriage return, space, U+0085 and U+00A0. *)
Definition is_py_space (c : ascii) : bool :=
  let n := Z.of_nat (nat_of_ascii c) in
  ((9 <=? n) && (n <=? 13)) || (n =? 32) || (n =? 133) || (n =? 160).

Definition digit_of (c : ascii) : option Z :=
  let n := Z.of_nat (nat_of_ascii c) in
  if (48 <=? n) && (n <=? 57) then Some (n - 48) else None.

Fixpoint lstrip (s : string) : string :=
  match s with
  | String c rest => if is_py_space c then lstrip rest else s
  | EmptyString => s
  end.

Definition strip (s : string) : string :=
  String.rev (lstrip (String.rev (lstrip s))).

(** Digits after at least one digit has been read; [after_us] records that
    the previous character was an underscore. *)
Fixpoint int_digits (acc : Z) (after_us : bool) (s : string) : option Z :=
  match s with
  | EmptyString => if after_us then None else Some acc
  | String c rest =>
      match digit_of c with
      | Some d => int_digits (10 * acc + d) false rest
      | None =>
          if Ascii.eqb c "_" && negb after_us
          then int_digits acc true rest
          else None
      end
  end.

Definition int_unsigned (s : string) : option Z :=
  match s with
  | String c rest =>
      match digit_of c with
      | Some d => int_digits d false rest
      | None => None
      end
  | EmptyString => None
  end.

Definition int_of_str (s : string) : option Z :=
  match strip s with
  | String "-" rest => Z.opp <$> int_unsigned rest
  | String "+" rest => int_unsigned rest
  | t => int_unsigned t
  end.

(** [int(x)] for a value out of [json.loads]; [None] stands for the
    [ValueError], [TypeError] or [OverflowError] that Python raises. *)
Definition int_of_float (f : PyFloat) : option Z :=
  match f with
  | FFinite q => Some (Z.quot (Qnum q) (Z.pos (Qden q)))
  | _ => None
  end.

Definition int_error_class (v : json) : ExcClass :=
  match v with
  | JStr _ | JFloat FNan => ValueError
  | JFloat _ => OverflowError
  | _ => TypeError
  end.

Definition int_of_json (v : json) : option Z :=
  match v with
  | JInt n => Some n
  | JBool b => Some (if b then 1 else 0)
  | JStr s => int_of_str s
  | JFloat f => int_of_float f
  | JNull | JArr _ | JObj _ => None
  end.

(** ** Data model *)

(** [app/models/user.py], table [users]. *)
Record User := {
  id : Z;
  email : string;
  hashed_password : string;
  is_paid : bool;
  stripe_customer_id : option string;
  created_at : Z;
}.

Definition set_is_paid (b : bool) (u : User) : User :=
  {| id := id u; email := email u; hashed_password := hashed_password u;
     is_paid := b; stripe_customer_id := stripe_customer_id u;
     created_at := created_at u |}.

Definition set_stripe_customer_id (c : option string) (u : User) : User :=
  {| id := id u; email := email u; hashed_password := hashed_password u;
     is_paid := is_paid u; stripe_customer_id := c;
     created_at := created_at u |}.

(** *** The Redis server

    A string value is kept raw or, once [INCR] has touched it, as an
    integer; a key may carry the time at which it expires.  An entry whose
    time has come is dead: every command treats it as absent. *)
Inductive RedisValue :=
| VRaw (s : string)
| VInt (n : Z).

Record RedisEntry := {
  value : RedisValue;
  expires_at : option Z;
}.

Abbreviation Keyspace := (gmap string RedisEntry).

Definition is_live (now : Z) (e : RedisEntry) : bool :=
  match expires_at e with
  | None => true
  | Some t => now <? t
  end.

Definition live (now : Z) (ks : Keyspace) (key : string) : option RedisEntry :=
  match ks !! key with
  | Some e => if is_live now e then Some e else None
  | None => None
  end.

Definition str_value (v : RedisValue) : string :=
  match v with
  | VRaw s => s
  | VInt n => pretty n
  end.

(** What [INCR] accepts as an integer: digits with an optional minus sign,
    no sign alone, no leading zero, no blanks. *)
Definition redis_int (v : RedisValue) : option Z :=
  match v with
  | VInt n => Some n
  | VRaw s =>
      match int_of_str s with
      | Some n => if String.eqb (pretty n) s then Some n else None
      | None => None
      end
  end.

Definition GET (now : Z) (ks : Keyspace) (key : string) : option string :=
  str_value ∘ value <$> live now ks key.

Definition SET (ks : Keyspace) (key val : string) : Keyspace :=
  <[key := {| value := VRaw val; expires_at := None |}]> ks.

(** [SETEX] refuses a time to live that is not positive. *)
Definition SETEX (now : Z) (ks : Keyspace) (key : string) (ttl : Z) (val : string)
  : option Keyspace :=
  if 0 <? ttl
  then Some (<[key := {| value := VRaw val; expires_at := Some (now + ttl) |}]> ks)
  else None.

Definition EXISTS (now : Z) (ks : Keyspace) (key : string) : Z :=
  match live now ks key with
  | Some _ => 1
  | None => 0
  end.

(** [INCR]: a missing key counts from zero and gets no expiry; an existing
    one keeps its expiry.  Counters stay within the server's 64 bits. *)
Definition INCR (now : Z) (ks : Keyspace) (key : string) : option (Z * Keyspace) :=
  match live now ks key with
  | None => Some (1, <[key := {| value := VInt 1; expires_at := None |}]> ks)
  | Some e =>
      match redis_int (value e) with
      | Some n =>
          Some (n + 1, <[key := {| value := VInt (n + 1); expires_at := expires_at e |}]> ks)
      | None => None
      end
  end.

(** [EXPIRE]: answers whether the key exists; a time to live that is not
    positive deletes the key. *)
Definition EXPIRE (now : Z) (ks : Keyspace) (key : string) (ttl : Z) : bool * Keyspace :=
  match live now ks key with
  | Some e =>
      (true,
       if 0 <? ttl
       then <[key := {| value := value e; expires_at := Some (now + ttl) |}]> ks
       else delete key ks)
  | None => (false, ks)
  end.

(** [RedisService.redis: Optional[redis.Redis]]: the client, once
    connected, stands for the keyspace it talks to. *)
Record RedisService := {
  redis : option Keyspace;
}.

(** *** Calls into the provider SDKs, in the order they were made *)
Inductive Call :=
| StripeSessionCreate (customer_email : string) (user_id : Z)
    (success_url cancel_url : string)
| StripeConstructEvent (payload : list Byte.byte) (sig_header : string)
| RazorpayOrderCreate (amount : Z) (receipt : string) (user_id : string)
| RazorpayVerifyPaymentSignature (order_id payment_id signature : string).

(** *** The world a request runs in *)
Record World := {
  db : gmap Z User;              (* committed rows of [users], by primary key *)
  commits : nat;                 (* how often [db.commit()] has run *)
  session : gmap Z User;         (* objects held by the request's ORM session *)
  redis_service : RedisService;  (* the module-level [redis_service] *)
  calls : list Call;             (* SDK calls so far, latest first *)
}.

Definition with_db (f : gmap Z User -> gmap Z User) (w : World) : World :=
  {| db := f (db w); commits := commits w; session := session w;
     redis_service := redis_service w; calls := calls w |}.

Definition with_commits (f : nat -> nat) (w : World) : World :=
  {| db := db w; commits := f (commits w); session := session w;
     redis_service := redis_service w; calls := calls w |}.

Definition with_session (f : gmap Z User -> gmap Z User) (w : World) : World :=
  {| db := db w; commits := commits w; session := f (session w);
     redis_service := redis_service w; calls := calls w |}.

Definition with_keyspace (ks : Keyspace) (w : World) : World :=
  {| db := db w; commits := commits w; session := session w;
     redis_service := {| redis := Some ks |}; calls := calls w |}.

Definition with_call (c : Call) (w : World) : World :=
  {| db := db w; commits := commits w; session := session w;
     redis_service := redis_service w; calls := c :: calls w |}.

(** ** The state-and-exception monad *)

Inductive Result (A : Type) :=
| Ok (a : A)
| Raise (e : PyExc).
Arguments Ok {A} a.
Arguments Raise {A} e.

Definition M (A : Type) : Type := World -> Result A * World.

Definition ret {A} (a : A) : M A := fun w => (Ok a, w).

Definition bind {A B} (m : M A) (k : A -> M B) : M B :=
  fun w =>
    match m w with
    | (Ok a, w') => k a w'
    | (Raise e, w') => (Raise e, w')
    end.

Notation "'let*' x ':=' m 'in' k" := (bind m (fun x => k))
  (at level 10, x name, m at level 100, k at level 200).
Notation "m ';;' k" := (bind m (fun _ => k))
  (at level 100, k at level 200, right associativity, only parsing).

Definition raise {A} (e : PyExc) : M A := fun w => (Raise e, w).

(** [try: m  except ...: h e]; [h e = None] when no clause matches, and
    the exception propagates.  What [m] did before it raised stays done. *)
Definition try_except {A} (m : M A) (h : PyExc -> option (M A)) : M A :=
  fun w =>
    match m w with
    | (Ok a, w') => (Ok a, w')
    | (Raise e, w') =>
        match h e with
        | Some k => k w'
        | None => (Raise e, w')
        end
    end.

Definition gets {A} (f : World -> A) : M A := fun w => (Ok (f w), w).
Definition modify (f : World -> World) : M unit := fun w => (Ok tt, f w).
Definition lift {A} (r : Result A) : M A := fun w => (r, w).

(** ** The environment: settings and libraries *)

(** [app/config.py], the fields the billing code reads. *)
Record Settings := {
  payment_gateway : string;
  stripe_secret_key : string;
  stripe_webhook_secret : string;
  stripe_price_id : string;
  razorpay_key_id : string;
  razorpay_key_secret : string;
  razorpay_webhook_secret : string;
  razorpay_plan_amount : Z;
  frontend_url : string;
}.

(** A Stripe checkout session as the webhook handler reads it:
    [session.metadata], a mapping from strings to strings, and
    [session.customer], which may be [None]. *)
Record StripeSession := {
  metadata : gmap string string;
  customer : option string;
}.

(** [stripe.Event]: [event.id], [event.type], [event.data.object]. *)
Record StripeEvent := {
  event_id : string;
  event_type : string;
  data_object : StripeSession;
}.

(** The order that [razorpay_client.order.create] answers with. *)
Record RazorpayOrder := {
  order_id_ : string;     (* order["id"] *)
  order_amount : Z;       (* order["amount"] *)
  order_currency : string; (* order["currency"] *)
}.

(** What the libraries answer.  The provider calls that go over the network
    see the history of calls, so that the same request may be answered
    differently each time; signature checks see the clock. *)
Record Env := {
  settings : Settings;
  stripe_checkout_Session_create :
    list Call -> string -> Z -> string -> string -> Result string;
  stripe_Webhook_construct_event :
    Z -> list Byte.byte -> string -> string -> Result StripeEvent;
  razorpay_order_create :
    list Call -> Z -> string -> string -> Result RazorpayOrder;
  razorpay_utility_verify_payment_signature :
    string -> string -> string -> Result unit;
  hmac_sha256_hexdigest : list Byte.byte -> list Byte.byte -> string;
  json_loads : list Byte.byte -> Result json;
  repr : json -> string;
}.

(** [hmac.compare_digest] on two [str]: both must be ASCII. *)
Definition is_ascii (s : string) : bool :=
  forallb (fun c => (nat_of_ascii c <? 128)%nat) (list_ascii_of_string s).

Definition compare_digest (a b : string) : Result bool :=
  if is_ascii a && is_ascii b
  then Ok (String.eqb a b)
  else Raise (Exc TypeError "comparing strings with non-ASCII characters is not supported").

(** [str(x)] as an f-string formats it. *)
Definition str_json (env : Env) (v : json) : string :=
  match v with
  | JStr s => s
  | JInt n => pretty n
  | JBool b => if b then "True" else "False"
  | JNull => "None"
  | _ => repr env v
  end.

(** ** [app/services/redis_service.py] *)

Definition connect (ks : Keyspace) : M unit :=
  modify (with_keyspace ks).

Definition self_redis : M (option Keyspace) :=
  gets (fun w => redis (redis_service w)).

(** [if ttl:] on [ttl: int = None]. *)
Definition truthy_ttl (ttl : option Z) : option Z :=
  match ttl with
  | Some t => if t =? 0 then None else Some t
  | None => None
  end.

Definition redis_get (now : Z) (key : string) : M (option string) :=
  let* r := self_redis in
  match r with
  | None => ret None
  | Some ks => ret (GET now ks key)
  end.

Definition redis_set (now : Z) (key val : string) (ttl : option Z) : M bool :=
  let* r := self_redis in
  match r with
  | None => ret false
  | Some ks =>
      match truthy_ttl ttl with
      | Some t =>
          match SETEX now ks key t val with
          | Some ks' => modify (with_keyspace ks');; ret true
          | None => raise (Exc ResponseError "invalid expire time in 'setex' command")
          end
      | None => modify (with_keyspace (SET ks key val));; ret true
      end
  end.

Definition redis_exists (now : Z) (key : string) : M bool :=
  let* r := self_redis in
  match r with
  | None => ret false
  | Some ks => ret (EXISTS now ks key >? 0)
  end.

Definition redis_incr (now : Z) (key : string) : M Z :=
  let* r := self_redis in
  match r with
  | None => ret 0
  | Some ks =>
      match INCR now ks key with
      | Some (n, ks') => modify (with_keyspace ks');; ret n
      | None => raise (Exc ResponseError "value is not an integer or out of range")
      end
  end.

Definition redis_expire (now : Z) (key : string) (ttl : Z) : M bool :=
  let* r := self_redis in
  match r with
  | None => ret false
  | Some ks =>
      let '(b, ks') := EXPIRE now ks key ttl in
      modify (with_keyspace ks');; ret b
  end.

(** ** [app/middleware/rate_limit.py] *)

Record RateLimiter := {
  max_requests : Z;
  window_seconds : Z;
}.

(** The part of a starlette [Request] the limiter reads:
    [request.client] (its [host]) and [request.url.path]. *)
Record Request := {
  client : option string;
  url_path : string;
}.

Definition rate_limit_key (request : Request) : string :=
  let client_ip := match client request with Some host => host | None => "unknown" end in
  let endpoint := url_path request in
  "ratelimit:" +:+ endpoint +:+ ":" +:+ client_ip.

Definition rate_limit_detail (self : RateLimiter) : string :=
  "Rate limit exceeded. Try again in " +:+ pretty (window_seconds self) +:+ " seconds.".

Definition check_rate_limit (self : RateLimiter) (now : Z) (request : Request) : M bool :=
  let key := rate_limit_key request in
  let* current := redis_incr now key in
  (if current =? 1
   then redis_expire now key (window_seconds self);; ret tt
   else ret tt);;
  if current >? max_requests self
  then raise (HTTPException HTTP_429_TOO_MANY_REQUESTS (rate_limit_detail self))
  else ret true.

Definition auth_rate_limiter : RateLimiter :=
  {| max_requests := 5; window_seconds := 60 |}.

(** ** [app/services/stripe_service.py] *)

Definition log_call (c : Call) : M unit := modify (with_call c).

Definition create_checkout_session (env : Env)
    (customer_email : string) (user_id : Z) (success_url cancel_url : string)
  : M string :=
  try_except
    (let* history := gets calls in
     log_call (StripeSessionCreate customer_email user_id success_url cancel_url);;
     lift (stripe_checkout_Session_create env history
             customer_email user_id success_url cancel_url))
    (fun e =>
       if isinstance e StripeError
       then Some (raise (Exc Exception ("Stripe error: " +:+ str_exc e)))
       else None).

Definition construct_webhook_event (env : Env) (now : Z)
    (payload : list Byte.byte) (sig_header : string) : M StripeEvent :=
  try_except
    (log_call (StripeConstructEvent payload sig_header);;
     lift (stripe_Webhook_construct_event env now payload sig_header
             (stripe_webhook_secret (settings env))))
    (fun e =>
       if isinstance e ValueError
       then Some (raise (Exc Exception "Invalid payload"))
       else if isinstance e StripeSignatureVerificationError
       then Some (raise (Exc Exception "Invalid signature"))
       else None).

(** ** [app/services/razorpay_service.py] *)

(** [razorpay_client] is created only when both credentials are set. *)
Definition razorpay_client (env : Env) : bool :=
  truthy_str (razorpay_key_id (settings env))
  && truthy_str (razorpay_key_secret (settings env)).

(** [amount or settings.razorpay_plan_amount] on [amount: int = None]. *)
Definition amount_or_plan (env : Env) (amount : option Z) : Z :=
  match amount with
  | Some a => if a =? 0 then razorpay_plan_amount (settings env) else a
  | None => razorpay_plan_amount (settings env)
  end.

Definition create_order (env : Env) (user_id : Z) (amount : option Z)
  : M (list (string * json)) :=
  if negb (razorpay_client env)
  then raise (Exc Exception "Razorpay not configured")
  else
    let amount := amount_or_plan env amount in
    let receipt := "order_user_" +:+ pretty user_id in
    try_except
      (let* history := gets calls in
       log_call (RazorpayOrderCreate amount receipt (pretty user_id));;
       let* order := lift (razorpay_order_create env history amount receipt (pretty user_id)) in
       ret [("order_id", JStr (order_id_ order));
             ("amount", JInt (order_amount order));
             ("currency", JStr (order_currency order));
             ("key_id", JStr (razorpay_key_id (settings env)))])
      (fun e =>
         if isinstance e Exception
         then Some (raise (Exc Exception ("Razorpay error: " +:+ str_exc e)))
         else None).

Definition verify_payment_signature (env : Env)
    (order_id payment_id signature : string) : M bool :=
  if negb (razorpay_client env)
  then ret false
  else
    try_except
      (log_call (RazorpayVerifyPaymentSignature order_id payment_id signature);;
       lift (razorpay_utility_verify_payment_signature env order_id payment_id signature);;
       ret true)
      (fun e =>
         if isinstance e RazorpaySignatureVerificationError
         then Some (ret false)
         else None).

Definition verify_webhook_signature (env : Env)
    (payload : list Byte.byte) (signature : string) : M bool :=
  if negb (truthy_str (razorpay_webhook_secret (settings env)))
  then ret false
  else
    let expected_signature :=
      hmac_sha256_hexdigest env
        (list_byte_of_string (razorpay_webhook_secret (settings env))) payload in
    lift (compare_digest expected_signature signature).

(** ** The ORM session *)

(** [db.execute(select(User).where(User.id == k))] followed by
    [scalar_one_or_none()]: the object the session already holds for that
    primary key, else the row, which the session then holds. *)
Definition select_user (k : Z) : M (option User) :=
  let* held := gets (fun w => session w !! k) in
  match held with
  | Some u => ret (Some u)
  | None =>
      let* row := gets (fun w => db w !! k) in
      match row with
      | Some u => modify (with_session (<[k := u]>));; ret (Some u)
      | None => ret None
      end
  end.

(** An attribute assignment on the object held under key [k], whose state
    becomes [u]. *)
Definition assign (k : Z) (u : User) : M unit :=
  modify (with_session (<[k := u]>)).

(** [db.commit()]: the state of the held objects becomes the rows. *)
Definition commit : M unit :=
  modify (fun w => with_commits S (with_db (fun rows => session w ∪ rows) w)).

(** ** [app/routers/billing.py] *)

(** What FastAPI answers: 200 for a returned value, the status of an
    [HTTPException], 500 for any other exception. *)
Definition http_status {A} (r : Result A) : Z :=
  match r with
  | Ok _ => 200
  | Raise (HTTPException sc _) => sc
  | Raise (Exc _ _) => HTTP_500_INTERNAL_SERVER_ERROR
  end.

Record PaymentVerifyRequest := {
  razorpay_order_id : string;
  razorpay_payment_id : string;
  razorpay_signature : string;
}.

Definition already_subscribed : PyExc :=
  HTTPException HTTP_400_BAD_REQUEST "User already has an active subscription".

Definition status_only (s : string) : json := JObj [("status", JStr s)].

Definition status_paid (s : string) : json :=
  JObj [("status", JStr s); ("is_paid", JBool true)].

(** [except Exception as e: raise HTTPException(status_code=sc, detail=str(e))] *)
Definition to_http {A} (sc : Z) (e : PyExc) : option (M A) :=
  if isinstance e Exception
  then Some (raise (HTTPException sc (str_exc e)))
  else None.

Definition get_gateway_info (env : Env) : M json :=
  let available :=
    ((if truthy_str (stripe_secret_key (settings env)) then ["stripe"] else [])
     ++ (if truthy_str (razorpay_key_id (settings env)) then ["razorpay"] else []))%list in
  ret (JObj [("active_gateway", JStr (payment_gateway (settings env)));
              ("available_gateways",
               JArr (JStr <$> (match available with
                               | [] => [payment_gateway (settings env)]
                               | _ => available
                               end)))]).

Definition success_url_of (env : Env) : string :=
  frontend_url (settings env) +:+ "/dashboard?payment=success&gateway=stripe".

Definition cancel_url_of (env : Env) : string :=
  frontend_url (settings env) +:+ "/dashboard?payment=cancelled".

Definition create_stripe_checkout (env : Env) (current_user : User) : M json :=
  if is_paid current_user
  then raise already_subscribed
  else
    let success_url := success_url_of env in
    let cancel_url := cancel_url_of env in
    try_except
      (let* checkout_url := create_checkout_session env
                         (email current_user) (id current_user) success_url cancel_url in
       ret (JObj [("gateway", JStr "stripe"); ("checkout_url", JStr checkout_url)]))
      (to_http HTTP_500_INTERNAL_SERVER_ERROR).

(** [int(x)], raising the class of exception that Python raises; its
    message, which no handler reads, is a fixed text. *)
Definition int_ (x : json) : M Z :=
  match int_of_json x with
  | Some k => ret k
  | None => raise (Exc (int_error_class x) "int() cannot convert the value")
  end.

Definition stripe_webhook (env : Env) (now : Z)
    (payload : list Byte.byte) (stripe_signature : string) : M json :=
  let* event := try_except (construct_webhook_event env now payload stripe_signature)
             (to_http HTTP_400_BAD_REQUEST) in
  let event_key := "stripe_event:" +:+ event_id event in
  let* seen := redis_exists now event_key in
  if seen
  then ret (status_only "already_processed")
  else
    (if String.eqb (event_type event) "checkout.session.completed"
     then
       let session := data_object event in
       let user_id := match metadata session !! "user_id" with
                      | Some s => JStr s
                      | None => JNull
                      end in
       if truthy user_id
       then
         let* k := int_ user_id in
         let* user := select_user k in
         match user with
         | Some u =>
             assign k (set_is_paid true u);;
             assign k (set_stripe_customer_id (customer session) (set_is_paid true u));;
             commit
         | None => ret tt
         end
       else ret tt
     else ret tt);;
    redis_set now event_key "processed" (Some 86400);;
    ret (status_only "success").

Definition create_razorpay_order (env : Env) (current_user : User) : M json :=
  if is_paid current_user
  then raise already_subscribed
  else
    try_except
      (let* order_data := create_order env (id current_user) None in
       ret (JObj (("gateway", JStr "razorpay") :: order_data)))
      (to_http HTTP_500_INTERNAL_SERVER_ERROR).

Definition verify_razorpay_payment (env : Env) (now : Z)
    (payment_data : PaymentVerifyRequest) (current_user : User) : M json :=
  let payment_key := "razorpay_payment:" +:+ razorpay_payment_id payment_data in
  let* seen := redis_exists now payment_key in
  if seen
  then ret (status_paid "already_processed")
  else
    let* is_valid := verify_payment_signature env
                 (razorpay_order_id payment_data)
                 (razorpay_payment_id payment_data)
                 (razorpay_signature payment_data) in
    if negb is_valid
    then raise (HTTPException HTTP_400_BAD_REQUEST "Invalid payment signature")
    else
      assign (id current_user) (set_is_paid true current_user);;
      commit;;
      redis_set now payment_key "processed" (Some 86400);;
      ret (status_paid "success").

(** [x.get(key, default)]: only a dict has the method. *)
Definition get (x : json) (key : string) (dflt : json) : Result json :=
  match x with
  | JObj fields => Ok (default dflt (dict_get fields key))
  | _ => Raise (Exc AttributeError "object has no attribute 'get'")
  end.

(** [x[key]] for a string key. *)
Definition getitem (x : json) (key : string) : Result json :=
  match x with
  | JObj fields =>
      match dict_get fields key with
      | Some v => Ok v
      | None => Raise (Exc KeyError key)
      end
  | _ => Raise (Exc TypeError "object is not subscriptable by a string")
  end.

(** [x == "literal"] *)
Definition eq_str (x : json) (s : string) : bool :=
  match x with
  | JStr t => String.eqb t s
  | _ => false
  end.

Definition razorpay_webhook (env : Env) (now : Z)
    (payload : list Byte.byte) (x_razorpay_signature : string) : M json :=
  let* verified := verify_webhook_signature env payload x_razorpay_signature in
  if negb verified
  then raise (HTTPException HTTP_400_BAD_REQUEST "Invalid webhook signature")
  else
    let* event := lift (json_loads env payload) in
    let* event_id := lift (get event "event" JNull) in
    let* payload_ := lift (get event "payload" (JObj [])) in
    let* payment := lift (get payload_ "payment" (JObj [])) in
    let* entity := lift (get payment "entity" (JObj [])) in
    let* payment_id := lift (get entity "id" JNull) in
    if truthy payment_id
    then
      let event_key := "razorpay_webhook:" +:+ str_json env payment_id in
      let* seen := redis_exists now event_key in
      if seen
      then ret (status_only "already_processed")
      else
        (if eq_str event_id "payment.captured"
         then
           let* payload_ := lift (getitem event "payload") in
           let* payment := lift (getitem payload_ "payment") in
           let* payment_entity := lift (getitem payment "entity") in
           let* notes := lift (get payment_entity "notes" (JObj [])) in
           let* user_id := lift (get notes "user_id" JNull) in
           if truthy user_id
           then
             let* k := int_ user_id in
             let* user := select_user k in
             match user with
             | Some u => assign k (set_is_paid true u);; commit
             | None => ret tt
             end
           else ret tt
         else ret tt);;
        redis_set now event_key "processed" (Some 86400);;
        ret (status_only "success")
    else ret (status_only "success").

(** [gateway or settings.payment_gateway] on [gateway: Optional[str]]. *)
Definition selected_gateway (env : Env) (gateway : option string) : string :=
  match gateway with
  | Some g => if truthy_str g then g else payment_gateway (settings env)
  | None => payment_gateway (settings env)
  end.

Definition create_checkout (env : Env) (current_user : User)
    (gateway : option string) : M json :=
  let selected := selected_gateway env gateway in
  if is_paid current_user
  then raise already_subscribed
  else if String.eqb selected "razorpay"
  then
    try_except
      (let* order_data := create_order env (id current_user) None in
       ret (JObj (("gateway", JStr "razorpay") :: order_data)))
      (to_http HTTP_500_INTERNAL_SERVER_ERROR)
  else
    let success_url := success_url_of env in
    let cancel_url := cancel_url_of env in
    try_except
      (let* checkout_url := create_checkout_session env
                              (email current_user) (id current_user)
                              success_url cancel_url in
       ret (JObj [("gateway", JStr "stripe"); ("checkout_url", JStr checkout_url)]))
      (to_http HTTP_500_INTERNAL_SERVER_ERROR).

Definition get_subscription_status (env : Env) (current_user : User) : M json :=
  ret (JObj [("is_paid", JBool (is_paid current_user));
             ("email", JStr (email current_user));
             ("payment_gateway", JStr (payment_gateway (settings env)))]).

(** ** Requests to the billing router *)

(** Modelled from the spec: [app/services/auth.py] is not among the
    sources.  The spec gives the credential service as
    [current_user(token) -> User | Unauthenticated]; here the bearer token
    is the primary key it names, if any, and the user is loaded through the
    request's session. *)
Definition get_current_user (credentials : option Z) : M User :=
  match credentials with
  | None => raise (HTTPException HTTP_401_UNAUTHORIZED "Could not validate credentials")
  | Some k =>
      let* user := select_user k in
      match user with
      | Some u => ret u
      | None => raise (HTTPException HTTP_401_UNAUTHORIZED "Could not validate credentials")
      end
  end.

Inductive BillingRequest :=
| GetGatewayInfo
| CreateStripeCheckout (credentials : option Z)
| StripeWebhook (payload : list Byte.byte) (stripe_signature : string)
| CreateRazorpayOrder (credentials : option Z)
| VerifyRazorpayPayment (credentials : option Z) (payment_data : PaymentVerifyRequest)
| RazorpayWebhook (payload : list Byte.byte) (x_razorpay_signature : string)
| CreateCheckout (credentials : option Z) (gateway : option string)
| GetSubscriptionStatus (credentials : option Z).

Definition endpoint (env : Env) (now : Z) (req : BillingRequest) : M json :=
  match req with
  | GetGatewayInfo => get_gateway_info env
  | CreateStripeCheckout c =>
      let* u := get_current_user c in create_stripe_checkout env u
  | StripeWebhook payload sig => stripe_webhook env now payload sig
  | CreateRazorpayOrder c =>
      let* u := get_current_user c in create_razorpay_order env u
  | VerifyRazorpayPayment c payment_data =>
      let* u := get_current_user c in verify_razorpay_payment env now payment_data u
  | RazorpayWebhook payload sig => razorpay_webhook env now payload sig
  | CreateCheckout c gateway =>
      let* u := get_current_user c in create_checkout env u gateway
  | GetSubscriptionStatus c =>
      let* u := get_current_user c in get_subscription_status env u
  end.

(** One request, served at time [now]: it gets a fresh session, which is
    closed when the response is out. *)
Definition serve (env : Env) (now : Z) (req : BillingRequest) (w : World)
  : Result json * World :=
  let '(r, w') := endpoint env now req (with_session (fun _ => ∅) w) in
  (r, with_session (fun _ => ∅) w').

(** A run of timed requests, with the responses in order. *)
Fixpoint serve_all (env : Env) (reqs : list (Z * BillingRequest)) (w : World)
  : list (Result json) * World :=
  match reqs with
  | [] => ([], w)
  | (now, req) :: rest =>
      let '(r, w1) := serve env now req w in
      let '(rs, w2) := serve_all env rest w1 in
      (r :: rs, w2)
  end.

(** ** A concrete environment for the examples

    Payloads are the compact JSON text of the event; the digests are the
    HMAC-SHA256 values of exactly these bytes under the secrets below. *)
Module Fixture.

Definition dq : string := String (ascii_of_nat 34) EmptyString.

(** Compact JSON text of a value whose strings need no escaping. *)
Fixpoint dumps (v : json) : string :=
  match v with
  | JNull => "null"
  | JBool b => if b then "true" else "false"
  | JInt n => pretty n
  | JFloat _ => "NaN"
  | JStr s => dq +:+ s +:+ dq
  | JArr l =>
      "[" +:+
      (fix items (l : list json) : string :=
         match l with
         | [] => EmptyString
         | x :: r =>
             match r with
             | [] => dumps x
             | _ => dumps x +:+ "," +:+ items r
             end
         end) l +:+ "]"
  | JObj l =>
      "{" +:+
      (fix fields (l : list (string * json)) : string :=
         match l with
         | [] => EmptyString
         | (k, x) :: r =>
             match r with
             | [] => dq +:+ k +:+ dq +:+ ":" +:+ dumps x
             | _ => dq +:+ k +:+ dq +:+ ":" +:+ dumps x +:+ "," +:+ fields r
             end
         end) l +:+ "}"
  end.

Definition body (v : json) : list Byte.byte := list_byte_of_string (dumps v).

Definition test_settings : Settings :=
  {| payment_gateway := "stripe";
     stripe_secret_key := "sk_test_4eC39HqLyjWDarjtT1zdp7dc";
     stripe_webhook_secret := "whsec_test";
     stripe_price_id := "price_499";
     razorpay_key_id := "rzp_test_key";
     razorpay_key_secret := "rzp_test_secret";
     razorpay_webhook_secret := "rzp_whsec";
     razorpay_plan_amount := 49900;
     frontend_url := "http://localhost:5173" |}.

(** Razorpay events. *)
Definition payment_event (kind payment_id : string) (notes : json) : json :=
  JObj [("event", JStr kind);
        ("payload",
         JObj [("payment",
                JObj [("entity",
                       JObj [("id", JStr payment_id); ("notes", notes)])])])].

Definition captured : json :=
  payment_event "payment.captured" "pay_001" (JObj [("user_id", JStr "1")]).
Definition captured_abc : json :=
  payment_event "payment.captured" "pay_002" (JObj [("user_id", JStr "abc")]).
Definition authorized : json :=
  payment_event "payment.authorized" "pay_003" (JObj [("user_id", JStr "1")]).
Definition captured_no_notes : json :=
  payment_event "payment.captured" "pay_004" (JArr []).
Definition order_paid : json :=
  JObj [("event", JStr "order.paid");
        ("payload",
         JObj [("order", JObj [("entity", JObj [("id", JStr "order_001")])])])].

Definition razorpay_deliveries : list (json * string) :=
  [(captured, "4b2f36d0d0d72d58aa9e963f644bebc7bb923bd9807f041ce41aa68fffd95cbc");
   (captured_abc, "38c90d6383945d1760e9cf72c75c36724a2a1f9dee7167d01e1644c7e49ea856");
   (order_paid, "6cd0e6be8b24207e16113c6d64473e9293ca5c22322baf2194cf4057abe92dcb");
   (authorized, "f319579bb6ace88e042b09fabdba06bfc5f34bb02a541838c1ade6c141f95e07");
   (captured_no_notes, "fc5a807ab7a95d25d1b0eff5c2d8f6bfc794d8b25906416b387cc03e5a61b6d2")].

(** Stripe events, with the JSON they arrive as and their
    [Stripe-Signature] header. *)
Definition stripe_json (e : StripeEvent) : json :=
  JObj [("id", JStr (event_id e));
        ("type", JStr (event_type e));
        ("data",
         JObj [("object",
                JObj [("metadata",
                       JObj (match metadata (data_object e) !! "user_id" with
                             | Some s => [("user_id", JStr s)]
                             | None => []
                             end));
                      ("customer",
                       match customer (data_object e) with
                       | Some c => JStr c
                       | None => JNull
                       end)])])].

Definition completed : StripeEvent :=
  {| event_id := "evt_001"; event_type := "checkout.session.completed";
     data_object := {| metadata := {["user_id" := "1"]}; customer := Some "cus_001" |} |}.
Definition completed_abc : StripeEvent :=
  {| event_id := "evt_002"; event_type := "checkout.session.completed";
     data_object := {| metadata := {["user_id" := "abc"]}; customer := Some "cus_002" |} |}.
Definition intent_created : StripeEvent :=
  {| event_id := "evt_003"; event_type := "payment_intent.created";
     data_object := {| metadata := ∅; customer := None |} |}.

(** Each delivery with the time [t] Stripe signed it at. *)
Definition stripe_deliveries : list (StripeEvent * Z * string) :=
  [(completed, 1700000000,
    "t=1700000000,v1=1bc685831eaa0377aca6250296742efbc2f36307dc4240345b236e4735f526e9");
   (completed, 1700003600,
    "t=1700003600,v1=19001db87f1383311a8579206f4a0a09849af551a7d9a5643ac07874444698cf");
   (completed, 1700086400,
    "t=1700086400,v1=38fc81b798bbdb73d48612c8dae816cbd3a26d4f49897c2f8469778e43a33f9f");
   (completed_abc, 1700000000,
    "t=1700000000,v1=859df66a9c826d46e76318ceed29bfa16786f8f48a34ee9e9e59aac6ff04a25b");
   (intent_created, 1700000000,
    "t=1700000000,v1=bee8ae75a8d6b79801716002ee34f1a5cd8c51b2f84c89b37c205547e9cfed35")].

(** HMAC-SHA256 of [order_001|pay_001] under the key secret. *)
Definition payment_signature : string :=
  "5685acc19a8b15fc1d38dd39ddfbe4f7c9bf151030c1bf1149c6cf8d3e723aee".

Definition same_bytes (a b : list Byte.byte) : bool :=
  String.eqb (string_of_list_byte a) (string_of_list_byte b).

Definition test_env : Env :=
  {| settings := test_settings;
     stripe_checkout_Session_create := fun _ _ _ _ _ =>
       Ok "https://checkout.stripe.com/c/pay/cs_test_a1";
     stripe_Webhook_construct_event := fun now payload sig_header secret =>
       match
         find (fun d => same_bytes (body (stripe_json d.1.1)) payload
                        && String.eqb d.2 sig_header) stripe_deliveries
       with
       | Some d =>
           if d.1.2 <? now - 300
           then Raise (Exc StripeSignatureVerificationError
                         "Timestamp outside the tolerance zone")
           else Ok d.1.1
       | None =>
           Raise (Exc StripeSignatureVerificationError
                    "No signatures found matching the expected signature for payload")
       end;
     razorpay_order_create := fun _ amount _ _ =>
       Ok {| order_id_ := "order_001"; order_amount := amount; order_currency := "INR" |};
     razorpay_utility_verify_payment_signature := fun order_id payment_id signature =>
       if String.eqb order_id "order_001" && String.eqb payment_id "pay_001"
          && String.eqb signature payment_signature
       then Ok tt
       else Raise (Exc RazorpaySignatureVerificationError
                     "Razorpay Signature Verification Failed");
     hmac_sha256_hexdigest := fun key msg =>
       match
         find (fun d => same_bytes (body d.1) msg) razorpay_deliveries
       with
       | Some d =>
           if same_bytes key (list_byte_of_string "rzp_whsec")
           then d.2
           else "0000000000000000000000000000000000000000000000000000000000000000"
       | None => "0000000000000000000000000000000000000000000000000000000000000000"
       end;
     json_loads := fun payload =>
       match
         find (fun v => same_bytes (body v) payload)
           (razorpay_deliveries.*1 ++ (stripe_json <$> stripe_deliveries.*1.*1))%list
       with
       | Some v => Ok v
       | None => Raise (Exc JSONDecodeError "Expecting value")
       end;
     repr := dumps |}.

Definition alice : User :=
  {| id := 1; email := "alice@example.com"; hashed_password := "$2b$12$alice";
     is_paid := false; stripe_customer_id := None; created_at := 1700000000 |}.

Definition bob : User :=
  {| id := 2; email := "bob@example.com"; hashed_password := "$2b$12$bob";
     is_paid := true; stripe_customer_id := Some "cus_900"; created_at := 1700000100 |}.

(** Two users, nothing in Redis; before and after [connect()]. *)
Definition offline : World :=
  {| db := {[1 := alice; 2 := bob]}; commits := 0; session := ∅;
     redis_service := {| redis := None |}; calls := [] |}.

Definition online : World :=
  {| db := {[1 := alice; 2 := bob]}; commits := 0; session := ∅;
     redis_service := {| redis := Some ∅ |}; calls := [] |}.

(** A signature header holding the single character U+00E9. *)
Definition non_ascii_signature : string := String (ascii_of_nat 233) EmptyString.

(** What Stripe says when the configured price does not exist. *)
Definition no_such_price : string :=
  "Request req_314159: No such price: 'price_499'".

(** The same environment, with both providers answering every creation
    call with the exception [e]. *)
Definition failing_env (e : PyExc) : Env :=
  {| settings := test_settings;
     stripe_checkout_Session_create := fun _ _ _ _ _ => Raise e;
     stripe_Webhook_construct_event := stripe_Webhook_construct_event test_env;
     razorpay_order_create := fun _ _ _ _ => Raise e;
     razorpay_utility_verify_payment_signature :=
       razorpay_utility_verify_payment_signature test_env;
     hmac_sha256_hexdigest := hmac_sha256_hexdigest test_env;
     json_loads := json_loads test_env;
     repr := dumps |}.

(** The client's confirmation of payment [pay_001], with the signature it
    claims. *)
Definition confirmation (signature : string) : PaymentVerifyRequest :=
  {| razorpay_order_id := "order_001"; razorpay_payment_id := "pay_001";
     razorpay_signature := signature |}.

(** The world after alice's payment [pay_001] was verified at
    1700000000. *)
Definition paid_once : World :=
  (verify_razorpay_payment test_env 1700000000
     (confirmation payment_signature) alice online).2.

(** The world after the [payment.captured] event for alice was handled at
    1700000000. *)
Definition after_captured : World :=
  (serve test_env 1700000000
     (RazorpayWebhook (body captured)
        "4b2f36d0d0d72d58aa9e963f644bebc7bb923bd9807f041ce41aa68fffd95cbc")
     online).2.

End Fixture.

(** ** Vocabulary of the statements *)

(** What a handled delivery leaves under its key. *)
Definition processed (now : Z) : RedisEntry :=
  {| value := VRaw "processed"; expires_at := Some (now + 86400) |}.

(** Rows, commits, session and Redis are what they were. *)
Definition entitlements_kept (w w' : World) : Prop :=
  db w' = db w /\ commits w' = commits w /\ session w' = session w
  /\ redis_service w' = redis_service w.

(** The detail of the HTTP 500 that answers a provider error: the text of
    the upstream exception, behind the prefix of the adapter that caught
    it.  [StripeService] catches [StripeError] only; anything else raised
    on the Stripe path reaches the router as it is. *)
Definition stripe_failure_detail (e : PyExc) : string :=
  if isinstance e StripeError then "Stripe error: " +:+ str_exc e else str_exc e.

(** [RazorpayService] catches every exception. *)
Definition razorpay_failure_detail (e : PyExc) : string :=
  "Razorpay error: " +:+ str_exc e.

(** The one provider call a checkout for [u] makes. *)
Definition stripe_call (env : Env) (u : User) : Call :=
  StripeSessionCreate (email u) (id u) (success_url_of env) (cancel_url_of env).

Definition razorpay_call (env : Env) (u : User) : Call :=
  RazorpayOrderCreate (razorpay_plan_amount (settings env))
    ("order_user_" +:+ pretty (id u)) (pretty (id u)).

(** What the client is told contains the upstream text as it is. *)
Definition carries_verbatim (raw detail : string) : Prop :=
  exists prefix, detail = prefix +:+ raw.

(** No live entry under [key], whether or not Redis is connected. *)
Definition unseen (now : Z) (w : World) (key : string) : Prop :=
  forall ks, redis (redis_service w) = Some ks -> live now ks key = None.

(** Redis is [ks] plus the key, written at [now]. *)
Definition recorded (now : Z) (key : string) (ks : Keyspace) (w' : World) : Prop :=
  redis (redis_service w') = Some (<[key := processed now]> ks).

(** The idempotency keys of the three paths. *)
Definition stripe_key (ev : StripeEvent) : string :=
  "stripe_event:" +:+ event_id ev.

(** Redis holds [key], written by a handler, and it is live at
    [at_time]. *)
Definition live_key (at_time : Z) (key : string) (w : World) : Prop :=
  exists ks t0,
    redis (redis_service w) = Some ks
    /\ ks !! key = Some (processed t0)
    /\ at_time < t0 + 86400.

(** [event.get("payload", {}).get("payment", {}).get("entity", {}).get("id")] *)
Definition payment_id_of (event : json) : Result json :=
  match get event "payload" (JObj []) with
  | Ok payload_ =>
      match get payload_ "payment" (JObj []) with
      | Ok payment =>
          match get payment "entity" (JObj []) with
          | Ok entity => get entity "id" JNull
          | Raise e => Raise e
          end
      | Raise e => Raise e
      end
  | Raise e => Raise e
  end.

Definition razorpay_key (env : Env) (payment_id : json) : string :=
  "razorpay_webhook:" +:+ str_json env payment_id.

(** The HMAC of the payload matches the signature header. *)
Definition razorpay_verified (env : Env) (payload : list Byte.byte) (sig : string)
  : Prop :=
  forall w, verify_webhook_signature env payload sig w = (Ok true, w).

Definition payment_key (payment_data : PaymentVerifyRequest) : string :=
  "razorpay_payment:" +:+ razorpay_payment_id payment_data.

(** The user with primary key [k] exists and is paid. *)
Definition paid_in (rows : gmap Z User) (k : Z) : Prop :=
  exists u, rows !! k = Some u /\ is_paid u = true.

(** Every object a session holds is paid, or is the row as it stands. *)
Definition session_ok (s rows : gmap Z User) : Prop :=
  forall j x, s !! j = Some x -> is_paid x = true \/ rows !! j = Some x.

(** The request carries a payment event whose signature verified. *)
Definition verified_payment (env : Env) (now : Z) (req : BillingRequest) : Prop :=
  match req with
  | StripeWebhook payload sig =>
      exists ev,
        stripe_Webhook_construct_event env now payload sig
          (stripe_webhook_secret (settings env)) = Ok ev
        /\ event_type ev = "checkout.session.completed"
  | RazorpayWebhook payload sig =>
      razorpay_verified env payload sig
      /\ exists event,
           json_loads env payload = Ok event
           /\ get event "event" JNull = Ok (JStr "payment.captured")
  | VerifyRazorpayPayment _ payment_data =>
      razorpay_client env = true
      /\ razorpay_utility_verify_payment_signature env
           (razorpay_order_id payment_data)
           (razorpay_payment_id payment_data)
           (razorpay_signature payment_data) = Ok tt
  | _ => False
  end.

(** The fixed-window counter in the words of the specification: increment
    the counter; if that produced 1, set the key's time to live to the
    window length; reject if the value exceeds the ceiling, else allow.
    A counter is its value and the time its key expires, if any. *)
Definition spec_fixed_window (ceiling window now : Z) (counter : option (Z * option Z))
  : bool * (Z * option Z) :=
  let current := match counter with Some (n, _) => n + 1 | None => 1 end in
  let expiry := if current =? 1 then Some (now + window) else counter ≫= snd in
  (negb (current >? ceiling), (current, expiry)).

(** The counter that Redis holds under [key] at time [now]. *)
Definition counter_of (now : Z) (ks : Keyspace) (key : string) : option (Z * option Z) :=
  match live now ks key with
  | Some e =>
      match redis_int (value e) with
      | Some n => Some (n, expires_at e)
      | None => None
      end
  | None => None
  end.

(** The answer for a request that brought the counter to [current]. *)
Definition verdict (self : RateLimiter) (current : Z) : Result bool :=
  if current >? max_requests self
  then Raise (HTTPException 429
                ("Rate limit exceeded. Try again in "
                 +:+ pretty (window_seconds self) +:+ " seconds."))
  else Ok true.

(** The same request at each of the given times. *)
Fixpoint check_all (self : RateLimiter) (request : Request) (times : list Z)
    (w : World) : list (Result bool) * World :=
  match times with
  | [] => ([], w)
  | now :: rest =>
      let '(r, w1) := check_rate_limit self now request w in
      let '(rs, w2) := check_all self request rest w1 in
      (r :: rs, w2)
  end.

(** ** Vocabulary of the further properties *)

(** Every character of [s] passes the test [p]. *)
Fixpoint all_chars (p : ascii -> bool) (s : string) : bool :=
  match s with
  | EmptyString => true
  | String c rest => p c && all_chars p rest
  end.

(** [event["payload"]["payment"]["entity"]], as the [payment.captured]
    branch of the Razorpay webhook reads it. *)
Definition payment_entity_of (event : json) : Result json :=
  match getitem event "payload" with
  | Ok payload_ =>
      match getitem payload_ "payment" with
      | Ok payment => getitem payment "entity"
      | Raise e => Raise e
      end
  | Raise e => Raise e
  end.

(** [payment_entity.get("notes", {}).get("user_id")] *)
Definition notes_user_id (entity : json) : Result json :=
  match get entity "notes" (JObj []) with
  | Ok notes => get notes "user_id" JNull
  | Raise e => Raise e
  end.


(** The SDK call that checks a client's payment confirmation. *)
Definition verify_call (payment_data : PaymentVerifyRequest) : Call :=
  RazorpayVerifyPaymentSignature (razorpay_order_id payment_data)
    (razorpay_payment_id payment_data) (razorpay_signature payment_data).

(** [request.client.host if request.client else "unknown"] *)
Definition client_ip (request : Request) : string :=
  match client request with Some host => host | None => "unknown" end.

Definition no_colon (s : string) : bool :=
  all_chars (fun c => negb (Ascii.eqb c ":")) s.

(** What [get] finds at [now'] under a key that [set] wrote at [now]. *)
Definition stored (now now' : Z) (val : string) (ttl : option Z) : option string :=
  match truthy_ttl ttl with
  | Some t => if now' <? now + t then Some val else None
  | None => Some val
  end.

(** ** [app/routers/auth.py] *)

(** [app/services/auth.py] and [app/schemas/auth.py] are not among the
    sources: the three functions that the router imports from the former
    are taken as they come.  [hash_password] draws a salt, which is an
    argument here; [create_access_token] reads the clock. *)
Record AuthService := {
  hash_password : string -> string -> string;      (* salt, password *)
  verify_password : string -> string -> bool;      (* password, hash *)
  create_access_token : Z -> Z -> string -> string; (* clock, user id, email *)
}.

(** [UserCreate] and [UserLogin], as far as the handlers read them. *)
Record UserCreate := {
  user_data_email : string;
  user_data_password : string;
}.

(** [Token(access_token=...)]; [tests/test_auth.py] reads its other field,
    [token_type], as ["bearer"]. *)
Definition Token (access_token : string) : json :=
  JObj [("access_token", JStr access_token); ("token_type", JStr "bearer")].

(** [db.execute(select(User).where(User.email == e))] followed by
    [scalar_one_or_none()]: no row gives [None], more than one row raises;
    the row found is held by the session from then on. *)
Definition select_user_by_email (e : string) : M (option User) :=
  let* rows := gets db in
  match map_to_list (filter (fun kv => email kv.2 = e) rows) with
  | [] => ret None
  | [(k, u)] =>
      let* held := gets (fun w => session w !! k) in
      match held with
      | Some x => ret (Some x)
      | None => modify (with_session (<[k := u]>));; ret (Some u)
      end
  | _ =>
      raise (Exc (OtherException "MultipleResultsFound")
               "Multiple rows were found when one or none was required")
  end.

(** The primary key that SQLite, the database of the default
    [database_url], gives a new row: one more than the largest in use, 1 in
    an empty table. *)
Definition next_id (rows : gmap Z User) : Z :=
  match map_to_list rows with
  | [] => 1
  | (k, _) :: rest => 1 + foldr (fun kv m => Z.max kv.1 m) k rest
  end.

(** [db.add(new_user); await db.commit(); await db.refresh(new_user)] for
    [new_user = User(email=e, hashed_password=h)]: the columns that were
    not given take their defaults.  The index on [email] is unique. *)
Definition add_user (now : Z) (e h : string) : M User :=
  let* rows := gets db in
  if bool_decide (map_to_list (filter (fun kv => email kv.2 = e) rows) = [])
  then
    let new_user :=
      {| id := next_id rows; email := e; hashed_password := h; is_paid := false;
         stripe_customer_id := None; created_at := now |} in
    assign (id new_user) new_user;;
    commit;;
    ret new_user
  else
    raise (Exc (OtherException "IntegrityError")
             "UNIQUE constraint failed: users.email").

Definition signup (auth : AuthService) (now : Z) (salt : string)
    (user_data : UserCreate) (request : Request) : M json :=
  check_rate_limit auth_rate_limiter now request;;
  let* existing_user := select_user_by_email (user_data_email user_data) in
  match existing_user with
  | Some _ => raise (HTTPException HTTP_400_BAD_REQUEST "Email already registered")
  | None =>
      let hashed_pwd := hash_password auth salt (user_data_password user_data) in
      let* new_user := add_user now (user_data_email user_data) hashed_pwd in
      let access_token := create_access_token auth now (id new_user) (email new_user) in
      ret (Token access_token)
  end.

Definition login (auth : AuthService) (now : Z)
    (user_data : UserCreate) (request : Request) : M json :=
  check_rate_limit auth_rate_limiter now request;;
  let* user := select_user_by_email (user_data_email user_data) in
  match user with
  | Some u =>
      if negb (verify_password auth (user_data_password user_data) (hashed_password u))
      then raise (HTTPException HTTP_401_UNAUTHORIZED "Invalid email or password")
      else ret (Token (create_access_token auth now (id u) (email u)))
  | None => raise (HTTPException HTTP_401_UNAUTHORIZED "Invalid email or password")
  end.

(** Requests to the auth router, each served with a session of its own. *)
Inductive AuthRequest :=
| Signup (salt : string) (user_data : UserCreate) (request : Request)
| Login (user_data : UserCreate) (request : Request).

Definition serve_auth (auth : AuthService) (now : Z) (req : AuthRequest) (w : World)
  : Result json * World :=
  let '(r, w') :=
    match req with
    | Signup salt user_data request => signup auth now salt user_data request
    | Login user_data request => login auth now user_data request
    end (with_session (fun _ => ∅) w) in
  (r, with_session (fun _ => ∅) w').

(** A run of timed requests to the auth router. *)
Fixpoint serve_auth_all (auth : AuthService) (reqs : list (Z * AuthRequest))
    (w : World) : list (Result json) * World :=
  match reqs with
  | [] => ([], w)
  | (now, req) :: rest =>
      let '(r, w1) := serve_auth auth now req w in
      let '(rs, w2) := serve_auth_all auth rest w1 in
      (r :: rs, w2)
  end.

(** The starlette request that came with a request to the auth router. *)
Definition request_of (req : AuthRequest) : Request :=
  match req with
  | Signup _ _ request => request
  | Login _ request => request
  end.

(** No two rows share an email address. *)
Definition unique_emails (rows : gmap Z User) : Prop :=
  forall j k u v,
    rows !! j = Some u -> rows !! k = Some v -> email u = email v -> j = k.

(** Every row sits under its primary key. *)
Definition keyed (rows : gmap Z User) : Prop :=
  forall k u, rows !! k = Some u -> id u = k.

(** Nobody is registered under [e]. *)
Definition unregistered (rows : gmap Z User) (e : string) : Prop :=
  forall k u, rows !! k = Some u -> email u <> e.

(** The row that [signup] inserts. *)
Definition new_user (rows : gmap Z User) (now : Z) (e h : string) : User :=
  {| id := next_id rows; email := e; hashed_password := h; is_paid := false;
     stripe_customer_id := None; created_at := now |}.

Definition invalid_credentials : PyExc :=
  HTTPException HTTP_401_UNAUTHORIZED "Invalid email or password".

(** ** [RedisService.get_json] and [set_json] *)

(** The rest of the Python runtime that the signals feed reaches:
    [json.dumps], [json.loads] on a [str], the clock as
    [datetime.utcnow().isoformat()] renders it, [datetime.fromisoformat],
    the validation that constructing a pydantic [Signal] runs (its result
    is the object as the response carries it), and the class of the error
    that slicing a [dict] raises, [TypeError] before Python 3.12 and
    [KeyError] from then on. *)
Record Runtime := {
  json_dumps : json -> string;
  json_loads_str : string -> Result json;
  utcnow_isoformat : Z -> string;
  datetime_fromisoformat : string -> Result json;
  Signal : json -> json -> json -> json -> json -> json -> Result json;
  dict_slice_error : ExcClass;
}.

(** [None] is [JNull]. *)
Definition redis_get_json (rt : Runtime) (now : Z) (key : string) : M json :=
  let* value := redis_get now key in
  match value with
  | Some s => if truthy_str s then lift (json_loads_str rt s) else ret JNull
  | None => ret JNull
  end.

Definition redis_set_json (rt : Runtime) (now : Z) (key : string) (value : json)
    (ttl : option Z) : M bool :=
  redis_set now key (json_dumps rt value) ttl.

(** ** [app/routers/signals.py] *)

Definition signal (symbol action : string) (price target stop_loss : Q)
    (timestamp : string) : json :=
  JObj [("symbol", JStr symbol);
        ("action", JStr action);
        ("price", JFloat (FFinite price));
        ("target", JFloat (FFinite target));
        ("stop_loss", JFloat (FFinite stop_loss));
        ("timestamp", JStr timestamp)].

Definition MOCK_SIGNALS : list json :=
  [signal "NIFTY" "BUY" (2245050 # 100) (2265000 # 100) (2235000 # 100)
     "2024-01-28T10:30:00Z";
   signal "BANKNIFTY" "SELL" (4820000 # 100) (4780000 # 100) (4840000 # 100)
     "2024-01-28T10:35:00Z";
   signal "RELIANCE" "BUY" (289025 # 100) (295000 # 100) (286000 # 100)
     "2024-01-28T10:40:00Z";
   signal "TCS" "HOLD" (412500 # 100) (420000 # 100) (405000 # 100)
     "2024-01-28T10:45:00Z";
   signal "HDFC BANK" "BUY" (165075 # 100) (172000 # 100) (162000 # 100)
     "2024-01-28T10:50:00Z";
   signal "INFOSYS" "SELL" (158000 # 100) (152000 # 100) (161000 # 100)
     "2024-01-28T10:55:00Z";
   signal "ICICI BANK" "BUY" (112050 # 100) (118000 # 100) (109000 # 100)
     "2024-01-28T11:00:00Z";
   signal "SBIN" "BUY" (78025 # 100) (82000 # 100) (76000 # 100)
     "2024-01-28T11:05:00Z"].

Definition SIGNALS_CACHE_KEY : string := "signals:all".
Definition SIGNALS_CACHE_TTL : Z := 300.
Definition FREE_USER_SIGNAL_LIMIT : nat := 3.

(** [d[key] = v] on a dict: an existing key keeps its place. *)
Fixpoint dict_set (fields : list (string * json)) (key : string) (v : json)
  : list (string * json) :=
  match fields with
  | [] => [(key, v)]
  | (k, x) :: rest =>
      if String.eqb k key then (k, v) :: rest else (k, x) :: dict_set rest key v
  end.

(** [signal["timestamp"] = current_time] on one of the dicts above. *)
Definition set_timestamp (current_time : string) (s : json) : json :=
  match s with
  | JObj fields => JObj (dict_set fields "timestamp" (JStr current_time))
  | _ => s
  end.

(** [MOCK_SIGNALS.copy()] copies the list, not the dicts: the loop writes
    the timestamps into the dicts of [MOCK_SIGNALS] themselves.  No code
    reads a timestamp of [MOCK_SIGNALS] before the next run of the loop
    has overwritten it, so the module's list is the constant above. *)
Definition get_signals_data (rt : Runtime) (now : Z) : M json :=
  let* cached := redis_get_json rt now SIGNALS_CACHE_KEY in
  if truthy cached
  then ret cached
  else
    let current_time := utcnow_isoformat rt now +:+ "Z" in
    let signals := JArr (set_timestamp current_time <$> MOCK_SIGNALS) in
    redis_set_json rt now SIGNALS_CACHE_KEY signals (Some SIGNALS_CACHE_TTL);;
    ret signals.

(** [s.replace("Z", "+00:00")] *)
Fixpoint replace_Z (s : string) : string :=
  match s with
  | EmptyString => EmptyString
  | String c rest =>
      if Ascii.eqb c "Z" then "+00:00" +:+ replace_Z rest else String c (replace_Z rest)
  end.

(** One [Signal(symbol=s["symbol"], ..., timestamp=datetime.fromisoformat(
    s["timestamp"].replace("Z", "+00:00")))], its arguments evaluated in
    order. *)
Definition to_signal (rt : Runtime) (s : json) : Result json :=
  match getitem s "symbol" with
  | Raise e => Raise e
  | Ok symbol =>
  match getitem s "action" with
  | Raise e => Raise e
  | Ok action =>
  match getitem s "price" with
  | Raise e => Raise e
  | Ok price =>
  match getitem s "target" with
  | Raise e => Raise e
  | Ok target =>
  match getitem s "stop_loss" with
  | Raise e => Raise e
  | Ok stop_loss =>
  match getitem s "timestamp" with
  | Raise e => Raise e
  | Ok (JStr t) =>
      match datetime_fromisoformat rt (replace_Z t) with
      | Ok timestamp => Signal rt symbol action price target stop_loss timestamp
      | Raise e => Raise e
      end
  | Ok _ => Raise (Exc AttributeError "object has no attribute 'replace'")
  end end end end end end.

(** The list comprehension: the first element that fails ends it. *)
Fixpoint to_signals (rt : Runtime) (signals : list json) : Result (list json) :=
  match signals with
  | [] => Ok []
  | s :: rest =>
      match to_signal rt s with
      | Ok x =>
          match to_signals rt rest with
          | Ok xs => Ok (x :: xs)
          | Raise e => Raise e
          end
      | Raise e => Raise e
      end
  end.

Definition SignalsResponse (signals : list json) (is_limited : bool)
    (total_count : nat) : json :=
  JObj [("signals", JArr signals);
        ("is_limited", JBool is_limited);
        ("total_count", JInt (Z.of_nat total_count))].

Definition string_indices : PyExc :=
  Exc TypeError "string indices must be integers, not 'str'".

(** [get_signals] on what [get_signals_data] returned, which is a list
    unless the cache held something else: [len], the slice and the
    subscripts then fail as Python has it. *)
Definition get_signals (rt : Runtime) (now : Z) (current_user : User) : M json :=
  let* all_signals := get_signals_data rt now in
  match all_signals with
  | JArr l =>
      let total_count := length l in
      let signals := if is_paid current_user then l else take FREE_USER_SIGNAL_LIMIT l in
      let is_limited := negb (is_paid current_user) in
      let* signal_objects := lift (to_signals rt signals) in
      ret (SignalsResponse signal_objects is_limited total_count)
  | JStr s =>
      (* a cached string is not empty: its first character is subscripted *)
      match s with
      | EmptyString => ret (SignalsResponse [] (negb (is_paid current_user)) 0)
      | String _ _ => raise string_indices
      end
  | JObj fields =>
      (* iterating over a dict yields its keys, which are strings *)
      if is_paid current_user
      then
        match fields with
        | [] => ret (SignalsResponse [] false 0)
        | _ :: _ => raise string_indices
        end
      else raise (Exc (dict_slice_error rt) "slice(None, 3, None)")
  | JNull | JBool _ | JInt _ | JFloat _ =>
      raise (Exc TypeError "object has no len()")
  end.

(** ** The application: billing, signup, login and the feed over one world *)

Definition serve_signals (rt : Runtime) (now : Z) (credentials : option Z) (w : World)
  : Result json * World :=
  let '(r, w') :=
    (let* u := get_current_user credentials in get_signals rt now u)
      (with_session (fun _ => ∅) w) in
  (r, with_session (fun _ => ∅) w').

Inductive AppRequest :=
| Billing (req : BillingRequest)
| Auth (req : AuthRequest)
| GetSignals (credentials : option Z).

Definition serve_app (env : Env) (auth : AuthService) (rt : Runtime)
    (now : Z) (req : AppRequest) (w : World) : Result json * World :=
  match req with
  | Billing r => serve env now r w
  | Auth r => serve_auth auth now r w
  | GetSignals c => serve_signals rt now c w
  end.

Fixpoint serve_app_all (env : Env) (auth : AuthService) (rt : Runtime)
    (reqs : list (Z * AppRequest)) (w : World) : list (Result json) * World :=
  match reqs with
  | [] => ([], w)
  | (now, req) :: rest =>
      let '(r, w1) := serve_app env auth rt now req w in
      let '(rs, w2) := serve_app_all env auth rt rest w1 in
      (r :: rs, w2)
  end.

(** The columns of an account that no request changes. *)
Definition same_account (x u : User) : Prop :=
  id x = id u /\ email x = email u /\ hashed_password x = hashed_password u
  /\ created_at x = created_at u.

(** Every object a session holds is a row, up to its entitlement columns,
    and sits under its primary key. *)
Definition session_accounts (s rows : gmap Z User) : Prop :=
  forall j x, s !! j = Some x -> exists u, rows !! j = Some u /\ same_account x u.

(** The list that [get_signals_data] builds at [now] when the cache has
    nothing to offer. *)
Definition fresh_signals (rt : Runtime) (now : Z) : json :=
  JArr (set_timestamp (utcnow_isoformat rt now +:+ "Z") <$> MOCK_SIGNALS).

(** What the cache holds for a list cached at [now]. *)
Definition cached_signals (rt : Runtime) (now : Z) : RedisEntry :=
  {| value := VRaw (json_dumps rt (fresh_signals rt now));
     expires_at := Some (now + 300) |}.

(** [json.loads] gives back what [json.dumps] wrote, and [json.dumps]
    writes at least one character. *)
Definition json_round_trip (rt : Runtime) (v : json) : Prop :=
  json_dumps rt v <> "" /\ json_loads_str rt (json_dumps rt v) = Ok v.

(** The table is well formed. *)
Definition table_ok (rows : gmap Z User) : Prop :=
  unique_emails rows /\ keyed rows.

(** Every account of [rows] is still in [rows'], with the same id, email,
    password hash and creation time. *)
Definition accounts_persist (rows rows' : gmap Z User) : Prop :=
  forall k u, rows !! k = Some u ->
  exists u', rows' !! k = Some u' /\ same_account u' u.

(** The keys under which the billing router records what it handled. *)
Definition billing_key (key : string) : Prop :=
  exists x, key = "stripe_event:" +:+ x
            \/ key = "razorpay_webhook:" +:+ x
            \/ key = "razorpay_payment:" +:+ x.

(** The answer of [auth_rate_limiter] to a request over its ceiling. *)
Definition too_many_requests : PyExc :=
  HTTPException 429 "Rate limit exceeded. Try again in 60 seconds.".

(** ** More of the concrete environment: the auth service, the runtime
    of the signals feed, and further payment events *)
Module Demo.

(** A [payment.captured] event for the payment that [Fixture.authorized]
    announced, with its HMAC-SHA256 under the webhook secret. *)
Definition captured_003 : json :=
  Fixture.payment_event "payment.captured" "pay_003" (JObj [("user_id", JStr "1")]).

Definition captured_003_signature : string :=
  "a52f204a78730ed27832bbd8a0b3edd013c3853fcb5a2fba1038cc780d5a2b60".

Definition authorized_signature : string :=
  "f319579bb6ace88e042b09fabdba06bfc5f34bb02a541838c1ade6c141f95e07".

Definition captured_signature : string :=
  "4b2f36d0d0d72d58aa9e963f644bebc7bb923bd9807f041ce41aa68fffd95cbc".


(** [Fixture.test_env], which also knows that event. *)
Definition env : Env :=
  {| settings := Fixture.test_settings;
     stripe_checkout_Session_create := stripe_checkout_Session_create Fixture.test_env;
     stripe_Webhook_construct_event := stripe_Webhook_construct_event Fixture.test_env;
     razorpay_order_create := razorpay_order_create Fixture.test_env;
     razorpay_utility_verify_payment_signature :=
       razorpay_utility_verify_payment_signature Fixture.test_env;
     hmac_sha256_hexdigest := fun key msg =>
       if Fixture.same_bytes (Fixture.body captured_003) msg
          && Fixture.same_bytes key (list_byte_of_string "rzp_whsec")
       then captured_003_signature
       else hmac_sha256_hexdigest Fixture.test_env key msg;
     json_loads := fun payload =>
       if Fixture.same_bytes (Fixture.body captured_003) payload
       then Ok captured_003
       else json_loads Fixture.test_env payload;
     repr := Fixture.dumps |}.

(** A deployment with the Razorpay key id alone: no key secret, no
    webhook secret. *)
Definition key_id_only : Env :=
  {| settings :=
       {| payment_gateway := "stripe";
          stripe_secret_key := "sk_test_4eC39HqLyjWDarjtT1zdp7dc";
          stripe_webhook_secret := "whsec_test";
          stripe_price_id := "price_499";
          razorpay_key_id := "rzp_test_key";
          razorpay_key_secret := "";
          razorpay_webhook_secret := "";
          razorpay_plan_amount := 49900;
          frontend_url := "http://localhost:5173" |};
     stripe_checkout_Session_create := stripe_checkout_Session_create Fixture.test_env;
     stripe_Webhook_construct_event := stripe_Webhook_construct_event Fixture.test_env;
     razorpay_order_create := razorpay_order_create Fixture.test_env;
     razorpay_utility_verify_payment_signature :=
       razorpay_utility_verify_payment_signature Fixture.test_env;
     hmac_sha256_hexdigest := hmac_sha256_hexdigest Fixture.test_env;
     json_loads := json_loads Fixture.test_env;
     repr := Fixture.dumps |}.

(** A stand-in for the password hashing: the salt in front of the
    password, which [verify_password] finds again behind it. *)
Definition auth : AuthService :=
  {| hash_password := fun salt password => "$2b$12$" +:+ salt +:+ "$" +:+ password;
     verify_password := fun password hashed =>
       String.eqb
         (String.substring
            (String.length hashed - String.length ("$" +:+ password))
            (String.length ("$" +:+ password)) hashed)
         ("$" +:+ password);
     create_access_token := fun now user_id email =>
       "token." +:+ pretty user_id +:+ "." +:+ email +:+ "." +:+ pretty (now + 1800) |}.

Definition carol : UserCreate :=
  {| user_data_email := "carol@example.com"; user_data_password := "correct horse" |}.

Definition carol_mistyped : UserCreate :=
  {| user_data_email := "carol@example.com"; user_data_password := "correct house" |}.

Definition alice_again : UserCreate :=
  {| user_data_email := "alice@example.com"; user_data_password := "hunter2" |}.

(** Alice, whose stored hash ends in her password. *)
Definition alice_login : UserCreate :=
  {| user_data_email := "alice@example.com"; user_data_password := "alice" |}.

Definition from_login : Request :=
  {| client := Some "203.0.113.7"; url_path := "/auth/login" |}.

Definition from_signup : Request :=
  {| client := Some "203.0.113.7"; url_path := "/auth/signup" |}.

(** Two digits. *)
Definition two (n : Z) : string :=
  if n <? 10 then "0" +:+ pretty n else pretty n.

(** [datetime.utcfromtimestamp(now).isoformat()] for the whole seconds of
    14 November 2023, the day of the examples. *)
Definition isoformat (now : Z) : string :=
  let s := now - 1699920000 in
  "2023-11-14T" +:+ two (s / 3600) +:+ ":" +:+ two (s mod 3600 / 60)
  +:+ ":" +:+ two (s mod 60).

(** [repr] of a float with at most two decimals. *)
Definition dumps_float (q : Q) : string :=
  let cents := Qnum q * 100 / Z.pos (Qden q) in
  let f := cents mod 100 in
  pretty (cents / 100) +:+ "." +:+
  (if f mod 10 =? 0 then pretty (f / 10) else two f).

(** [json.dumps] with its default separators, for values whose strings
    need no escaping. *)
Fixpoint dumps (v : json) : string :=
  match v with
  | JNull => "null"
  | JBool b => if b then "true" else "false"
  | JInt n => pretty n
  | JFloat (FFinite q) => dumps_float q
  | JFloat FNan => "NaN"
  | JFloat (FInf negative) => if negative then "-Infinity" else "Infinity"
  | JStr s => Fixture.dq +:+ s +:+ Fixture.dq
  | JArr l =>
      "[" +:+
      (fix items (l : list json) : string :=
         match l with
         | [] => EmptyString
         | x :: r =>
             match r with
             | [] => dumps x
             | _ => dumps x +:+ ", " +:+ items r
             end
         end) l +:+ "]"
  | JObj l =>
      "{" +:+
      (fix fields (l : list (string * json)) : string :=
         match l with
         | [] => EmptyString
         | (k, x) :: r =>
             match r with
             | [] => Fixture.dq +:+ k +:+ Fixture.dq +:+ ": " +:+ dumps x
             | _ => Fixture.dq +:+ k +:+ Fixture.dq +:+ ": " +:+ dumps x
                    +:+ ", " +:+ fields r
             end
         end) l +:+ "}"
  end.

(** The feed as built at [now]. *)
Definition feed (now : Z) : json :=
  JArr (set_timestamp (isoformat now +:+ "Z") <$> MOCK_SIGNALS).

Definition is_number (v : json) : bool :=
  match v with
  | JInt _ | JFloat _ => true
  | _ => false
  end.

(** The runtime: [json.loads] reads back the feeds of the examples;
    [fromisoformat] takes the 25 characters of a time with its offset;
    [Signal] checks its fields. *)
Definition runtime : Runtime :=
  {| json_dumps := dumps;
     json_loads_str := fun s =>
       match find (fun v => String.eqb (dumps v) s)
               [feed 1700000000; feed 1700000300; JObj [("symbol", JStr "NIFTY")]] with
       | Some v => Ok v
       | None => Raise (Exc JSONDecodeError "Expecting value")
       end;
     utcnow_isoformat := isoformat;
     datetime_fromisoformat := fun s =>
       if (String.length s =? 25)%nat
       then Ok (JStr s)
       else Raise (Exc ValueError ("Invalid isoformat string: " +:+ s));
     Signal := fun symbol action price target stop_loss timestamp =>
       match symbol, action with
       | JStr _, JStr a =>
           if (String.eqb a "BUY" || String.eqb a "SELL" || String.eqb a "HOLD")
              && is_number price && is_number target && is_number stop_loss
           then Ok (JObj [("symbol", symbol); ("action", action); ("price", price);
                          ("target", target); ("stop_loss", stop_loss);
                          ("timestamp", timestamp)])
           else Raise (Exc (OtherException "ValidationError")
                         "1 validation error for Signal")
       | _, _ => Raise (Exc (OtherException "ValidationError")
                          "1 validation error for Signal")
       end;
     dict_slice_error := TypeError |}.

(** A third user, who has not paid, in the world after alice's payment
    [pay_001] was confirmed. *)
Definition carol_row : User :=
  {| id := 3; email := "carol@example.com"; hashed_password := "$2b$12$carol";
     is_paid := false; stripe_customer_id := None; created_at := 1700000300 |}.

Definition with_carol : World :=
  with_db (<[3 := carol_row]>) (with_session (fun _ => ∅) Fixture.paid_once).

End Demo.

(** * Properties *)

(** Proofs run the handlers symbolically: [run] unfolds the monad,
    [cases] splits on the tests of the code, innermost first. *)
Ltac run :=
  cbv beta iota delta
    [bind ret raise try_except gets modify lift log_call to_http
     self_redis connect assign commit].

Create HintDb billing discriminated.

Lemma redis_set_processed now key w :
  redis_set now key "processed" (Some 86400) w
  = match redis (redis_service w) with
    | Some ks => (Ok true, with_keyspace (<[key := processed now]> ks) w)
    | None => (Ok false, w)
    end.
Proof.
  unfold redis_set, self_redis, bind, gets, modify, ret.
  now destruct (redis (redis_service w)).
Qed.

#[local] Hint Unfold
  redis_get redis_exists redis_incr redis_expire check_rate_limit
  create_checkout_session construct_webhook_event create_order
  verify_payment_signature verify_webhook_signature select_user int_ get getitem
  create_stripe_checkout stripe_webhook create_razorpay_order
  verify_razorpay_payment razorpay_webhook create_checkout
  get_subscription_status get_gateway_info get_current_user : billing.

Lemma isinstance_Exception e : isinstance e Exception = true.
Proof. now destruct e. Qed.

Ltac case_on x :=
  lazymatch x with
  | negb ?b => case_on b
  | ?a && _ => case_on a
  | ?a || _ => case_on a
  | _ => destruct x eqn:?
  end.

Ltac inner_case :=
  match goal with
  | |- context [match ?x with _ => _ end] =>
      lazymatch x with
      | context [match _ with _ => _ end] => fail
      | _ => case_on x
      end
  end.

Ltac cases :=
  repeat (cbv beta iota;
          cbn [isinstance issubclass negb andb orb fst snd
               db commits session redis_service calls redis
               with_db with_commits with_session with_keyspace with_call];
          rewrite ?isinstance_Exception, ?redis_set_processed;
          try inner_case).

Ltac symbolic := autounfold with billing; run; cases; simpl in *.

Ltac finish :=
  try congruence;
  try (unfold status_only, status_paid, already_subscribed in *; congruence).

(** ** When the Redis client is not connected *)

Section Disconnected.
Variable now : Z.
Variable w : World.
Hypothesis not_connected : redis (redis_service w) = None.

Lemma redis_get_disconnected key : redis_get now key w = (Ok None, w).
Proof. unfold redis_get; run. now rewrite not_connected. Qed.

Lemma redis_set_disconnected key val ttl :
  redis_set now key val ttl w = (Ok false, w).
Proof. unfold redis_set; run. now rewrite not_connected. Qed.

Lemma redis_exists_disconnected key : redis_exists now key w = (Ok false, w).
Proof. unfold redis_exists; run. now rewrite not_connected. Qed.

Lemma redis_incr_disconnected key : redis_incr now key w = (Ok 0, w).
Proof. unfold redis_incr; run. now rewrite not_connected. Qed.

Lemma redis_expire_disconnected key ttl :
  redis_expire now key ttl w = (Ok false, w).
Proof. unfold redis_expire; run. now rewrite not_connected. Qed.

Lemma check_rate_limit_disconnected self request :
  0 <= max_requests self ->
  check_rate_limit self now request w = (Ok true, w).
Proof.
  intros Hceiling. unfold check_rate_limit, bind.
  rewrite redis_incr_disconnected. cbn.
  destruct (0 >? max_requests self) eqn:E; [lia | reflexivity].
Qed.

End Disconnected.

Lemma stripe_webhook_disconnected env now w payload sig :
  redis (redis_service w) = None ->
  (stripe_webhook env now payload sig w).1 <> Ok (status_only "already_processed").
Proof. intros Hd. symbolic; finish. Qed.

Lemma razorpay_webhook_disconnected env now w payload sig :
  redis (redis_service w) = None ->
  (razorpay_webhook env now payload sig w).1 <> Ok (status_only "already_processed").
Proof. intros Hd. symbolic; finish. Qed.

Lemma verify_razorpay_payment_disconnected env now w payment_data u :
  redis (redis_service w) = None ->
  (verify_razorpay_payment env now payment_data u w).1
  <> Ok (status_paid "already_processed").
Proof. intros Hd. symbolic; finish. Qed.

(** C10.  With [self.redis] still [None], every [RedisService] operation
    answers its default and leaves the world alone ([get]: [None], [set]:
    [False], [exists]: [False], [incr]: [0], [expire]: [False]).  So the
    limiter of the auth endpoints, like any limiter whose ceiling is not
    negative, lets every request pass, and no webhook or verification call
    ever takes the already-processed path. *)
Theorem redis_not_connected_fails_open (now : Z) (w : World) :
  redis (redis_service w) = None ->
  (forall key, redis_get now key w = (Ok None, w)) /\
  (forall key val ttl, redis_set now key val ttl w = (Ok false, w)) /\
  (forall key, redis_exists now key w = (Ok false, w)) /\
  (forall key, redis_incr now key w = (Ok 0, w)) /\
  (forall key ttl, redis_expire now key ttl w = (Ok false, w)) /\
  (forall self request,
     0 <= max_requests self ->
     check_rate_limit self now request w = (Ok true, w)) /\
  (forall request,
     check_rate_limit auth_rate_limiter now request w = (Ok true, w)) /\
  (forall env payload sig,
     (stripe_webhook env now payload sig w).1
     <> Ok (status_only "already_processed")) /\
  (forall env payload sig,
     (razorpay_webhook env now payload sig w).1
     <> Ok (status_only "already_processed")) /\
  (forall env payment_data u,
     (verify_razorpay_payment env now payment_data u w).1
     <> Ok (status_paid "already_processed")).
Proof.
  intros Hd. repeat split; intros.
  - now apply redis_get_disconnected.
  - now apply redis_set_disconnected.
  - now apply redis_exists_disconnected.
  - now apply redis_incr_disconnected.
  - now apply redis_expire_disconnected.
  - now apply check_rate_limit_disconnected.
  - now apply check_rate_limit_disconnected.
  - now apply stripe_webhook_disconnected.
  - now apply razorpay_webhook_disconnected.
  - now apply verify_razorpay_payment_disconnected.
Qed.

Lemma redis_not_connected_fails_open_witness :
  redis (redis_service Fixture.offline) = None /\
  check_rate_limit auth_rate_limiter 1700000000
    {| client := Some "203.0.113.7"; url_path := "/auth/login" |} Fixture.offline
  = (Ok true, Fixture.offline).
Proof.
  split; [reflexivity |].
  apply (redis_not_connected_fails_open 1700000000 Fixture.offline eq_refl).
Defined.

(** ** Rejected webhooks *)

Lemma stripe_webhook_rejected env now payload sig w e :
  stripe_Webhook_construct_event env now payload sig
    (stripe_webhook_secret (settings env)) = Raise e ->
  exists detail,
    (stripe_webhook env now payload sig w).1
    = Raise (HTTPException HTTP_400_BAD_REQUEST detail)
    /\ (isinstance e ValueError = false ->
        isinstance e StripeSignatureVerificationError = true ->
        detail = "Invalid signature")
    /\ entitlements_kept w (stripe_webhook env now payload sig w).2.
Proof.
  intros Hraise. unfold entitlements_kept. autounfold with billing. run.
  rewrite Hraise. cases; simpl; eexists; (split; [reflexivity |]);
    (split; [intros; congruence | tauto]).
Qed.

Lemma razorpay_webhook_rejected env now payload sig w :
  (verify_webhook_signature env payload sig w).1 = Ok false ->
  razorpay_webhook env now payload sig w
  = (Raise (HTTPException HTTP_400_BAD_REQUEST "Invalid webhook signature"), w).
Proof.
  unfold razorpay_webhook, verify_webhook_signature, compare_digest. run.
  cases; simpl; intros; congruence.
Qed.

Lemma razorpay_webhook_unverified env now payload sig w :
  (verify_webhook_signature env payload sig w).1 <> Ok true ->
  (razorpay_webhook env now payload sig w).2 = w.
Proof.
  unfold razorpay_webhook, verify_webhook_signature, compare_digest. run.
  cases; simpl; intros; congruence.
Qed.

(** Whenever verification reports a failure, the webhook is answered with
    HTTP 400 and changes nothing: no row, no session object, no commit, no
    Redis key.  For Stripe this is any delivery for which
    [stripe.Webhook.construct_event] raises (a signature failure gives the
    detail "Invalid signature"); for Razorpay any delivery for which
    [verify_webhook_signature] answers [False]. *)
Lemma webhook_rejected_when_verification_fails env now payload sig w :
  (forall e,
     stripe_Webhook_construct_event env now payload sig
       (stripe_webhook_secret (settings env)) = Raise e ->
     http_status (stripe_webhook env now payload sig w).1 = 400
     /\ (isinstance e StripeSignatureVerificationError = true ->
         (stripe_webhook env now payload sig w).1
         = Raise (HTTPException 400 "Invalid signature"))
     /\ entitlements_kept w (stripe_webhook env now payload sig w).2) /\
  ((verify_webhook_signature env payload sig w).1 = Ok false ->
   http_status (razorpay_webhook env now payload sig w).1 = 400
   /\ (razorpay_webhook env now payload sig w).1
      = Raise (HTTPException 400 "Invalid webhook signature")
   /\ (razorpay_webhook env now payload sig w).2 = w).
Proof.
  split.
  - intros e Hraise.
    destruct (stripe_webhook_rejected env now payload sig w e Hraise)
      as (detail & Hr & Hdetail & Hkept).
    rewrite Hr. repeat split; try apply Hkept.
    intros Hsig. rewrite Hdetail; [reflexivity | | exact Hsig].
    destruct e as [[] ?|]; simpl in *; congruence.
  - intros Hfalse. rewrite (razorpay_webhook_rejected _ _ _ _ _ Hfalse). auto.
Qed.

(** C1.  The Razorpay handler does not answer every failing signature with
    HTTP 400: [hmac.compare_digest] accepts [str] arguments only when they
    are ASCII, so for a configured webhook secret and a signature header
    holding any other character [verify_webhook_signature] raises
    [TypeError], which nothing catches.  The request is answered with HTTP
    500; the world is unchanged. *)
Theorem razorpay_webhook_non_ascii_signature env now payload sig w :
  razorpay_webhook_secret (settings env) <> EmptyString ->
  is_ascii sig = false ->
  razorpay_webhook env now payload sig w
  = (Raise (Exc TypeError
              "comparing strings with non-ASCII characters is not supported"), w)
  /\ http_status (razorpay_webhook env now payload sig w).1 = 500.
Proof.
  intros Hsecret Hsig.
  assert (Hrun : razorpay_webhook env now payload sig w
                 = (Raise (Exc TypeError
                      "comparing strings with non-ASCII characters is not supported"), w)).
  { unfold razorpay_webhook, verify_webhook_signature, compare_digest, truthy_str. run.
    destruct (String.eqb_spec (razorpay_webhook_secret (settings env)) EmptyString);
      [contradiction |].
    simpl. rewrite Hsig, andb_false_r. reflexivity. }
  now rewrite Hrun.
Qed.

(** A delivery of the [payment.captured] event whose signature header is
    the single character U+00E9. *)
Lemma razorpay_webhook_non_ascii_signature_witness :
  http_status
    (razorpay_webhook Fixture.test_env 1700000000
       (Fixture.body Fixture.captured) Fixture.non_ascii_signature
       Fixture.online).1 = 500
  /\ (razorpay_webhook Fixture.test_env 1700000000
        (Fixture.body Fixture.captured) Fixture.non_ascii_signature
        Fixture.online).2 = Fixture.online.
Proof.
  destruct (razorpay_webhook_non_ascii_signature Fixture.test_env 1700000000
              (Fixture.body Fixture.captured) Fixture.non_ascii_signature
              Fixture.online) as [Hrun Hstatus].
  - discriminate.
  - reflexivity.
  - split; [exact Hstatus | now rewrite Hrun].
Defined.

(** ** Checkout by a user who has already paid *)

(** C7.  For a user with [is_paid == True] each of the three checkout
    endpoints raises HTTP 400 "User already has an active subscription",
    whatever gateway is requested or configured, and leaves the world as
    it was: in particular the log of provider calls is unchanged, so no
    outbound call was made. *)
Theorem paid_user_checkout_already_subscribed env current_user gateway w :
  is_paid current_user = true ->
  create_checkout env current_user gateway w
  = (Raise (HTTPException 400 "User already has an active subscription"), w)
  /\ create_stripe_checkout env current_user w
    = (Raise (HTTPException 400 "User already has an active subscription"), w)
  /\ create_razorpay_order env current_user w
    = (Raise (HTTPException 400 "User already has an active subscription"), w).
Proof.
  intros Hpaid.
  unfold create_checkout, create_stripe_checkout, create_razorpay_order.
  rewrite Hpaid. repeat split; reflexivity.
Qed.

Lemma paid_user_checkout_already_subscribed_witness :
  is_paid Fixture.bob = true
  /\ create_checkout Fixture.test_env Fixture.bob (Some "razorpay") Fixture.online
    = (Raise (HTTPException 400 "User already has an active subscription"),
       Fixture.online)
  /\ calls (create_checkout Fixture.test_env Fixture.bob (Some "razorpay")
             Fixture.online).2 = [].
Proof.
  destruct (paid_user_checkout_already_subscribed Fixture.test_env Fixture.bob
              (Some "razorpay") Fixture.online eq_refl) as (Hunified & _ & _).
  split; [reflexivity |]. split; [exact Hunified |]. now rewrite Hunified.
Defined.

(** ** Repeated verification of a payment *)

(** C9.  [verify_razorpay_payment] looks the payment id up before it
    verifies anything: when Redis holds a live key
    [razorpay_payment:<payment id>], the answer is
    [{"status": "already_processed", "is_paid": True}] and the world is
    unchanged (no SDK call is logged, so the signature was never checked).
    This holds for every environment and every signature field, also one
    that verification would reject. *)
Theorem verify_payment_idempotency_precedes_signature
    env now payment_data current_user w ks e :
  redis (redis_service w) = Some ks ->
  ks !! ("razorpay_payment:" +:+ razorpay_payment_id payment_data) = Some e ->
  is_live now e = true ->
  verify_razorpay_payment env now payment_data current_user w
  = (Ok (JObj [("status", JStr "already_processed"); ("is_paid", JBool true)]), w).
Proof.
  intros Hredis Hkey Hlive.
  unfold verify_razorpay_payment, redis_exists, EXISTS, live. run.
  rewrite Hredis, Hkey, Hlive. reflexivity.
Qed.

(** Ten minutes after her payment was verified, alice's payment id is
    posted again with a signature that verification rejects. *)
Lemma verify_payment_idempotency_precedes_signature_witness :
  (verify_payment_signature Fixture.test_env
     "order_001" "pay_001" "forged" Fixture.paid_once).1 = Ok false
  /\ verify_razorpay_payment Fixture.test_env 1700000600
       (Fixture.confirmation "forged") Fixture.alice Fixture.paid_once
     = (Ok (JObj [("status", JStr "already_processed"); ("is_paid", JBool true)]),
        Fixture.paid_once).
Proof.
  split; [reflexivity |].
  eapply (verify_payment_idempotency_precedes_signature Fixture.test_env
            1700000600 (Fixture.confirmation "forged") Fixture.alice
            Fixture.paid_once _
            {| value := VRaw "processed"; expires_at := Some 1700086400 |}).
  - vm_compute. reflexivity.
  - reflexivity.
  - reflexivity.
Defined.

(** ** Provider errors during checkout creation *)

Lemma create_stripe_checkout_provider_error env u w e :
  is_paid u = false ->
  stripe_checkout_Session_create env (calls w)
    (email u) (id u) (success_url_of env) (cancel_url_of env) = Raise e ->
  create_stripe_checkout env u w
  = (Raise (HTTPException 500 (stripe_failure_detail e)),
     with_call (stripe_call env u) w).
Proof.
  intros Hpaid Hraise.
  unfold create_stripe_checkout, create_checkout_session, stripe_failure_detail.
  rewrite Hpaid. run. rewrite Hraise.
  destruct (isinstance e StripeError); cbn [isinstance issubclass];
    rewrite ?isinstance_Exception; reflexivity.
Qed.

Lemma create_razorpay_order_provider_error env u w e :
  is_paid u = false ->
  razorpay_client env = true ->
  razorpay_order_create env (calls w) (razorpay_plan_amount (settings env))
    ("order_user_" +:+ pretty (id u)) (pretty (id u)) = Raise e ->
  create_razorpay_order env u w
  = (Raise (HTTPException 500 (razorpay_failure_detail e)),
     with_call (razorpay_call env u) w).
Proof.
  intros Hpaid Hclient Hraise.
  unfold create_razorpay_order, create_order, razorpay_failure_detail, amount_or_plan.
  rewrite Hpaid, Hclient. run. cbn [negb]. rewrite Hraise.
  rewrite isinstance_Exception. reflexivity.
Qed.

Lemma create_checkout_stripe_provider_error env u gateway w e :
  is_paid u = false ->
  selected_gateway env gateway <> "razorpay" ->
  stripe_checkout_Session_create env (calls w)
    (email u) (id u) (success_url_of env) (cancel_url_of env) = Raise e ->
  create_checkout env u gateway w
  = (Raise (HTTPException 500 (stripe_failure_detail e)),
     with_call (stripe_call env u) w).
Proof.
  intros Hpaid Hgw Hraise.
  unfold create_checkout, create_checkout_session, stripe_failure_detail.
  rewrite Hpaid.
  destruct (String.eqb_spec (selected_gateway env gateway) "razorpay");
    [contradiction |].
  run. rewrite Hraise.
  destruct (isinstance e StripeError); cbn [isinstance issubclass];
    rewrite ?isinstance_Exception; reflexivity.
Qed.

Lemma create_checkout_razorpay_provider_error env u gateway w e :
  is_paid u = false ->
  selected_gateway env gateway = "razorpay" ->
  razorpay_client env = true ->
  razorpay_order_create env (calls w) (razorpay_plan_amount (settings env))
    ("order_user_" +:+ pretty (id u)) (pretty (id u)) = Raise e ->
  create_checkout env u gateway w
  = (Raise (HTTPException 500 (razorpay_failure_detail e)),
     with_call (razorpay_call env u) w).
Proof.
  intros Hpaid Hgw Hclient Hraise.
  unfold create_checkout, create_order, razorpay_failure_detail, amount_or_plan.
  rewrite Hpaid, Hgw, Hclient. run. cbn [negb String.eqb Ascii.eqb Bool.eqb].
  rewrite Hraise. rewrite isinstance_Exception. reflexivity.
Qed.

Lemma stripe_failure_detail_verbatim e :
  carries_verbatim (str_exc e) (stripe_failure_detail e).
Proof.
  unfold stripe_failure_detail, carries_verbatim.
  destruct (isinstance e StripeError);
    [now exists "Stripe error: " | now exists EmptyString].
Qed.

Lemma razorpay_failure_detail_verbatim e :
  carries_verbatim (str_exc e) (razorpay_failure_detail e).
Proof. now exists "Razorpay error: ". Qed.

(** C8, as the code has it.  An exception raised by the provider SDK
    during checkout creation is always turned into HTTP 500, and the log
    gains the one provider call.  The detail is the text of the upstream
    exception itself, unaltered: behind "Razorpay error: " for every
    exception of the Razorpay client, behind "Stripe error: " for a
    [StripeError], and bare for any other exception on the Stripe path,
    which only the router catches. *)
Theorem provider_error_is_500_with_upstream_text env u gateway w e :
  is_paid u = false ->
  (stripe_checkout_Session_create env (calls w)
     (email u) (id u) (success_url_of env) (cancel_url_of env) = Raise e ->
   create_stripe_checkout env u w
   = (Raise (HTTPException 500 (stripe_failure_detail e)),
      with_call (stripe_call env u) w)
   /\ (selected_gateway env gateway <> "razorpay" ->
       create_checkout env u gateway w
       = (Raise (HTTPException 500 (stripe_failure_detail e)),
          with_call (stripe_call env u) w))
   /\ carries_verbatim (str_exc e) (stripe_failure_detail e))
  /\
  (razorpay_client env = true ->
   razorpay_order_create env (calls w) (razorpay_plan_amount (settings env))
     ("order_user_" +:+ pretty (id u)) (pretty (id u)) = Raise e ->
   create_razorpay_order env u w
   = (Raise (HTTPException 500 (razorpay_failure_detail e)),
      with_call (razorpay_call env u) w)
   /\ (selected_gateway env gateway = "razorpay" ->
       create_checkout env u gateway w
       = (Raise (HTTPException 500 (razorpay_failure_detail e)),
          with_call (razorpay_call env u) w))
   /\ carries_verbatim (str_exc e) (razorpay_failure_detail e)).
Proof.
  intros Hpaid. split.
  - intros Hraise. split; [| split].
    + now apply create_stripe_checkout_provider_error.
    + intros Hgw. now apply create_checkout_stripe_provider_error.
    + apply stripe_failure_detail_verbatim.
  - intros Hclient Hraise. split; [| split].
    + now apply create_razorpay_order_provider_error.
    + intros Hgw. now apply create_checkout_razorpay_provider_error.
    + apply razorpay_failure_detail_verbatim.
Qed.

Lemma provider_error_is_500_with_upstream_text_witness :
  is_paid Fixture.alice = false
  /\ (create_razorpay_order
        (Fixture.failing_env (Exc (OtherException "BadRequestError")
                                "The amount must be atleast INR 1.00"))
        Fixture.alice Fixture.online).1
     = Raise (HTTPException 500
                "Razorpay error: The amount must be atleast INR 1.00").
Proof.
  split; [reflexivity |].
  destruct (provider_error_is_500_with_upstream_text
              (Fixture.failing_env (Exc (OtherException "BadRequestError")
                                      "The amount must be atleast INR 1.00"))
              Fixture.alice None Fixture.online
              (Exc (OtherException "BadRequestError")
                 "The amount must be atleast INR 1.00") eq_refl)
    as [_ Hrazorpay].
  destruct (Hrazorpay eq_refl eq_refl) as (Hrun & _ & _).
  now rewrite Hrun.
Defined.

(** C8, as stated, fails: the provider's own message is sent back to the
    client word for word, behind the adapter's prefix. *)
Lemma provider_error_text_returned_verbatim :
  (create_stripe_checkout
     (Fixture.failing_env (Exc StripeError Fixture.no_such_price))
     Fixture.alice Fixture.online).1
  = Raise (HTTPException 500
             "Stripe error: Request req_314159: No such price: 'price_499'")
  /\ (create_checkout
        (Fixture.failing_env
           (Exc (OtherException "BadRequestError") "Authentication failed"))
        Fixture.alice (Some "razorpay") Fixture.online).1
     = Raise (HTTPException 500 "Razorpay error: Authentication failed").
Proof. split; reflexivity. Qed.

(** ** A user id that is not a number *)

Lemma redis_exists_unseen now w key :
  unseen now w key -> redis_exists now key w = (Ok false, w).
Proof.
  intros Hunseen. unfold redis_exists, EXISTS. run.
  destruct (redis (redis_service w)) as [ks |] eqn:Hredis; [| reflexivity].
  now rewrite (Hunseen ks Hredis).
Qed.

(** C4.  A verified [checkout.session.completed] event whose metadata
    carries a [user_id] that [int()] does not accept is not acknowledged:
    [int(user_id)] raises [ValueError] inside the handler, nothing catches
    it, and the delivery is answered with HTTP 500.  Nothing is written,
    not even the idempotency key, so the provider's retries fail the same
    way. *)
Theorem stripe_webhook_non_numeric_user_id env now payload sig w ev s :
  stripe_Webhook_construct_event env now payload sig
    (stripe_webhook_secret (settings env)) = Ok ev ->
  event_type ev = "checkout.session.completed" ->
  metadata (data_object ev) !! "user_id" = Some s ->
  s <> EmptyString ->
  int_of_str s = None ->
  unseen now w ("stripe_event:" +:+ event_id ev) ->
  stripe_webhook env now payload sig w
  = (Raise (Exc ValueError "int() cannot convert the value"),
     with_call (StripeConstructEvent payload sig) w)
  /\ http_status (stripe_webhook env now payload sig w).1 = 500.
Proof.
  intros Hev Htype Hmeta Hs Hint Hunseen.
  assert (Hrun : stripe_webhook env now payload sig w
                 = (Raise (Exc ValueError "int() cannot convert the value"),
                    with_call (StripeConstructEvent payload sig) w)).
  { unfold stripe_webhook, construct_webhook_event. run.
    rewrite Hev. cbv beta iota.
    change ((fun w0 : World => redis_exists now ("stripe_event:" +:+ event_id ev) w0)
              (with_call (StripeConstructEvent payload sig) w))
      with (redis_exists now ("stripe_event:" +:+ event_id ev)
              (with_call (StripeConstructEvent payload sig) w)).
    rewrite redis_exists_unseen by exact Hunseen.
    rewrite Htype, Hmeta. cbn [String.eqb Ascii.eqb Bool.eqb truthy].
    destruct (String.eqb_spec s EmptyString); [contradiction |].
    unfold int_. cbn [negb int_of_json int_error_class]. rewrite Hint. reflexivity. }
  now rewrite Hrun.
Qed.

Lemma stripe_webhook_non_numeric_user_id_witness :
  stripe_webhook Fixture.test_env 1700000000
    (Fixture.body (Fixture.stripe_json Fixture.completed_abc))
    "t=1700000000,v1=859df66a9c826d46e76318ceed29bfa16786f8f48a34ee9e9e59aac6ff04a25b"
    Fixture.online
  = (Raise (Exc ValueError "int() cannot convert the value"),
     with_call
       (StripeConstructEvent
          (Fixture.body (Fixture.stripe_json Fixture.completed_abc))
          "t=1700000000,v1=859df66a9c826d46e76318ceed29bfa16786f8f48a34ee9e9e59aac6ff04a25b")
       Fixture.online).
Proof.
  eapply (stripe_webhook_non_numeric_user_id Fixture.test_env 1700000000 _ _
            Fixture.online Fixture.completed_abc "abc").
  - reflexivity.
  - reflexivity.
  - reflexivity.
  - discriminate.
  - reflexivity.
  - intros ks [= <-]. reflexivity.
Defined.

(** The Razorpay handler converts [user_id] the same way, and reads
    [notes] as a dict: Razorpay's rendering of empty notes, the array
    [[]], has no [get]. *)
Example razorpay_webhook_non_numeric_user_id :
  razorpay_webhook Fixture.test_env 1700000000 (Fixture.body Fixture.captured_abc)
    "38c90d6383945d1760e9cf72c75c36724a2a1f9dee7167d01e1644c7e49ea856"
    Fixture.online
  = (Raise (Exc ValueError "int() cannot convert the value"), Fixture.online).
Proof. vm_compute. reflexivity. Qed.

Example razorpay_webhook_notes_array :
  razorpay_webhook Fixture.test_env 1700000000
    (Fixture.body Fixture.captured_no_notes)
    "fc5a807ab7a95d25d1b0eff5c2d8f6bfc794d8b25906416b387cc03e5a61b6d2"
    Fixture.online
  = (Raise (Exc AttributeError "object has no attribute 'get'"), Fixture.online).
Proof. vm_compute. reflexivity. Qed.

(** A user id that is absent, or empty, is passed over in silence. *)
Lemma stripe_webhook_missing_user_id env now payload sig w ks ev :
  stripe_Webhook_construct_event env now payload sig
    (stripe_webhook_secret (settings env)) = Ok ev ->
  metadata (data_object ev) !! "user_id" = None
  \/ metadata (data_object ev) !! "user_id" = Some EmptyString ->
  redis (redis_service w) = Some ks ->
  live now ks (stripe_key ev) = None ->
  stripe_webhook env now payload sig w
  = (Ok (status_only "success"),
     with_keyspace (<[stripe_key ev := processed now]> ks)
       (with_call (StripeConstructEvent payload sig) w)).
Proof.
  intros Hev Hmissing Hredis Hlive.
  unfold stripe_webhook, construct_webhook_event, redis_exists,
    EXISTS, stripe_key in *. run.
  rewrite Hev.
  destruct Hmissing as [-> | ->]; cases; cbn in *; simplify_eq; reflexivity.
Qed.

(** ** The idempotency key of a webhook *)

Lemma live_Some now (ks : Keyspace) key e :
  ks !! key = Some e -> is_live now e = true -> live now ks key = Some e.
Proof. intros Hkey Hlive. unfold live. now rewrite Hkey, Hlive. Qed.

Lemma stripe_webhook_seen env now payload sig w ks ev e :
  stripe_Webhook_construct_event env now payload sig
    (stripe_webhook_secret (settings env)) = Ok ev ->
  redis (redis_service w) = Some ks ->
  live now ks (stripe_key ev) = Some e ->
  stripe_webhook env now payload sig w
  = (Ok (status_only "already_processed"),
     with_call (StripeConstructEvent payload sig) w).
Proof.
  intros Hev Hredis Hlive.
  unfold stripe_webhook, construct_webhook_event, redis_exists, EXISTS. run.
  rewrite Hev. cbn. unfold stripe_key in Hlive. now rewrite Hredis, Hlive.
Qed.

Lemma stripe_webhook_first env now payload sig w ks ev r w' :
  stripe_Webhook_construct_event env now payload sig
    (stripe_webhook_secret (settings env)) = Ok ev ->
  redis (redis_service w) = Some ks ->
  live now ks (stripe_key ev) = None ->
  stripe_webhook env now payload sig w = (Ok r, w') ->
  r = status_only "success" /\ recorded now (stripe_key ev) ks w'.
Proof.
  intros Hev Hredis Hlive.
  unfold stripe_webhook, construct_webhook_event, redis_exists,
    EXISTS, recorded, stripe_key in *. run.
  rewrite Hev. cbn. rewrite Hredis, Hlive. cbn.
  unfold select_user, int_. run.
  cases; intros; simplify_eq; cbn in *; simplify_eq; auto.
Qed.

Lemma stripe_webhook_other_kind env now payload sig w ks ev :
  stripe_Webhook_construct_event env now payload sig
    (stripe_webhook_secret (settings env)) = Ok ev ->
  event_type ev <> "checkout.session.completed" ->
  redis (redis_service w) = Some ks ->
  live now ks (stripe_key ev) = None ->
  stripe_webhook env now payload sig w
  = (Ok (status_only "success"),
     with_keyspace (<[stripe_key ev := processed now]> ks)
       (with_call (StripeConstructEvent payload sig) w)).
Proof.
  intros Hev Htype Hredis Hlive.
  unfold stripe_webhook, construct_webhook_event, redis_exists,
    EXISTS, stripe_key in *. run.
  rewrite Hev.
  destruct (String.eqb_spec (event_type ev) "checkout.session.completed");
    [contradiction |].
  cases; cbn in *; simplify_eq; reflexivity.
Qed.

Lemma verify_webhook_signature_pure env payload sig w :
  (verify_webhook_signature env payload sig w).2 = w.
Proof.
  unfold verify_webhook_signature, compare_digest. run. cases; reflexivity.
Qed.

Lemma razorpay_verified_intro env payload sig w :
  (verify_webhook_signature env payload sig w).1 = Ok true ->
  razorpay_verified env payload sig.
Proof.
  unfold razorpay_verified, verify_webhook_signature, compare_digest. run.
  destruct (negb _); cbn; [discriminate |].
  destruct (is_ascii _ && is_ascii _); cbn; [| discriminate].
  now intros [= ->].
Qed.

Lemma payment_id_of_inv event pid :
  payment_id_of event = Ok pid ->
  exists kind payload_ payment entity,
    get event "event" JNull = Ok kind
    /\ get event "payload" (JObj []) = Ok payload_
    /\ get payload_ "payment" (JObj []) = Ok payment
    /\ get payment "entity" (JObj []) = Ok entity
    /\ get entity "id" JNull = Ok pid.
Proof.
  unfold payment_id_of.
  destruct (get event "payload" (JObj [])) as [payload_ |] eqn:H1; [| discriminate].
  destruct (get payload_ "payment" (JObj [])) as [payment |] eqn:H2; [| discriminate].
  destruct (get payment "entity" (JObj [])) as [entity |] eqn:H3; [| discriminate].
  intros H4.
  assert (exists kind, get event "event" JNull = Ok kind) as [kind Hkind].
  { destruct event; try discriminate. eexists; reflexivity. }
  exists kind, payload_, payment, entity. auto.
Qed.

(** The handler up to the test of [payment_id]. *)
Ltac razorpay_head Hverified Hevent Hpid :=
  let kind := fresh "kind" in
  let H0 := fresh in let H1 := fresh in let H2 := fresh in
  let H3 := fresh in let H4 := fresh in
  apply payment_id_of_inv in Hpid as (kind & ? & ? & ? & H0 & H1 & H2 & H3 & H4);
  unfold razorpay_webhook; unfold bind at 1; rewrite Hverified; cbn [negb];
  run; rewrite Hevent, H0, H1, H2, H3, H4.

Lemma razorpay_webhook_no_payment_id env now payload sig w event pid :
  razorpay_verified env payload sig ->
  json_loads env payload = Ok event ->
  payment_id_of event = Ok pid ->
  truthy pid = false ->
  razorpay_webhook env now payload sig w = (Ok (status_only "success"), w).
Proof.
  intros Hverified Hevent Hpid Hfalsy.
  razorpay_head Hverified Hevent Hpid. now rewrite Hfalsy.
Qed.

Lemma razorpay_webhook_seen env now payload sig w ks event pid e :
  razorpay_verified env payload sig ->
  json_loads env payload = Ok event ->
  payment_id_of event = Ok pid ->
  truthy pid = true ->
  redis (redis_service w) = Some ks ->
  live now ks (razorpay_key env pid) = Some e ->
  razorpay_webhook env now payload sig w
  = (Ok (status_only "already_processed"), w).
Proof.
  intros Hverified Hevent Hpid Htruthy Hredis Hlive.
  razorpay_head Hverified Hevent Hpid. rewrite Htruthy.
  unfold redis_exists, EXISTS, razorpay_key in *. run.
  now rewrite Hredis, Hlive.
Qed.

Lemma razorpay_webhook_first env now payload sig w ks event pid r w' :
  razorpay_verified env payload sig ->
  json_loads env payload = Ok event ->
  payment_id_of event = Ok pid ->
  truthy pid = true ->
  redis (redis_service w) = Some ks ->
  live now ks (razorpay_key env pid) = None ->
  razorpay_webhook env now payload sig w = (Ok r, w') ->
  r = status_only "success" /\ recorded now (razorpay_key env pid) ks w'.
Proof.
  intros Hverified Hevent Hpid Htruthy Hredis Hlive.
  razorpay_head Hverified Hevent Hpid. rewrite Htruthy.
  unfold redis_exists, EXISTS, razorpay_key, recorded, select_user, int_ in *. run.
  rewrite Hredis, Hlive.
  cases; intros; cbn in *; simplify_eq; auto.
Qed.

Lemma razorpay_webhook_other_kind env now payload sig w ks event pid kind :
  razorpay_verified env payload sig ->
  json_loads env payload = Ok event ->
  payment_id_of event = Ok pid ->
  truthy pid = true ->
  get event "event" JNull = Ok kind ->
  eq_str kind "payment.captured" = false ->
  redis (redis_service w) = Some ks ->
  live now ks (razorpay_key env pid) = None ->
  razorpay_webhook env now payload sig w
  = (Ok (status_only "success"),
     with_keyspace (<[razorpay_key env pid := processed now]> ks) w).
Proof.
  intros Hverified Hevent Hpid Htruthy Hkind Hother Hredis Hlive.
  razorpay_head Hverified Hevent Hpid. rewrite Htruthy.
  unfold redis_exists, EXISTS, razorpay_key in *. run.
  rewrite Hredis, Hlive.
  match goal with
  | H : get event "event" JNull = Ok ?k |- _ =>
      assert (k = kind) as -> by congruence
  end.
  rewrite Hother.
  cases; cbn in *; simplify_eq; reflexivity.
Qed.

(** A recorded key is live for the next 86400 seconds. *)
Lemma recorded_live now now' key ks w' :
  recorded now key ks w' ->
  now' < now + 86400 ->
  exists ks', redis (redis_service w') = Some ks'
              /\ live now' ks' key = Some (processed now).
Proof.
  intros Hrec Hsoon. eexists; split; [exact Hrec |].
  apply live_Some; [apply lookup_insert_eq |].
  unfold is_live, processed; cbn. now apply Z.ltb_lt.
Qed.

Lemma stripe_redelivery env now now' payload sig ks w' ev :
  recorded now (stripe_key ev) ks w' ->
  now' < now + 86400 ->
  stripe_Webhook_construct_event env now' payload sig
    (stripe_webhook_secret (settings env)) = Ok ev ->
  stripe_webhook env now' payload sig w'
  = (Ok (status_only "already_processed"),
     with_call (StripeConstructEvent payload sig) w').
Proof.
  intros Hrec Hsoon Hev.
  destruct (recorded_live _ _ _ _ _ Hrec Hsoon) as (ks' & Hredis & Hlive).
  eapply stripe_webhook_seen; eauto.
Qed.

Lemma razorpay_redelivery env now now' payload sig ks w' event pid :
  recorded now (razorpay_key env pid) ks w' ->
  now' < now + 86400 ->
  razorpay_verified env payload sig ->
  json_loads env payload = Ok event ->
  payment_id_of event = Ok pid ->
  truthy pid = true ->
  razorpay_webhook env now' payload sig w'
  = (Ok (status_only "already_processed"), w').
Proof.
  intros Hrec Hsoon Hverified Hevent Hpid Htruthy.
  destruct (recorded_live _ _ _ _ _ Hrec Hsoon) as (ks' & Hredis & Hlive).
  eapply razorpay_webhook_seen; eauto.
Qed.

(** C5, as the code has it.  With Redis connected, a verified delivery
    seen for the first time is acknowledged with ["success"] only after
    its key went into Redis with a time to live of 86400 seconds:
    [stripe_event:<event id>] for every Stripe event,
    [razorpay_webhook:<payment id>] for every Razorpay event that carries
    a payment entity id.  An event of a kind that changes nothing is
    always acknowledged so, and a redelivery within the 86400 seconds is
    answered ["already_processed"].  A Razorpay event without a payment
    entity id is acknowledged and leaves no key at all. *)
Theorem verified_webhook_records_key env now payload sig w ks :
  redis (redis_service w) = Some ks ->
  (forall ev,
     stripe_Webhook_construct_event env now payload sig
       (stripe_webhook_secret (settings env)) = Ok ev ->
     live now ks (stripe_key ev) = None ->
     (forall r w',
        stripe_webhook env now payload sig w = (Ok r, w') ->
        r = status_only "success"
        /\ recorded now (stripe_key ev) ks w'
        /\ forall now' payload' sig',
             now' < now + 86400 ->
             stripe_Webhook_construct_event env now' payload' sig'
               (stripe_webhook_secret (settings env)) = Ok ev ->
             (stripe_webhook env now' payload' sig' w').1
             = Ok (status_only "already_processed"))
     /\ (event_type ev <> "checkout.session.completed" ->
         stripe_webhook env now payload sig w
         = (Ok (status_only "success"),
            with_keyspace (<[stripe_key ev := processed now]> ks)
              (with_call (StripeConstructEvent payload sig) w))))
  /\
  (forall event pid,
     razorpay_verified env payload sig ->
     json_loads env payload = Ok event ->
     payment_id_of event = Ok pid ->
     (truthy pid = true ->
      live now ks (razorpay_key env pid) = None ->
      (forall r w',
         razorpay_webhook env now payload sig w = (Ok r, w') ->
         r = status_only "success"
         /\ recorded now (razorpay_key env pid) ks w'
         /\ forall now',
              now' < now + 86400 ->
              razorpay_webhook env now' payload sig w'
              = (Ok (status_only "already_processed"), w'))
      /\ (forall kind,
            get event "event" JNull = Ok kind ->
            eq_str kind "payment.captured" = false ->
            razorpay_webhook env now payload sig w
            = (Ok (status_only "success"),
               with_keyspace (<[razorpay_key env pid := processed now]> ks) w)))
     /\ (truthy pid = false ->
         razorpay_webhook env now payload sig w
         = (Ok (status_only "success"), w))).
Proof.
  intros Hredis. split.
  - intros ev Hev Hlive. split.
    + intros r w' Hrun.
      destruct (stripe_webhook_first _ _ _ _ _ _ _ _ _ Hev Hredis Hlive Hrun)
        as [-> Hrec].
      repeat split; [exact Hrec |].
      intros now' payload' sig' Hsoon Hev'.
      now rewrite (stripe_redelivery _ _ _ _ _ _ _ _ Hrec Hsoon Hev').
    + intros Htype. now apply stripe_webhook_other_kind.
  - intros event pid Hverified Hevent Hpid. split.
    + intros Htruthy Hlive. split.
      * intros r w' Hrun.
        destruct (razorpay_webhook_first _ _ _ _ _ _ _ _ _ _
                    Hverified Hevent Hpid Htruthy Hredis Hlive Hrun) as [-> Hrec].
        repeat split; [exact Hrec |].
        intros now' Hsoon. eapply razorpay_redelivery; eauto.
      * intros kind Hkind Hother. eapply razorpay_webhook_other_kind; eauto.
    + intros Hfalsy. eapply razorpay_webhook_no_payment_id; eauto.
Qed.

Lemma fixture_razorpay_verified payload sig :
  (verify_webhook_signature Fixture.test_env payload sig Fixture.online).1 = Ok true ->
  razorpay_verified Fixture.test_env payload sig.
Proof. apply razorpay_verified_intro. Qed.

(** A [payment.authorized] event, which grants nothing, still leaves its
    key. *)
Lemma verified_webhook_records_key_witness :
  redis (redis_service Fixture.online) = Some ∅
  /\ razorpay_webhook Fixture.test_env 1700000000 (Fixture.body Fixture.authorized)
       "f319579bb6ace88e042b09fabdba06bfc5f34bb02a541838c1ade6c141f95e07"
       Fixture.online
     = (Ok (status_only "success"),
        with_keyspace
          (<["razorpay_webhook:pay_003" := processed 1700000000]> ∅)
          Fixture.online).
Proof.
  split; [reflexivity |].
  destruct (verified_webhook_records_key Fixture.test_env 1700000000
              (Fixture.body Fixture.authorized)
              "f319579bb6ace88e042b09fabdba06bfc5f34bb02a541838c1ade6c141f95e07"
              Fixture.online ∅ eq_refl) as [_ Hrazorpay].
  destruct (Hrazorpay Fixture.authorized (JStr "pay_003")) as [Hid _].
  - apply fixture_razorpay_verified. vm_compute. reflexivity.
  - vm_compute. reflexivity.
  - reflexivity.
  - destruct (Hid eq_refl eq_refl) as [_ Hkind].
    exact (Hkind (JStr "payment.authorized") eq_refl eq_refl).
Defined.

(** C5, as stated, fails: a correctly signed [order.paid] event has no
    payment entity, is acknowledged, and leaves Redis as empty as it was;
    delivered again it is handled again. *)
Lemma razorpay_webhook_without_payment_id_leaves_no_key :
  razorpay_webhook Fixture.test_env 1700000000 (Fixture.body Fixture.order_paid)
    "6cd0e6be8b24207e16113c6d64473e9293ca5c22322baf2194cf4057abe92dcb"
    Fixture.online
  = (Ok (status_only "success"), Fixture.online)
  /\ redis (redis_service Fixture.online) = Some ∅
  /\ (razorpay_webhook Fixture.test_env 1700000060 (Fixture.body Fixture.order_paid)
        "6cd0e6be8b24207e16113c6d64473e9293ca5c22322baf2194cf4057abe92dcb"
        Fixture.online).1
     <> Ok (status_only "already_processed").
Proof.
  split; [vm_compute; reflexivity |].
  split; [reflexivity | vm_compute; discriminate].
Qed.

(** ** Deliveries that come twice *)

Lemma stripe_webhook_success_recorded env now payload sig w ks ev w1 :
  stripe_Webhook_construct_event env now payload sig
    (stripe_webhook_secret (settings env)) = Ok ev ->
  redis (redis_service w) = Some ks ->
  stripe_webhook env now payload sig w = (Ok (status_only "success"), w1) ->
  recorded now (stripe_key ev) ks w1.
Proof.
  intros Hev Hredis Hrun.
  destruct (live now ks (stripe_key ev)) as [e |] eqn:Hlive.
  - rewrite (stripe_webhook_seen _ _ _ _ _ _ _ _ Hev Hredis Hlive) in Hrun.
    discriminate.
  - now destruct (stripe_webhook_first _ _ _ _ _ _ _ _ _ Hev Hredis Hlive Hrun).
Qed.

Lemma razorpay_webhook_success_recorded env now payload sig w ks event pid w1 :
  razorpay_verified env payload sig ->
  json_loads env payload = Ok event ->
  payment_id_of event = Ok pid ->
  truthy pid = true ->
  redis (redis_service w) = Some ks ->
  razorpay_webhook env now payload sig w = (Ok (status_only "success"), w1) ->
  recorded now (razorpay_key env pid) ks w1.
Proof.
  intros Hverified Hevent Hpid Htruthy Hredis Hrun.
  destruct (live now ks (razorpay_key env pid)) as [e |] eqn:Hlive.
  - rewrite (razorpay_webhook_seen _ _ _ _ _ _ _ _ _
               Hverified Hevent Hpid Htruthy Hredis Hlive) in Hrun.
    discriminate.
  - now destruct (razorpay_webhook_first _ _ _ _ _ _ _ _ _ _
                    Hverified Hevent Hpid Htruthy Hredis Hlive Hrun).
Qed.

Lemma verify_razorpay_payment_seen env now payment_data u w ks e :
  redis (redis_service w) = Some ks ->
  live now ks (payment_key payment_data) = Some e ->
  verify_razorpay_payment env now payment_data u w
  = (Ok (status_paid "already_processed"), w).
Proof.
  intros Hredis Hlive.
  unfold verify_razorpay_payment, redis_exists, EXISTS, payment_key in *. run.
  now rewrite Hredis, Hlive.
Qed.

Lemma verify_razorpay_payment_success_recorded env now payment_data u w ks w1 :
  redis (redis_service w) = Some ks ->
  verify_razorpay_payment env now payment_data u w
  = (Ok (status_paid "success"), w1) ->
  recorded now (payment_key payment_data) ks w1.
Proof.
  intros Hredis.
  unfold verify_razorpay_payment, verify_payment_signature, redis_exists,
    EXISTS, payment_key, recorded in *. run.
  rewrite Hredis.
  cases; intros; cbn in *; simplify_eq; auto.
Qed.

(** ** The paid flag only rises *)

Lemma session_ok_empty rows : session_ok ∅ rows.
Proof. intros j x H. now rewrite lookup_empty in H. Qed.

Lemma session_ok_insert s rows j x :
  is_paid x = true \/ rows !! j = Some x ->
  session_ok s rows -> session_ok (<[j := x]> s) rows.
Proof.
  intros Hx Hs i y. rewrite lookup_insert. case_decide; [| apply Hs].
  intros [= <-]. now subst.
Qed.

Lemma paid_in_commit s rows k :
  session_ok s rows -> paid_in rows k -> paid_in (s ∪ rows) k.
Proof.
  intros Hs (u & Hrow & Hpaid). unfold paid_in.
  destruct (s !! k) as [x |] eqn:Hheld.
  - exists x. split; [now apply lookup_union_Some_l |].
    destruct (Hs k x Hheld) as [Hx | Hx]; [exact Hx | congruence].
  - exists u. now rewrite lookup_union_r.
Qed.

Lemma changed_by_commit s (rows : gmap Z User) k :
  session_ok s rows -> (s ∪ rows) !! k <> rows !! k -> paid_in (s ∪ rows) k.
Proof.
  intros Hs Hdiff. unfold paid_in.
  destruct (s !! k) as [x |] eqn:Hheld.
  - rewrite (lookup_union_Some_l _ _ _ _ Hheld) in *.
    exists x. split; [reflexivity |].
    destruct (Hs k x Hheld) as [Hx | Hx]; [exact Hx | congruence].
  - now rewrite lookup_union_r in Hdiff.
Qed.

Lemma verify_webhook_signature_eta env payload sig w :
  verify_webhook_signature env payload sig w
  = ((verify_webhook_signature env payload sig w).1, w).
Proof.
  rewrite <- (verify_webhook_signature_pure env payload sig w) at 3.
  apply surjective_pairing.
Qed.

Lemma eq_str_true x s : eq_str x s = true -> x = JStr s.
Proof.
  destruct x; try discriminate. cbn. now intros ->%String.eqb_eq.
Qed.

Lemma razorpay_verified_of_digest env payload sig :
  truthy_str (razorpay_webhook_secret (settings env)) = true ->
  compare_digest
    (hmac_sha256_hexdigest env
       (list_byte_of_string (razorpay_webhook_secret (settings env))) payload)
    sig = Ok true ->
  razorpay_verified env payload sig.
Proof.
  intros Hsecret Hdigest w. unfold verify_webhook_signature. run.
  now rewrite Hsecret, Hdigest.
Qed.

(** What one request does to the [users] table: nothing, or a commit of
    session objects that are paid or unchanged, and the latter only for a
    verified payment event. *)
Lemma serve_effect env now req w :
  db (serve env now req w).2 = db w
  \/ (verified_payment env now req
      /\ exists s, db (serve env now req w).2 = s ∪ db w /\ session_ok s (db w)).
Proof.
  destruct (serve env now req w) as [r w'] eqn:Hserve. cbn [snd].
  revert Hserve. unfold serve, endpoint.
  destruct req; autounfold with billing; run.
  all: rewrite ?verify_webhook_signature_eta.
  all: cases; intros; cbn in *; simplify_eq; auto.
  all: right; split;
    [| eexists; split;
       [cbn [db with_db with_commits with_session with_keyspace with_call];
        reflexivity
       | repeat (apply session_ok_insert; [auto |]); apply session_ok_empty]].
  all: try (eexists; split; [eassumption | now apply String.eqb_eq]).
  all: try (split; [assumption |];
            match goal with u : unit |- _ => now destruct u end).
  all: split; [now apply razorpay_verified_of_digest |];
    eexists; split; [eassumption |]; cbn [get];
    match goal with
    | H : eq_str _ _ = true |- _ => apply eq_str_true in H; now rewrite H
    end.
Qed.

Lemma serve_monotone env now req w k :
  paid_in (db w) k -> paid_in (db (serve env now req w).2) k.
Proof.
  intros Hpaid.
  destruct (serve_effect env now req w) as [-> | (_ & s & -> & Hs)];
    [exact Hpaid | now apply paid_in_commit].
Qed.

Lemma serve_all_monotone env reqs w k :
  paid_in (db w) k -> paid_in (db (serve_all env reqs w).2) k.
Proof.
  revert w. induction reqs as [| [now req] rest IH]; intros w Hpaid; [exact Hpaid |].
  cbn [serve_all].
  pose proof (serve_monotone env now req w k Hpaid) as Hstep.
  destruct (serve env now req w) as [r w1].
  specialize (IH w1 Hstep).
  destruct (serve_all env rest w1) as [rs w2]. exact IH.
Qed.

(** C2.  Across the billing endpoints [is_paid] is monotone.  A user who
    is paid before a request is paid after it, and so after any run of
    requests.  A row that a request leaves different from what it was is a
    paid row, and the request then carried a payment event whose signature
    had verified: a [checkout.session.completed] event accepted by
    [construct_event], a [payment.captured] event with a matching HMAC, or
    a payment confirmation accepted by [verify_payment_signature]. *)
Theorem is_paid_monotone env :
  (forall now req w k,
     paid_in (db w) k -> paid_in (db (serve env now req w).2) k)
  /\ (forall now req w k,
        db (serve env now req w).2 !! k <> db w !! k ->
        paid_in (db (serve env now req w).2) k /\ verified_payment env now req)
  /\ (forall reqs w k,
        paid_in (db w) k -> paid_in (db (serve_all env reqs w).2) k).
Proof.
  split; [| split].
  - intros. now apply serve_monotone.
  - intros now req w k Hdiff.
    destruct (serve_effect env now req w) as [Hsame | (Hverified & s & Hdb & Hs)].
    + now rewrite Hsame in Hdiff.
    + rewrite Hdb in *. split; [now apply changed_by_commit | exact Hverified].
  - intros. now apply serve_all_monotone.
Qed.

(** A run that leaves bob, who has paid, paid: a payment for alice, a
    checkout attempt by bob, a delivery that the handler chokes on. *)
Lemma is_paid_monotone_witness :
  paid_in (db Fixture.online) 2
  /\ paid_in
       (db (serve_all Fixture.test_env
              [(1700000000,
                RazorpayWebhook (Fixture.body Fixture.captured)
                  "4b2f36d0d0d72d58aa9e963f644bebc7bb923bd9807f041ce41aa68fffd95cbc");
               (1700000060, CreateCheckout (Some 2) None);
               (1700000120,
                StripeWebhook (Fixture.body (Fixture.stripe_json Fixture.completed_abc))
                  "t=1700000000,v1=859df66a9c826d46e76318ceed29bfa16786f8f48a34ee9e9e59aac6ff04a25b")]
              Fixture.online).2) 2.
Proof.
  assert (Hbob : paid_in (db Fixture.online) 2)
    by (exists Fixture.bob; split; reflexivity).
  split; [exact Hbob |].
  destruct (is_paid_monotone Fixture.test_env) as (_ & _ & Hrun).
  apply Hrun. exact Hbob.
Defined.

(** ** A recorded key outlives the requests in between *)

Lemma with_session_empty w :
  session w = ∅ -> with_session (fun _ => ∅) w = w.
Proof. destruct w; cbn. now intros ->. Qed.

Lemma serve_session env t req w : session (serve env t req w).2 = ∅.
Proof. unfold serve. now destruct (endpoint env t req _). Qed.

Lemma serve_closed env t req w r w1 :
  serve env t req w = (r, w1) -> session w1 = ∅.
Proof. intros H. rewrite <- (serve_session env t req w). now rewrite H. Qed.

Lemma serve_all_session env reqs w :
  session w = ∅ -> session (serve_all env reqs w).2 = ∅.
Proof.
  revert w. induction reqs as [| [t req] rest IH]; intros w Hw; [exact Hw |].
  cbn [serve_all].
  pose proof (serve_session env t req w) as Hstep.
  destruct (serve env t req w) as [r w1].
  specialize (IH w1 Hstep).
  now destruct (serve_all env rest w1).
Qed.

(** What one request does to Redis: nothing, or it records the one key
    that it found absent or expired. *)
Lemma serve_keyspace env t req w :
  redis (redis_service (serve env t req w).2) = redis (redis_service w)
  \/ exists ks key,
       redis (redis_service w) = Some ks
       /\ live t ks key = None
       /\ redis (redis_service (serve env t req w).2)
          = Some (<[key := processed t]> ks).
Proof.
  destruct (serve env t req w) as [r w'] eqn:Hserve. cbn [snd].
  revert Hserve. unfold serve, endpoint.
  destruct req; autounfold with billing; unfold EXISTS; run.
  all: rewrite ?verify_webhook_signature_eta.
  all: cases; intros; cbn in *; simplify_eq; auto.
  all: right; eexists _, _; split; [reflexivity |]; split; [eassumption |].
  all: reflexivity.
Qed.

Lemma recorded_live_key now at_time key ks w' :
  recorded now key ks w' -> at_time < now + 86400 -> live_key at_time key w'.
Proof.
  intros Hrec Hsoon. exists (<[key := processed now]> ks), now.
  split; [exact Hrec |]. split; [apply lookup_insert_eq | exact Hsoon].
Qed.

Lemma live_key_live at_time key w :
  live_key at_time key w ->
  exists ks e, redis (redis_service w) = Some ks /\ live at_time ks key = Some e.
Proof.
  intros (ks & t0 & Hredis & Hkey & Hsoon). exists ks, (processed t0).
  split; [exact Hredis |]. apply live_Some; [exact Hkey |].
  unfold is_live, processed; cbn. now apply Z.ltb_lt.
Qed.

Lemma serve_keeps_live_key env t req w at_time key :
  live_key at_time key w -> live_key at_time key (serve env t req w).2.
Proof.
  intros (ks & t0 & Hredis & Hkey & Hsoon).
  destruct (serve_keyspace env t req w)
    as [Hsame | (ks0 & key' & Hredis0 & Habsent & Hafter)].
  - exists ks, t0. now rewrite Hsame.
  - assert (ks0 = ks) as -> by congruence.
    destruct (decide (key' = key)) as [-> | Hother].
    + exists (<[key := processed t]> ks), t.
      split; [exact Hafter |]. split; [apply lookup_insert_eq |].
      unfold live in Habsent. rewrite Hkey in Habsent.
      unfold is_live, processed in Habsent; cbn in Habsent.
      destruct (t <? t0 + 86400) eqn:Hdead; [discriminate | lia].
    + exists (<[key' := processed t]> ks), t0.
      split; [exact Hafter |]. split; [| exact Hsoon].
      now rewrite lookup_insert_ne.
Qed.

Lemma serve_all_keeps_live_key env reqs w at_time key :
  live_key at_time key w -> live_key at_time key (serve_all env reqs w).2.
Proof.
  revert w. induction reqs as [| [t req] rest IH]; intros w Hw; [exact Hw |].
  cbn [serve_all].
  pose proof (serve_keeps_live_key env t req w at_time key Hw) as Hstep.
  destruct (serve env t req w) as [r w1].
  specialize (IH w1 Hstep).
  now destruct (serve_all env rest w1).
Qed.

Lemma serve_stripe_webhook_recorded env now payload sig w ks ev w1 :
  stripe_Webhook_construct_event env now payload sig
    (stripe_webhook_secret (settings env)) = Ok ev ->
  redis (redis_service w) = Some ks ->
  serve env now (StripeWebhook payload sig) w = (Ok (status_only "success"), w1) ->
  recorded now (stripe_key ev) ks w1.
Proof.
  intros Hev Hredis. unfold serve, endpoint.
  destruct (stripe_webhook env now payload sig _) as [r w'] eqn:Hrun.
  intros [= -> <-].
  exact (stripe_webhook_success_recorded _ _ _ _
           (with_session (fun _ => ∅) w) _ _ _ Hev Hredis Hrun).
Qed.

Lemma serve_razorpay_webhook_recorded env now payload sig w ks event pid w1 :
  razorpay_verified env payload sig ->
  json_loads env payload = Ok event ->
  payment_id_of event = Ok pid ->
  truthy pid = true ->
  redis (redis_service w) = Some ks ->
  serve env now (RazorpayWebhook payload sig) w = (Ok (status_only "success"), w1) ->
  recorded now (razorpay_key env pid) ks w1.
Proof.
  intros Hverified Hevent Hpid Htruthy Hredis. unfold serve, endpoint.
  destruct (razorpay_webhook env now payload sig _) as [r w'] eqn:Hrun.
  intros [= -> <-].
  exact (razorpay_webhook_success_recorded _ _ _ _
           (with_session (fun _ => ∅) w) _ _ _ _
           Hverified Hevent Hpid Htruthy Hredis Hrun).
Qed.

Lemma serve_verify_payment_recorded env now c payment_data w ks w1 :
  redis (redis_service w) = Some ks ->
  serve env now (VerifyRazorpayPayment c payment_data) w
  = (Ok (status_paid "success"), w1) ->
  recorded now (payment_key payment_data) ks w1.
Proof.
  intros Hredis. unfold serve, endpoint, get_current_user, select_user. run.
  cases; intros; cbn in *; simplify_eq.
  all: match goal with
       | H : verify_razorpay_payment _ _ _ _ _ = _ |- _ =>
           now apply verify_razorpay_payment_success_recorded with (ks := ks) in H
       end.
Qed.

Lemma serve_stripe_webhook_seen env now payload sig w ev :
  session w = ∅ ->
  stripe_Webhook_construct_event env now payload sig
    (stripe_webhook_secret (settings env)) = Ok ev ->
  live_key now (stripe_key ev) w ->
  serve env now (StripeWebhook payload sig) w
  = (Ok (status_only "already_processed"),
     with_call (StripeConstructEvent payload sig) w).
Proof.
  intros Hsession Hev (ks & e & Hredis & Hlive)%live_key_live.
  unfold serve, endpoint. rewrite (with_session_empty w Hsession).
  rewrite (stripe_webhook_seen _ _ _ _ _ _ _ _ Hev Hredis Hlive).
  now rewrite with_session_empty.
Qed.

Lemma serve_razorpay_webhook_seen env now payload sig w event pid :
  session w = ∅ ->
  razorpay_verified env payload sig ->
  json_loads env payload = Ok event ->
  payment_id_of event = Ok pid ->
  truthy pid = true ->
  live_key now (razorpay_key env pid) w ->
  serve env now (RazorpayWebhook payload sig) w
  = (Ok (status_only "already_processed"), w).
Proof.
  intros Hsession Hverified Hevent Hpid Htruthy (ks & e & Hredis & Hlive)%live_key_live.
  unfold serve, endpoint. rewrite (with_session_empty w Hsession).
  rewrite (razorpay_webhook_seen _ _ _ _ _ _ _ _ _
             Hverified Hevent Hpid Htruthy Hredis Hlive).
  now rewrite with_session_empty.
Qed.

Lemma serve_verify_payment_seen env now k payment_data w :
  session w = ∅ ->
  is_Some (db w !! k) ->
  live_key now (payment_key payment_data) w ->
  serve env now (VerifyRazorpayPayment (Some k) payment_data) w
  = (Ok (status_paid "already_processed"), w).
Proof.
  intros Hsession [u Hu] (ks & e & Hredis & Hlive)%live_key_live.
  unfold serve, endpoint, get_current_user, select_user. run.
  rewrite (with_session_empty w Hsession), Hsession, lookup_empty, Hu.
  cbv beta iota.
  rewrite (verify_razorpay_payment_seen env now payment_data u
             (with_session <[k:=u]> w) ks e Hredis Hlive).
  destruct w; cbn in *. now subst.
Qed.




(** ** The rate limiter *)

Lemma check_rate_limit_fresh self now request w ks :
  redis (redis_service w) = Some ks ->
  live now ks (rate_limit_key request) = None ->
  0 < window_seconds self ->
  check_rate_limit self now request w
  = (verdict self 1,
     with_keyspace
       (<[rate_limit_key request :=
            {| value := VInt 1; expires_at := Some (now + window_seconds self) |}]> ks)
       w).
Proof.
  intros Hredis Hfresh Hwindow.
  unfold check_rate_limit, redis_incr, redis_expire, INCR, EXPIRE, live, verdict,
    rate_limit_detail in *. run.
  rewrite Hredis, Hfresh. cbn. rewrite lookup_insert_eq. cbn.
  destruct (0 <? window_seconds self) eqn:E; [| lia].
  rewrite insert_insert_eq.
  destruct (1 >? max_requests self); reflexivity.
Qed.

Lemma check_rate_limit_counting self now request w ks e n :
  redis (redis_service w) = Some ks ->
  live now ks (rate_limit_key request) = Some e ->
  redis_int (value e) = Some n ->
  0 < window_seconds self ->
  check_rate_limit self now request w
  = (verdict self (n + 1),
     with_keyspace
       (<[rate_limit_key request :=
            {| value := VInt (n + 1);
               expires_at := if n + 1 =? 1
                             then Some (now + window_seconds self)
                             else expires_at e |}]> ks)
       w).
Proof.
  intros Hredis Hlive Hint Hwindow.
  unfold check_rate_limit, redis_incr, redis_expire, INCR, EXPIRE, verdict,
    rate_limit_detail in *. run.
  rewrite Hredis, Hlive, Hint. cbn.
  destruct (n + 1 =? 1) eqn:Hone; cbn.
  - assert (Hstill : live now
                       (<[rate_limit_key request :=
                            {| value := VInt (n + 1); expires_at := expires_at e |}]> ks)
                       (rate_limit_key request)
                     = Some {| value := VInt (n + 1); expires_at := expires_at e |}).
    { apply live_Some; [apply lookup_insert_eq |].
      unfold live in Hlive. destruct (ks !! rate_limit_key request) as [e' |];
        [| discriminate].
      destruct (is_live now e') eqn:He'; [| discriminate].
      injection Hlive as ->. exact He'. }
    rewrite Hstill. cbn.
    destruct (0 <? window_seconds self) eqn:E; [| lia].
    rewrite insert_insert_eq.
    destruct (n + 1 >? max_requests self); reflexivity.
  - destruct (n + 1 >? max_requests self); reflexivity.
Qed.

(** One request against the specification's counter. *)
Lemma check_rate_limit_refines self now request w ks :
  redis (redis_service w) = Some ks ->
  0 < window_seconds self ->
  live now ks (rate_limit_key request) = None
  \/ is_Some (counter_of now ks (rate_limit_key request)) ->
  exists ks',
    check_rate_limit self now request w
    = ((if (spec_fixed_window (max_requests self) (window_seconds self) now
              (counter_of now ks (rate_limit_key request))).1
        then Ok true
        else Raise (HTTPException 429
                      ("Rate limit exceeded. Try again in "
                       +:+ pretty (window_seconds self) +:+ " seconds."))),
       with_keyspace ks' w)
    /\ ks' !! rate_limit_key request
       = Some {| value :=
                   VInt (spec_fixed_window (max_requests self) (window_seconds self)
                           now (counter_of now ks (rate_limit_key request))).2.1;
                 expires_at :=
                   (spec_fixed_window (max_requests self) (window_seconds self)
                      now (counter_of now ks (rate_limit_key request))).2.2 |}
    /\ forall k, k <> rate_limit_key request -> ks' !! k = ks !! k.
Proof.
  intros Hredis Hwindow Hcounter.
  unfold counter_of in *.
  destruct (live now ks (rate_limit_key request)) as [e |] eqn:Hlive.
  - destruct (redis_int (value e)) as [n |] eqn:Hint.
    2:{ destruct Hcounter as [? | [? ?]]; discriminate. }
    rewrite (check_rate_limit_counting _ _ _ _ _ _ _ Hredis Hlive Hint Hwindow).
    eexists. split; [| split].
    + unfold verdict, spec_fixed_window. cbn.
      destruct (n + 1 >? max_requests self); reflexivity.
    + rewrite lookup_insert_eq. unfold spec_fixed_window. cbn. reflexivity.
    + intros k Hk. now rewrite lookup_insert_ne.
  - rewrite (check_rate_limit_fresh _ _ _ _ _ Hredis Hlive Hwindow).
    eexists. split; [| split].
    + unfold verdict, spec_fixed_window. cbn.
      destruct (1 >? max_requests self); reflexivity.
    + rewrite lookup_insert_eq. reflexivity.
    + intros k Hk. now rewrite lookup_insert_ne.
Qed.

Lemma check_all_counting self request times :
  0 < window_seconds self ->
  forall w ks n T,
    redis (redis_service w) = Some ks ->
    ks !! rate_limit_key request
    = Some {| value := VInt n; expires_at := Some T |} ->
    1 <= n ->
    Forall (fun t => t < T) times ->
    (check_all self request times w).1
    = imap (fun i _ => verdict self (n + 1 + Z.of_nat i)) times.
Proof.
  intros Hwindow. induction times as [| now rest IH];
    intros w ks n T Hredis Hkey Hn Hwithin; [reflexivity |].
  apply Forall_cons in Hwithin as [Hnow Hrest].
  assert (Hlive : live now ks (rate_limit_key request)
                  = Some {| value := VInt n; expires_at := Some T |}).
  { apply live_Some; [exact Hkey |]. unfold is_live; cbn. now apply Z.ltb_lt. }
  cbn [check_all].
  rewrite (check_rate_limit_counting _ _ _ _ _ _ n Hredis Hlive eq_refl Hwindow).
  cbn [value expires_at].
  destruct (n + 1 =? 1) eqn:Hone; [lia |].
  specialize (IH (with_keyspace
                    (<[rate_limit_key request :=
                         {| value := VInt (n + 1); expires_at := Some T |}]> ks) w)
                _ (n + 1) T eq_refl (lookup_insert_eq _ _ _) ltac:(lia) Hrest).
  destruct (check_all self request rest _) as [rs w2]. cbn [fst] in *.
  rewrite IH. cbn [imap]. f_equal; [f_equal; lia |].
  apply imap_ext. intros i t _. cbn. f_equal. lia.
Qed.

Lemma check_all_window self request t0 rest w ks :
  redis (redis_service w) = Some ks ->
  live t0 ks (rate_limit_key request) = None ->
  Forall (fun t => t < t0 + window_seconds self) (t0 :: rest) ->
  (check_all self request (t0 :: rest) w).1
  = imap (fun i _ => verdict self (Z.of_nat i + 1)) (t0 :: rest).
Proof.
  intros Hredis Hfresh Hwithin.
  apply Forall_cons in Hwithin as [Hwindow Hrest].
  assert (0 < window_seconds self) as Hpos by lia.
  cbn [check_all].
  rewrite (check_rate_limit_fresh _ _ _ _ _ Hredis Hfresh Hpos).
  pose proof (check_all_counting self request rest Hpos
                (with_keyspace
                   (<[rate_limit_key request :=
                        {| value := VInt 1;
                           expires_at := Some (t0 + window_seconds self) |}]> ks) w)
                _ 1 _ eq_refl (lookup_insert_eq _ _ _) ltac:(lia) Hrest) as Hafter.
  destruct (check_all self request rest _) as [rs w2]. cbn [fst] in *.
  rewrite Hafter. cbn [imap]. f_equal.
  apply imap_ext. intros i t _. cbn. f_equal. lia.
Qed.

(** C6.  With Redis connected and a positive window, [check_rate_limit]
    is the fixed-window counter of the specification: the counter under
    the request's key is incremented, its expiry is set to [now + window]
    exactly when the increment gave 1 and is otherwise kept, no other key
    is touched, and the request is refused with HTTP 429, the window
    length in its message, exactly when the new count exceeds the
    ceiling.  So of the requests that share a key and fall within one
    window, opened by a request that finds no live counter, those up to
    the ceiling are allowed and every later one is refused: with ceiling
    [N] the first [N] pass and request [N + 1] gets the 429. *)
Theorem check_rate_limit_fixed_window self request w ks :
  redis (redis_service w) = Some ks ->
  (forall now,
     0 < window_seconds self ->
     live now ks (rate_limit_key request) = None
     \/ is_Some (counter_of now ks (rate_limit_key request)) ->
     exists ks',
       check_rate_limit self now request w
       = ((if (spec_fixed_window (max_requests self) (window_seconds self) now
                 (counter_of now ks (rate_limit_key request))).1
           then Ok true
           else Raise (HTTPException 429
                         ("Rate limit exceeded. Try again in "
                          +:+ pretty (window_seconds self) +:+ " seconds."))),
          with_keyspace ks' w)
       /\ ks' !! rate_limit_key request
          = Some {| value :=
                      VInt (spec_fixed_window (max_requests self)
                              (window_seconds self) now
                              (counter_of now ks (rate_limit_key request))).2.1;
                    expires_at :=
                      (spec_fixed_window (max_requests self)
                         (window_seconds self) now
                         (counter_of now ks (rate_limit_key request))).2.2 |}
       /\ forall k, k <> rate_limit_key request -> ks' !! k = ks !! k)
  /\
  (forall t0 rest,
     live t0 ks (rate_limit_key request) = None ->
     Forall (fun t => t < t0 + window_seconds self) (t0 :: rest) ->
     forall i,
       (i < length (t0 :: rest))%nat ->
       (check_all self request (t0 :: rest) w).1 !! i
       = Some (if Z.of_nat i <? max_requests self
               then Ok true
               else Raise (HTTPException 429
                             ("Rate limit exceeded. Try again in "
                              +:+ pretty (window_seconds self) +:+ " seconds.")))).
Proof.
  intros Hredis. split.
  - intros now Hwindow Hcounter. now apply check_rate_limit_refines.
  - intros t0 rest Hfresh Hwithin i Hi.
    rewrite (check_all_window _ _ _ _ _ _ Hredis Hfresh Hwithin).
    destruct (lookup_lt_is_Some_2 (t0 :: rest) i Hi) as [t Ht].
    rewrite list_lookup_imap, Ht. cbn. unfold verdict. f_equal.
    destruct (Z.of_nat i <? max_requests self) eqn:Hlt;
      destruct (Z.of_nat i + 1 >? max_requests self) eqn:Hgt; try reflexivity; lia.
Qed.

(** Six logins from one address within six seconds, against the limiter
    for the auth endpoints (ceiling 5, window 60): the fifth passes, the
    sixth is refused. *)
Lemma check_rate_limit_fixed_window_witness :
  redis (redis_service Fixture.online) = Some ∅
  /\ (check_all auth_rate_limiter
        {| client := Some "203.0.113.7"; url_path := "/auth/login" |}
        [1700000000; 1700000001; 1700000002; 1700000003; 1700000004; 1700000005]
        Fixture.online).1 !! 4%nat = Some (Ok true)
  /\ (check_all auth_rate_limiter
        {| client := Some "203.0.113.7"; url_path := "/auth/login" |}
        [1700000000; 1700000001; 1700000002; 1700000003; 1700000004; 1700000005]
        Fixture.online).1 !! 5%nat
     = Some (Raise (HTTPException 429
                      "Rate limit exceeded. Try again in 60 seconds.")).
Proof.
  destruct (check_rate_limit_fixed_window auth_rate_limiter
              {| client := Some "203.0.113.7"; url_path := "/auth/login" |}
              Fixture.online ∅ eq_refl) as [_ Hwindow].
  assert (Hwithin : Forall (fun t => t < 1700000000 + window_seconds auth_rate_limiter)
                      [1700000000; 1700000001; 1700000002; 1700000003;
                       1700000004; 1700000005])
    by (repeat constructor).
  split; [reflexivity |]. split.
  - apply (Hwindow 1700000000 _ eq_refl Hwithin 4%nat). cbn. lia.
  - apply (Hwindow 1700000000 _ eq_refl Hwithin 5%nat). cbn. lia.
Defined.

(** ** The scenario of the specification

    Alice has not paid; the [payment.captured] event for her payment is
    delivered with a valid signature; her status then reads paid; the same
    payload delivered again is answered ["already_processed"] and she
    stays paid. *)
Example payment_then_replay :
  (serve_all Fixture.test_env
     [(1700000000, GetSubscriptionStatus (Some 1));
      (1700000030,
       RazorpayWebhook (Fixture.body Fixture.captured)
         "4b2f36d0d0d72d58aa9e963f644bebc7bb923bd9807f041ce41aa68fffd95cbc");
      (1700000060, GetSubscriptionStatus (Some 1));
      (1700000090,
       RazorpayWebhook (Fixture.body Fixture.captured)
         "4b2f36d0d0d72d58aa9e963f644bebc7bb923bd9807f041ce41aa68fffd95cbc");
      (1700000120, GetSubscriptionStatus (Some 1))]
     Fixture.online).1
  = [Ok (JObj [("is_paid", JBool false); ("email", JStr "alice@example.com");
               ("payment_gateway", JStr "stripe")]);
     Ok (status_only "success");
     Ok (JObj [("is_paid", JBool true); ("email", JStr "alice@example.com");
               ("payment_gateway", JStr "stripe")]);
     Ok (status_only "already_processed");
     Ok (JObj [("is_paid", JBool true); ("email", JStr "alice@example.com");
               ("payment_gateway", JStr "stripe")])].
Proof. vm_compute. reflexivity. Qed.

(** * Lemmas for the further properties *)

(** ** [str(user_id)] and [int(user_id)] *)

Lemma rev_app_rev_app s t u :
  String.rev_app (String.rev_app s t) u = String.rev_app t (s +:+ u).
Proof.
  revert t u. induction s as [|a s IH]; intros t u; simpl; [reflexivity|].
  now rewrite IH.
Qed.

Lemma append_empty_r s : s +:+ "" = s.
Proof.
  induction s as [|a s IH]; [reflexivity|].
  change (String a (s +:+ "") = String a s). now rewrite IH.
Qed.

Lemma rev_rev s : String.rev (String.rev s) = s.
Proof. unfold String.rev. rewrite rev_app_rev_app. simpl. apply append_empty_r. Qed.

Lemma all_chars_rev_app p s t :
  all_chars p s = true -> all_chars p t = true ->
  all_chars p (String.rev_app s t) = true.
Proof.
  revert t. induction s as [|a s IH]; intros t Hs Ht; simpl in *; [assumption|].
  apply andb_prop in Hs as [Ha Hs]. apply IH; [assumption|].
  simpl. now rewrite Ha, Ht.
Qed.

Lemma lstrip_no_space s :
  all_chars (fun c => negb (is_py_space c)) s = true -> lstrip s = s.
Proof.
  destruct s as [|c s]; simpl; [reflexivity|].
  intros H. apply andb_prop in H as [Hc _].
  now destruct (is_py_space c).
Qed.

Lemma strip_no_space s :
  all_chars (fun c => negb (is_py_space c)) s = true -> strip s = s.
Proof.
  intros H. unfold strip. rewrite (lstrip_no_space s H).
  rewrite lstrip_no_space; [apply rev_rev|].
  now apply all_chars_rev_app.
Qed.

Lemma digit_not_space c d : digit_of c = Some d -> is_py_space c = false.
Proof.
  unfold digit_of, is_py_space.
  destruct ((48 <=? _) && (_ <=? 57)) eqn:E; [|discriminate].
  intros _. apply andb_prop in E as [E1 E2]. lia.
Qed.

Lemma digit_of_pretty_N_char x :
  (x < 10)%N -> digit_of (pretty_N_char x) = Some (Z.of_N x).
Proof.
  intros H.
  assert (x = 0 \/ x = 1 \/ x = 2 \/ x = 3 \/ x = 4 \/ x = 5 \/ x = 6
          \/ x = 7 \/ x = 8 \/ x = 9)%N as Hx by lia.
  repeat destruct Hx as [-> | Hx]; try subst x; reflexivity.
Qed.

(** Reading the digits that [pretty] wrote: the accumulator is shifted by
    their number and the value added. *)
Lemma int_digits_pretty_N_go x :
  (0 < x)%N ->
  exists p, forall acc s,
    int_digits acc false (pretty_N_go x s) = int_digits (acc * p + Z.of_N x) false s.
Proof.
  induction (N.lt_wf_0 x) as [x _ IH]. intros Hx.
  assert (Hd : digit_of (pretty_N_char (x `mod` 10)) = Some (Z.of_N (x `mod` 10)%N))
    by (apply digit_of_pretty_N_char, N.mod_lt; lia).
  destruct (decide (x `div` 10 = 0)%N) as [H0 | H0].
  - exists 10. intros acc s. rewrite pretty_N_go_step by assumption.
    rewrite H0, pretty_N_go_0. cbn [int_digits]. rewrite Hd. f_equal.
    pose proof (N.div_mod x 10). lia.
  - destruct (IH (x `div` 10)%N) as [p Hp];
      [apply N.div_lt; lia | now apply N.neq_0_lt_0 |].
    exists (10 * p). intros acc s. rewrite pretty_N_go_step by assumption.
    rewrite Hp. cbn [int_digits]. rewrite Hd. f_equal.
    pose proof (N.div_mod x 10). lia.
Qed.

Lemma all_digits_pretty_N_go x s :
  all_chars (fun c => bool_decide (is_Some (digit_of c))) s = true ->
  all_chars (fun c => bool_decide (is_Some (digit_of c))) (pretty_N_go x s) = true.
Proof.
  revert s. induction (N.lt_wf_0 x) as [x _ IH]. intros s Hs.
  destruct (decide (0 < x)%N) as [Hx | Hx].
  - rewrite pretty_N_go_step by assumption. apply IH; [apply N.div_lt; lia|].
    simpl. rewrite Hs, digit_of_pretty_N_char by (apply N.mod_lt; lia).
    reflexivity.
  - replace x with 0%N by lia. now rewrite pretty_N_go_0.
Qed.

Lemma all_chars_impl (p q : ascii -> bool) s :
  (forall c, p c = true -> q c = true) ->
  all_chars p s = true -> all_chars q s = true.
Proof.
  intros Hpq. induction s as [|c s IH]; simpl; [reflexivity|].
  intros H. apply andb_prop in H as [Hc Hs]. now rewrite (Hpq c Hc), IH.
Qed.

Lemma digits_no_space s :
  all_chars (fun c => bool_decide (is_Some (digit_of c))) s = true ->
  all_chars (fun c => negb (is_py_space c)) s = true.
Proof.
  apply all_chars_impl. intros c Hc. apply bool_decide_eq_true in Hc as [d Hd].
  now rewrite (digit_not_space c d Hd).
Qed.

Lemma int_of_str_digits c rest d :
  digit_of c = Some d ->
  all_chars (fun c => negb (is_py_space c)) rest = true ->
  int_of_str (String c rest) = int_digits 0 false (String c rest).
Proof.
  intros Hd Hrest. unfold int_of_str.
  rewrite strip_no_space
    by (simpl; now rewrite (digit_not_space c d Hd), Hrest).
  clear Hrest.
  destruct c as [[] [] [] [] [] [] [] []]; vm_compute in Hd; try discriminate Hd;
    reflexivity.
Qed.

Lemma int_of_str_pretty_pos p : int_of_str (pretty (Z.pos p)) = Some (Z.pos p).
Proof.
  change (pretty (Z.pos p)) with (pretty_N_go (N.pos p) "").
  destruct (int_digits_pretty_N_go (N.pos p)) as [q Hq]; [lia|].
  pose proof (all_digits_pretty_N_go (N.pos p) "" eq_refl) as Hall.
  pose proof (Hq 0 "") as H0. cbn [int_digits] in H0.
  destruct (pretty_N_go (N.pos p) "") as [|c rest] eqn:E.
  - discriminate H0.
  - simpl in Hall. apply andb_prop in Hall as [Hc Hrest].
    apply bool_decide_eq_true in Hc as [d Hd].
    rewrite (int_of_str_digits c rest d Hd) by now apply digits_no_space.
    exact H0.
Qed.

Lemma int_of_str_pretty n : int_of_str (pretty n) = Some n.
Proof.
  destruct n as [|p|p].
  - reflexivity.
  - apply int_of_str_pretty_pos.
  - change (pretty (Z.neg p)) with ("-" +:+ pretty_N_go (N.pos p) "").
    destruct (int_digits_pretty_N_go (N.pos p)) as [q Hq]; [lia|].
    pose proof (all_digits_pretty_N_go (N.pos p) "" eq_refl) as Hall.
    pose proof (Hq 0 "") as H0. cbn [int_digits] in H0.
    unfold int_of_str. rewrite strip_no_space
      by (simpl; now apply digits_no_space).
    change ("-" +:+ pretty_N_go (N.pos p) "")
      with (String "-" (pretty_N_go (N.pos p) "")).
    cbv iota beta.
    destruct (pretty_N_go (N.pos p) "") as [|c rest] eqn:E.
    + discriminate H0.
    + simpl in Hall. apply andb_prop in Hall as [Hc _].
      apply bool_decide_eq_true in Hc as [d Hd].
      cbn [int_digits] in H0. cbn [int_unsigned]. rewrite Hd in *.
      replace (10 * 0 + d) with d in H0 by lia. rewrite H0. reflexivity.
Qed.

(** ** What a verified payment event does *)

Lemma getitem_get x key v dflt : getitem x key = Ok v -> get x key dflt = Ok v.
Proof.
  destruct x; simpl; try discriminate.
  destruct (dict_get fields key); now intros [= ->].
Qed.

Lemma payment_entity_of_inv event entity :
  payment_entity_of event = Ok entity ->
  exists payload_ payment,
    getitem event "payload" = Ok payload_
    /\ getitem payload_ "payment" = Ok payment
    /\ getitem payment "entity" = Ok entity.
Proof.
  unfold payment_entity_of. intros H.
  destruct (getitem event "payload") as [payload_|] eqn:H1; [|discriminate].
  destruct (getitem payload_ "payment") as [payment|] eqn:H2; [|discriminate].
  eauto.
Qed.

Lemma payment_entity_payment_id event entity :
  payment_entity_of event = Ok entity ->
  payment_id_of event = get entity "id" JNull.
Proof.
  intros (payload_ & payment & H1 & H2 & H3)%payment_entity_of_inv.
  unfold payment_id_of.
  now rewrite (getitem_get _ _ _ _ H1), (getitem_get _ _ _ _ H2),
    (getitem_get _ _ _ _ H3).
Qed.

Lemma commit_insert (k : Z) (u u' : User) (rows : gmap Z User) :
  <[k := u']> (<[k := u]> (∅ : gmap Z User)) ∪ rows = <[k := u']> rows.
Proof.
  rewrite insert_insert_eq, insert_empty. symmetry. apply insert_union_singleton_l.
Qed.

(** ** Checkout creation *)

Lemma create_checkout_dispatch env u gateway w :
  create_checkout env u gateway w
  = if String.eqb (selected_gateway env gateway) "razorpay"
    then create_razorpay_order env u w
    else create_stripe_checkout env u w.
Proof.
  unfold create_checkout, create_razorpay_order, create_stripe_checkout.
  destruct (is_paid u), (String.eqb (selected_gateway env gateway) "razorpay");
    reflexivity.
Qed.

Lemma create_stripe_checkout_ok env u w url :
  is_paid u = false ->
  stripe_checkout_Session_create env (calls w)
    (email u) (id u) (success_url_of env) (cancel_url_of env) = Ok url ->
  create_stripe_checkout env u w
  = (Ok (JObj [("gateway", JStr "stripe"); ("checkout_url", JStr url)]),
     with_call (stripe_call env u) w).
Proof.
  intros Hu Hok. unfold create_stripe_checkout, create_checkout_session. run.
  now rewrite Hu, Hok.
Qed.

Lemma create_razorpay_order_ok env u w order :
  is_paid u = false ->
  razorpay_client env = true ->
  razorpay_order_create env (calls w) (razorpay_plan_amount (settings env))
    ("order_user_" +:+ pretty (id u)) (pretty (id u)) = Ok order ->
  create_razorpay_order env u w
  = (Ok (JObj [("gateway", JStr "razorpay");
               ("order_id", JStr (order_id_ order));
               ("amount", JInt (order_amount order));
               ("currency", JStr (order_currency order));
               ("key_id", JStr (razorpay_key_id (settings env)))]),
     with_call (razorpay_call env u) w).
Proof.
  intros Hu Hclient Hok. unfold create_razorpay_order, create_order. run.
  rewrite Hu, Hclient. cbn [negb amount_or_plan]. now rewrite Hok.
Qed.

Lemma create_stripe_checkout_frame env u w :
  entitlements_kept w (create_stripe_checkout env u w).2
  /\ (calls (create_stripe_checkout env u w).2 = calls w
      \/ calls (create_stripe_checkout env u w).2 = stripe_call env u :: calls w).
Proof.
  unfold entitlements_kept, stripe_call. symbolic; auto 10.
Qed.

Lemma create_razorpay_order_frame env u w :
  entitlements_kept w (create_razorpay_order env u w).2
  /\ (calls (create_razorpay_order env u w).2 = calls w
      \/ calls (create_razorpay_order env u w).2 = razorpay_call env u :: calls w).
Proof.
  unfold entitlements_kept, razorpay_call. symbolic; auto 10.
Qed.

Lemma create_razorpay_order_not_configured env u w :
  is_paid u = false ->
  razorpay_client env = false ->
  create_razorpay_order env u w
  = (Raise (HTTPException 500 "Razorpay not configured"), w).
Proof.
  intros Hu Hclient. unfold create_razorpay_order, create_order. run.
  now rewrite Hu, Hclient.
Qed.

Lemma verify_razorpay_payment_not_configured env now payment_data u w :
  razorpay_client env = false ->
  unseen now w (payment_key payment_data) ->
  verify_razorpay_payment env now payment_data u w
  = (Raise (HTTPException 400 "Invalid payment signature"), w).
Proof.
  intros Hclient Hunseen. unfold verify_razorpay_payment. unfold bind at 1.
  fold (payment_key payment_data). rewrite (redis_exists_unseen _ _ _ Hunseen).
  unfold verify_payment_signature. run. now rewrite Hclient.
Qed.

Lemma razorpay_webhook_no_secret env now payload sig w :
  razorpay_webhook_secret (settings env) = "" ->
  razorpay_webhook env now payload sig w
  = (Raise (HTTPException 400 "Invalid webhook signature"), w).
Proof.
  intros Hsecret. apply razorpay_webhook_rejected.
  unfold verify_webhook_signature. now rewrite Hsecret.
Qed.

(** ** The subscription status *)

Lemma serve_status env now k w u :
  db w !! k = Some u ->
  serve env now (GetSubscriptionStatus (Some k)) w
  = (Ok (JObj [("is_paid", JBool (is_paid u));
               ("email", JStr (email u));
               ("payment_gateway", JStr (payment_gateway (settings env)))]),
     with_session (fun _ => ∅) w).
Proof.
  intros Hrow. unfold serve, endpoint, get_current_user, select_user,
    get_subscription_status. run.
  cbn [session with_session]. rewrite lookup_empty.
  cbn [db with_session]. now rewrite Hrow.
Qed.

Lemma create_order_notes env user_id amount w :
  razorpay_client env = true ->
  calls (create_order env user_id amount w).2
  = RazorpayOrderCreate (amount_or_plan env amount)
      ("order_user_" +:+ pretty user_id) (pretty user_id) :: calls w.
Proof.
  intros Hclient. unfold create_order. rewrite Hclient. run. cbn [negb].
  cbn [calls with_call].
  destruct (razorpay_order_create env _ _ _ _);
    rewrite ?isinstance_Exception; reflexivity.
Qed.

Lemma int_str_round_trip n w :
  truthy (JStr (pretty n)) = true /\ int_ (JStr (pretty n)) w = (Ok n, w).
Proof.
  pose proof (int_of_str_pretty n) as H. split.
  - simpl. destruct (pretty n); [discriminate H | reflexivity].
  - unfold int_. cbn [int_of_json]. now rewrite H.
Qed.

(** ** [RedisService]: what is written is what is read *)


Lemma redis_set_connected now key val ttl w ks :
  redis (redis_service w) = Some ks ->
  (forall t, ttl = Some t -> 0 <= t) ->
  redis_set now key val ttl w
  = (Ok true,
     with_keyspace
       (<[key := {| value := VRaw val;
                    expires_at := (fun t => now + t) <$> truthy_ttl ttl |}]> ks) w).
Proof.
  intros Hredis Httl. unfold redis_set, self_redis, SETEX, SET. run.
  rewrite Hredis. destruct ttl as [t|]; cbn [truthy_ttl]; [|reflexivity].
  specialize (Httl t eq_refl).
  destruct (t =? 0) eqn:E0; [reflexivity|].
  destruct (0 <? t) eqn:E; [reflexivity | lia].
Qed.


Lemma redis_get_connected now key w ks :
  redis (redis_service w) = Some ks ->
  redis_get now key w = (Ok (GET now ks key), w).
Proof. intros Hredis. unfold redis_get, self_redis. run. now rewrite Hredis. Qed.

Lemma redis_exists_connected now key w ks :
  redis (redis_service w) = Some ks ->
  redis_exists now key w = (Ok (bool_decide (is_Some (live now ks key))), w).
Proof.
  intros Hredis. unfold redis_exists, self_redis, EXISTS. run. rewrite Hredis.
  destruct (live now ks key); reflexivity.
Qed.

Lemma GET_insert now (ks : Keyspace) key e :
  GET now (<[key := e]> ks) key
  = if is_live now e then Some (str_value (value e)) else None.
Proof. unfold GET, live. rewrite lookup_insert_eq. now destruct (is_live now e). Qed.

Lemma GET_insert_ne now (ks : Keyspace) key key' e :
  key <> key' -> GET now (<[key := e]> ks) key' = GET now ks key'.
Proof. intros Hne. unfold GET, live. now rewrite lookup_insert_ne. Qed.

Lemma redis_set_then_get now now' key val ttl w ks :
  redis (redis_service w) = Some ks ->
  (forall t, ttl = Some t -> 0 <= t) ->
  exists w',
    redis_set now key val ttl w = (Ok true, w')
    /\ redis_get now' key w' = (Ok (stored now now' val ttl), w')
    /\ redis_exists now' key w'
       = (Ok (bool_decide (is_Some (stored now now' val ttl))), w')
    /\ forall key', key' <> key -> (redis_get now' key' w').1 = (redis_get now' key' w).1.
Proof.
  intros Hredis Httl.
  set (e := {| value := VRaw val;
               expires_at := (fun t => now + t) <$> truthy_ttl ttl |}).
  assert (Hredis' :
    redis (redis_service (with_keyspace (<[key := e]> ks) w))
    = Some (<[key := e]> ks)) by reflexivity.
  exists (with_keyspace (<[key := e]> ks) w).
  split; [now apply redis_set_connected|].
  assert (Hlive :
    live now' (<[key := e]> ks) key = (fun _ => e) <$> stored now now' val ttl).
  { unfold live, stored, is_live. rewrite lookup_insert_eq. subst e; cbn.
    destruct (truthy_ttl ttl) as [t|]; cbn; [|reflexivity].
    now destruct (now' <? now + t). }
  split; [|split].
  - rewrite (redis_get_connected _ _ _ _ Hredis').
    unfold GET. rewrite Hlive. unfold stored.
    destruct (truthy_ttl ttl) as [t|]; [destruct (now' <? now + t)|]; reflexivity.
  - rewrite (redis_exists_connected _ _ _ _ Hredis'), Hlive.
    do 2 f_equal. apply bool_decide_ext. rewrite fmap_is_Some. reflexivity.
  - intros key' Hne.
    rewrite (redis_get_connected _ _ _ _ Hredis'), (redis_get_connected _ _ _ _ Hredis).
    cbn. now rewrite GET_insert_ne.
Qed.

(** ** The rate limiter: windows and counters *)





(** *** Who shares a counter *)

Lemma append_no_colon_inj a b c d :
  no_colon a = true -> no_colon b = true ->
  a +:+ ":" +:+ c = b +:+ ":" +:+ d -> a = b /\ c = d.
Proof.
  revert b. induction a as [|x a IH]; intros [|y b] Ha Hb Heq.
  - now injection Heq.
  - injection Heq as <- _. cbn in Hb. discriminate.
  - injection Heq as -> _. cbn in Ha. discriminate.
  - injection Heq as -> Heq. cbn in Ha, Hb.
    apply andb_prop in Ha as [_ Ha]. apply andb_prop in Hb as [_ Hb].
    destruct (IH b Ha Hb Heq) as [-> ->]. now split.
Qed.

Lemma rate_limit_key_inj r1 r2 :
  no_colon (url_path r1) = true ->
  no_colon (url_path r2) = true ->
  rate_limit_key r1 = rate_limit_key r2 ->
  url_path r1 = url_path r2 /\ client_ip r1 = client_ip r2.
Proof.
  intros H1 H2 Heq. unfold rate_limit_key in Heq.
  apply (inj (String.append "ratelimit:")) in Heq.
  now apply append_no_colon_inj.
Qed.

(** A call writes under its own key only. *)
Lemma check_rate_limit_frame self now request w key' :
  key' <> rate_limit_key request ->
  match redis (redis_service w) with
  | Some ks =>
      exists ks', redis (redis_service (check_rate_limit self now request w).2) = Some ks'
                  /\ ks' !! key' = ks !! key'
  | None => (check_rate_limit self now request w).2 = w
  end.
Proof.
  intros Hne.
  unfold check_rate_limit, redis_incr, redis_expire, INCR, EXPIRE. run.
  unfold self_redis. run.
  destruct (redis (redis_service w)) as [ks|] eqn:Hredis.
  2:{ cbn. now destruct (0 >? max_requests self). }
  unfold live.
  cases; cbn; rewrite ?Hredis; eexists; (split; [reflexivity|]); simplify_eq;
    rewrite ?lookup_delete_ne, ?lookup_insert_ne by congruence; try reflexivity.
Qed.

(** The answer depends on the entry under the request's key only. *)
Lemma check_rate_limit_local self now request w1 w2 ks1 ks2 :
  redis (redis_service w1) = Some ks1 ->
  redis (redis_service w2) = Some ks2 ->
  ks1 !! rate_limit_key request = ks2 !! rate_limit_key request ->
  (check_rate_limit self now request w1).1 = (check_rate_limit self now request w2).1.
Proof.
  intros H1 H2 Hsame.
  unfold check_rate_limit, redis_incr, redis_expire, INCR, EXPIRE, live. run.
  unfold self_redis. run. rewrite H1, H2, Hsame.
  destruct (ks2 !! rate_limit_key request) as [e|]; cbn.
  - destruct (is_live now e); cbn.
    + destruct (redis_int (value e)) as [n|]; cbn; [|reflexivity].
      destruct (n + 1 =? 1); cbn; rewrite ?lookup_insert_eq; cbn.
      * destruct (is_live now _); cbn; destruct (n + 1 >? max_requests self); reflexivity.
      * destruct (n + 1 >? max_requests self); reflexivity.
    + rewrite !lookup_insert_eq. cbn.
      destruct (1 >? max_requests self); reflexivity.
  - rewrite !lookup_insert_eq. cbn.
    destruct (1 >? max_requests self); reflexivity.
Qed.

(** ** The auth router *)

Lemma filter_email_unregistered (rows : gmap Z User) e :
  unregistered rows e ->
  map_to_list (filter (fun kv => email kv.2 = e) rows) = [].
Proof.
  intros Hnone. apply map_to_list_empty_iff, map_empty_filter.
  intros k u Hrow. cbn. now apply (Hnone k u).
Qed.

Lemma filter_email_registered (rows : gmap Z User) k u :
  unique_emails rows ->
  rows !! k = Some u ->
  map_to_list (filter (fun kv => email kv.2 = email u) rows) = [(k, u)].
Proof.
  intros Huniq Hrow.
  assert (filter (fun kv : Z * User => email kv.2 = email u) rows = {[k := u]}) as ->.
  { apply map_eq. intros j. destruct (decide (j = k)) as [-> | Hne].
    - rewrite lookup_singleton_eq. now apply map_lookup_filter_Some.
    - rewrite lookup_singleton_ne by congruence.
      apply map_lookup_filter_None. right. intros v Hv Hemail. cbn in Hemail.
      apply Hne. exact (Huniq j k v u Hv Hrow Hemail). }
  apply map_to_list_singleton.
Qed.

Lemma foldr_max_bound (l : list (Z * User)) k0 :
  k0 <= foldr (fun kv m => Z.max kv.1 m) k0 l
  /\ Forall (fun kv => kv.1 <= foldr (fun kv m => Z.max kv.1 m) k0 l) l.
Proof.
  induction l as [|x l [IH0 IH]]; cbn; [split; [lia | constructor]|].
  split; [lia|]. constructor; [lia|].
  eapply Forall_impl; [exact IH|]. cbn. intros; lia.
Qed.

Lemma next_id_above (rows : gmap Z User) k u :
  rows !! k = Some u -> k < next_id rows.
Proof.
  intros Hrow. apply elem_of_map_to_list in Hrow. unfold next_id.
  destruct (map_to_list rows) as [|[k0 u0] rest]; [now apply elem_of_nil in Hrow|].
  destruct (foldr_max_bound rest k0) as [H0 Hrest].
  apply elem_of_cons in Hrow as [[= -> ->] | Hin]; [lia|].
  rewrite Forall_forall in Hrest. specialize (Hrest _ Hin). cbn in Hrest. lia.
Qed.

Lemma next_id_fresh (rows : gmap Z User) : rows !! next_id rows = None.
Proof.
  destruct (rows !! next_id rows) as [u|] eqn:E; [|reflexivity].
  apply next_id_above in E. lia.
Qed.

Lemma check_rate_limit_with_session self now request f w :
  check_rate_limit self now request (with_session f w)
  = ((check_rate_limit self now request w).1,
     with_session f (check_rate_limit self now request w).2).
Proof.
  unfold check_rate_limit, redis_incr, redis_expire, self_redis. run.
  cbn [redis redis_service with_session].
  destruct (redis (redis_service w)) as [ks|]; cases; reflexivity.
Qed.

Lemma check_rate_limit_keeps self now request w :
  db (check_rate_limit self now request w).2 = db w
  /\ commits (check_rate_limit self now request w).2 = commits w
  /\ session (check_rate_limit self now request w).2 = session w
  /\ calls (check_rate_limit self now request w).2 = calls w.
Proof.
  unfold check_rate_limit, redis_incr, redis_expire, self_redis. run.
  destruct (redis (redis_service w)) as [ks|]; cases; auto.
Qed.

(** A request that the limiter refuses gets the limiter's answer. *)
Lemma serve_auth_refused auth now req w e w1 :
  check_rate_limit auth_rate_limiter now (request_of req) w = (Raise e, w1) ->
  serve_auth auth now req w = (Raise e, with_session (fun _ => ∅) w1).
Proof.
  intros Hcheck. unfold serve_auth.
  destruct req; cbn [request_of] in Hcheck; unfold signup, login;
    unfold bind at 1; rewrite check_rate_limit_with_session, Hcheck; reflexivity.
Qed.

Lemma signup_registered auth now salt user_data request w b w1 k u :
  check_rate_limit auth_rate_limiter now request w = (Ok b, w1) ->
  unique_emails (db w) ->
  db w !! k = Some u ->
  email u = user_data_email user_data ->
  serve_auth auth now (Signup salt user_data request) w
  = (Raise (HTTPException 400 "Email already registered"),
     with_session (fun _ => ∅) w1).
Proof.
  intros Hcheck Huniq Hrow Hemail.
  destruct (check_rate_limit_keeps auth_rate_limiter now request w)
    as (Hdb & _ & _ & _).
  rewrite Hcheck in Hdb. cbn [snd] in Hdb.
  unfold serve_auth, signup. unfold bind at 1.
  rewrite check_rate_limit_with_session, Hcheck. cbn [fst snd].
  unfold select_user_by_email. run. cbn [db session with_session].
  rewrite Hdb, <- Hemail, (filter_email_registered _ _ _ Huniq Hrow).
  cbv beta iota. cbn [session with_session]. rewrite lookup_empty. reflexivity.
Qed.

Lemma signup_unregistered auth now salt user_data request w b w1 :
  check_rate_limit auth_rate_limiter now request w = (Ok b, w1) ->
  unregistered (db w) (user_data_email user_data) ->
  serve_auth auth now (Signup salt user_data request) w
  = (Ok (Token (create_access_token auth now (next_id (db w))
                  (user_data_email user_data))),
     with_session (fun _ => ∅)
       (with_commits S
          (with_db
             (<[next_id (db w) :=
                  new_user (db w) now (user_data_email user_data)
                    (hash_password auth salt (user_data_password user_data))]>)
             w1))).
Proof.
  intros Hcheck Hnone.
  destruct (check_rate_limit_keeps auth_rate_limiter now request w)
    as (Hdb & _ & _ & _).
  rewrite Hcheck in Hdb. cbn [snd] in Hdb.
  unfold serve_auth, signup. unfold bind at 1.
  rewrite check_rate_limit_with_session, Hcheck. cbn [fst snd].
  unfold select_user_by_email, add_user. run. cbn [db session with_session].
  rewrite Hdb, (filter_email_unregistered _ _ Hnone).
  cbv beta iota. cbn [db with_session].
  rewrite Hdb, (filter_email_unregistered _ _ Hnone).
  rewrite bool_decide_eq_true_2 by reflexivity.
  cbn [id email]. unfold with_session, with_commits, with_db, new_user. cbn.
  rewrite Hdb, insert_empty. do 3 f_equal.
  symmetry. apply insert_union_singleton_l.
Qed.

Lemma login_registered auth now user_data request w b w1 k u :
  check_rate_limit auth_rate_limiter now request w = (Ok b, w1) ->
  unique_emails (db w) ->
  db w !! k = Some u ->
  email u = user_data_email user_data ->
  serve_auth auth now (Login user_data request) w
  = (if verify_password auth (user_data_password user_data) (hashed_password u)
     then Ok (Token (create_access_token auth now (id u) (email u)))
     else Raise invalid_credentials,
     with_session (fun _ => ∅) w1).
Proof.
  intros Hcheck Huniq Hrow Hemail.
  destruct (check_rate_limit_keeps auth_rate_limiter now request w)
    as (Hdb & _ & _ & _).
  rewrite Hcheck in Hdb. cbn [snd] in Hdb.
  unfold serve_auth, login. unfold bind at 1.
  rewrite check_rate_limit_with_session, Hcheck. cbn [fst snd].
  unfold select_user_by_email. run. cbn [db session with_session].
  rewrite Hdb, <- Hemail, (filter_email_registered _ _ _ Huniq Hrow).
  cbv beta iota. cbn [session with_session]. rewrite lookup_empty.
  now destruct (verify_password auth _ _).
Qed.

Lemma login_unregistered auth now user_data request w b w1 :
  check_rate_limit auth_rate_limiter now request w = (Ok b, w1) ->
  unregistered (db w) (user_data_email user_data) ->
  serve_auth auth now (Login user_data request) w
  = (Raise invalid_credentials, with_session (fun _ => ∅) w1).
Proof.
  intros Hcheck Hnone.
  destruct (check_rate_limit_keeps auth_rate_limiter now request w)
    as (Hdb & _ & _ & _).
  rewrite Hcheck in Hdb. cbn [snd] in Hdb.
  unfold serve_auth, login. unfold bind at 1.
  rewrite check_rate_limit_with_session, Hcheck. cbn [fst snd].
  unfold select_user_by_email. run. cbn [db session with_session].
  now rewrite Hdb, (filter_email_unregistered _ _ Hnone).
Qed.

(** Whatever the table holds, [login] leaves it alone. *)
Lemma login_world auth now user_data request w :
  (serve_auth auth now (Login user_data request) w).2
  = with_session (fun _ => ∅) (check_rate_limit auth_rate_limiter now request w).2.
Proof.
  unfold serve_auth, login. unfold bind at 1.
  rewrite check_rate_limit_with_session.
  destruct (check_rate_limit auth_rate_limiter now request w) as [[b|e] w1];
    cbn [fst snd] in *; [|reflexivity].
  unfold select_user_by_email. run. cbn [db session with_session].
  destruct (map_to_list _) as [|[k u] [|? ?]]; cbv beta iota;
    cbn [session with_session]; rewrite ?lookup_empty; cbv beta iota;
    try destruct (verify_password auth _ _); reflexivity.
Qed.

Lemma login_reads_only auth now user_data request w :
  db (serve_auth auth now (Login user_data request) w).2 = db w
  /\ commits (serve_auth auth now (Login user_data request) w).2 = commits w
  /\ calls (serve_auth auth now (Login user_data request) w).2 = calls w
  /\ redis_service (serve_auth auth now (Login user_data request) w).2
     = redis_service (check_rate_limit auth_rate_limiter now request w).2.
Proof.
  destruct (check_rate_limit_keeps auth_rate_limiter now request w)
    as (Hdb & Hcommits & _ & Hcalls).
  rewrite login_world. cbn. auto.
Qed.

(** What one request to the auth router does to the table: nothing, or
    the insertion of one row for an address that was not registered. *)
Lemma serve_auth_effect auth now req w :
  (db (serve_auth auth now req w).2 = db w
   /\ commits (serve_auth auth now req w).2 = commits w)
  \/ (exists salt user_data request,
        req = Signup salt user_data request
        /\ unregistered (db w) (user_data_email user_data)
        /\ db (serve_auth auth now req w).2
           = <[next_id (db w) :=
                 new_user (db w) now (user_data_email user_data)
                   (hash_password auth salt (user_data_password user_data))]> (db w)
        /\ commits (serve_auth auth now req w).2 = S (commits w)).
Proof.
  destruct req as [salt user_data request | user_data request].
  2:{ left. destruct (login_reads_only auth now user_data request w) as (? & ? & _).
      now split. }
  destruct (check_rate_limit_keeps auth_rate_limiter now request w)
    as (Hdb & Hcommits & _ & _).
  destruct (check_rate_limit auth_rate_limiter now request w) as [[b|e] w1] eqn:Hcheck;
    cbn [snd] in *.
  2:{ left. rewrite (serve_auth_refused _ _ (Signup salt user_data request) _ _ _ Hcheck).
      now split. }
  destruct (map_to_list (filter (fun kv : Z * User => email kv.2 = user_data_email user_data)
                           (db w))) as [|[k u] rest] eqn:Hfilter.
  - right. exists salt, user_data, request. split; [reflexivity|].
    assert (Hnone : unregistered (db w) (user_data_email user_data)).
    { apply map_to_list_empty_iff in Hfilter.
      intros k u Hrow Hemail. eapply map_filter_empty_not_lookup in Hfilter; eauto. }
    split; [exact Hnone|].
    rewrite (signup_unregistered _ _ _ _ _ _ _ _ Hcheck Hnone). cbn.
    now rewrite Hdb, Hcommits.
  - left.
    assert ((serve_auth auth now (Signup salt user_data request) w).2
            = with_session (fun _ => ∅) w1) as ->; [|now split].
    unfold serve_auth, signup. unfold bind at 1.
    rewrite check_rate_limit_with_session, Hcheck. cbn [fst snd].
    unfold select_user_by_email. run. cbn [db session with_session].
    rewrite Hdb, Hfilter. destruct rest; cbv beta iota;
      cbn [session with_session]; rewrite ?lookup_empty; reflexivity.
Qed.

(** ** Accounts *)

Lemma same_account_refl u : same_account u u.
Proof. now repeat split. Qed.

Lemma session_accounts_empty rows : session_accounts ∅ rows.
Proof. intros j x H. now rewrite lookup_empty in H. Qed.

Lemma session_accounts_insert s rows j x u :
  rows !! j = Some u -> same_account x u ->
  session_accounts s rows -> session_accounts (<[j := x]> s) rows.
Proof.
  intros Hrow Hsame Hs i y. rewrite lookup_insert. case_decide; [| apply Hs].
  intros [= <-]. subst. eauto.
Qed.

(** What one billing request does to the table: nothing, or a commit of
    objects that are rows with other entitlement columns. *)
Lemma serve_accounts env now req w :
  keyed (db w) ->
  db (serve env now req w).2 = db w
  \/ exists s, db (serve env now req w).2 = s ∪ db w /\ session_accounts s (db w).
Proof.
  intros Hkeyed.
  destruct (serve env now req w) as [r w'] eqn:Hserve. cbn [snd].
  revert Hserve. unfold serve, endpoint.
  destruct req; autounfold with billing; run.
  all: rewrite ?verify_webhook_signature_eta.
  all: cases; intros; cbn in *; simplify_eq; auto.
  all: right; eexists; split;
    [cbn [db with_db with_commits with_session with_keyspace with_call]; reflexivity|].
  all: repeat match goal with
         | H : db _ !! ?k = Some ?u |- session_accounts (<[id ?u := _]> _) _ =>
             rewrite (Hkeyed k u H)
         | H : db _ !! ?k = Some ?u |- session_accounts (<[?k := _]> _) _ =>
             apply (session_accounts_insert _ _ _ _ u H); [now repeat split|]
         end.
  all: apply session_accounts_empty.
Qed.

(** ** The signals feed and its cache *)

Lemma redis_get_json_disconnected rt now key w :
  redis (redis_service w) = None -> redis_get_json rt now key w = (Ok JNull, w).
Proof.
  intros Hd. unfold redis_get_json. unfold bind at 1.
  now rewrite redis_get_disconnected.
Qed.

Lemma redis_get_json_connected rt now key w ks :
  redis (redis_service w) = Some ks ->
  redis_get_json rt now key w
  = (match GET now ks key with
     | Some s => if truthy_str s then json_loads_str rt s else Ok JNull
     | None => Ok JNull
     end, w).
Proof.
  intros Hredis. unfold redis_get_json. unfold bind at 1.
  rewrite (redis_get_connected _ _ _ _ Hredis).
  destruct (GET now ks key) as [s|]; [|reflexivity].
  now destruct (truthy_str s).
Qed.

Lemma truthy_fresh_signals rt now : truthy (fresh_signals rt now) = true.
Proof. reflexivity. Qed.

Lemma get_signals_data_disconnected rt now w :
  redis (redis_service w) = None ->
  get_signals_data rt now w = (Ok (fresh_signals rt now), w).
Proof.
  intros Hd. unfold get_signals_data. unfold bind at 1.
  rewrite (redis_get_json_disconnected _ _ _ _ Hd). cbn [truthy].
  unfold redis_set_json. unfold bind at 1.
  now rewrite redis_set_disconnected.
Qed.

Lemma get_signals_data_miss rt now w ks :
  redis (redis_service w) = Some ks ->
  live now ks SIGNALS_CACHE_KEY = None ->
  get_signals_data rt now w
  = (Ok (fresh_signals rt now),
     with_keyspace (<[SIGNALS_CACHE_KEY := cached_signals rt now]> ks) w).
Proof.
  intros Hredis Hlive. unfold get_signals_data. unfold bind at 1.
  rewrite (redis_get_json_connected _ _ _ _ _ Hredis). unfold GET.
  rewrite Hlive. cbn [fmap option_fmap option_map truthy].
  unfold redis_set_json. unfold bind at 1.
  rewrite (redis_set_connected _ _ _ _ _ _ Hredis)
    by (intros t [= <-]; unfold SIGNALS_CACHE_TTL; lia).
  reflexivity.
Qed.


Lemma get_signals_data_unfold rt now w :
  get_signals_data rt now w
  = match redis_get_json rt now SIGNALS_CACHE_KEY w with
    | (Ok cached, w') =>
        if truthy cached
        then (Ok cached, w')
        else (redis_set_json rt now SIGNALS_CACHE_KEY (fresh_signals rt now)
                (Some SIGNALS_CACHE_TTL);; ret (fresh_signals rt now)) w'
    | (Raise e, w') => (Raise e, w')
    end.
Proof.
  unfold get_signals_data, bind at 1.
  destruct (redis_get_json rt now SIGNALS_CACHE_KEY w) as [[cached|e] w'];
    [|reflexivity].
  now destruct (truthy cached).
Qed.

(** The feed writes nothing but its cache entry. *)
Lemma get_signals_data_frame rt now w :
  (get_signals_data rt now w).2 = w
  \/ exists ks,
       redis (redis_service w) = Some ks
       /\ (get_signals_data rt now w).2
          = with_keyspace (<[SIGNALS_CACHE_KEY := cached_signals rt now]> ks) w.
Proof.
  rewrite get_signals_data_unfold.
  destruct (redis (redis_service w)) as [ks|] eqn:Hredis.
  2:{ left. rewrite (redis_get_json_disconnected _ _ _ _ Hredis). cbn [truthy].
      unfold redis_set_json. unfold bind at 1.
      now rewrite redis_set_disconnected. }
  rewrite (redis_get_json_connected _ _ _ _ _ Hredis).
  assert (Hset :
    (redis_set_json rt now SIGNALS_CACHE_KEY (fresh_signals rt now)
       (Some SIGNALS_CACHE_TTL);; ret (fresh_signals rt now)) w
    = (Ok (fresh_signals rt now),
       with_keyspace (<[SIGNALS_CACHE_KEY := cached_signals rt now]> ks) w)).
  { unfold redis_set_json. unfold bind at 1.
    rewrite (redis_set_connected _ _ _ _ _ _ Hredis)
      by (intros t [= <-]; unfold SIGNALS_CACHE_TTL; lia).
    reflexivity. }
  destruct (match GET now ks SIGNALS_CACHE_KEY with
            | Some s => if truthy_str s then json_loads_str rt s else Ok JNull
            | None => Ok JNull
            end) as [v|e]; [|now left].
  destruct (truthy v); [now left|].
  right. exists ks. split; [reflexivity|]. now rewrite Hset.
Qed.

Lemma to_signals_length rt l xs :
  to_signals rt l = Ok xs -> length xs = length l.
Proof.
  revert xs. induction l as [|s l IH]; intros xs; cbn.
  - now intros [= <-].
  - destruct (to_signal rt s); [|discriminate].
    destruct (to_signals rt l) as [ys|]; [|discriminate].
    intros [= <-]. cbn. now rewrite (IH ys).
Qed.

Lemma get_signals_unfold rt now u w :
  get_signals rt now u w
  = match get_signals_data rt now w with
    | (Ok (JArr l), w1) =>
        (match to_signals rt (if is_paid u then l else take 3 l) with
         | Ok objs => Ok (SignalsResponse objs (negb (is_paid u)) (length l))
         | Raise e => Raise e
         end, w1)
    | (Ok (JStr EmptyString), w1) => (Ok (SignalsResponse [] (negb (is_paid u)) 0), w1)
    | (Ok (JStr _), w1) => (Raise string_indices, w1)
    | (Ok (JObj fields), w1) =>
        (if is_paid u
         then match fields with
              | [] => Ok (SignalsResponse [] false 0)
              | _ :: _ => Raise string_indices
              end
         else Raise (Exc (dict_slice_error rt) "slice(None, 3, None)"), w1)
    | (Ok _, w1) => (Raise (Exc TypeError "object has no len()"), w1)
    | (Raise e, w1) => (Raise e, w1)
    end.
Proof.
  unfold get_signals, bind at 1.
  destruct (get_signals_data rt now w) as [[v|e] w1]; [|reflexivity].
  destruct v as [| | | |s|l|fields]; try reflexivity.
  - now destruct s.
  - unfold FREE_USER_SIGNAL_LIMIT. run.
    now destruct (to_signals rt (if is_paid u then l else take 3 l)).
  - destruct (is_paid u); [now destruct fields | reflexivity].
Qed.

Lemma get_signals_world rt now u w :
  (get_signals rt now u w).2 = (get_signals_data rt now w).2.
Proof.
  rewrite get_signals_unfold.
  destruct (get_signals_data rt now w) as [[v|e] w1]; [|reflexivity].
  destruct v as [| | | |s|l|fields]; try reflexivity.
  now destruct s.
Qed.

Lemma SignalsResponse_inj objs flag n objs' flag' n' :
  Ok (SignalsResponse objs flag n) = Ok (SignalsResponse objs' flag' n') ->
  objs = objs' /\ flag = flag' /\ n = n'.
Proof. unfold SignalsResponse. intros [= -> -> H]. repeat split. lia. Qed.

Lemma get_signals_limit rt now u w objs flag n :
  (get_signals rt now u w).1 = Ok (SignalsResponse objs flag n) ->
  flag = negb (is_paid u)
  /\ length objs = if is_paid u then n else Nat.min 3 n.
Proof.
  rewrite get_signals_unfold.
  destruct (get_signals_data rt now w) as [[v|e] w1]; [|discriminate].
  destruct v as [| | | |s|l|fields]; cbn [fst]; try discriminate.
  - destruct s; [|discriminate].
    intros H. apply SignalsResponse_inj in H as (<- & <- & <-).
    split; [reflexivity | now destruct (is_paid u)].
  - destruct (to_signals rt _) as [xs|] eqn:Hxs; [|discriminate].
    intros H. apply SignalsResponse_inj in H as (<- & <- & <-).
    split; [reflexivity|]. apply to_signals_length in Hxs. rewrite Hxs.
    destruct (is_paid u); [reflexivity | apply length_take].
  - destruct (is_paid u); [|discriminate]. destruct fields; [|discriminate].
    intros H. apply SignalsResponse_inj in H as (<- & <- & <-). now split.
Qed.

(** With nothing cached, the feed is the eight mock signals under the
    time of the request. *)
Lemma get_signals_fresh rt now u w :
  unseen now w SIGNALS_CACHE_KEY ->
  (get_signals rt now u w).1
  = match to_signals rt
            (if is_paid u
             then set_timestamp (utcnow_isoformat rt now +:+ "Z") <$> MOCK_SIGNALS
             else take 3 (set_timestamp (utcnow_isoformat rt now +:+ "Z") <$> MOCK_SIGNALS))
    with
    | Ok objs => Ok (SignalsResponse objs (negb (is_paid u)) 8)
    | Raise e => Raise e
    end.
Proof.
  intros Hunseen. rewrite get_signals_unfold.
  destruct (redis (redis_service w)) as [ks|] eqn:Hredis.
  - rewrite (get_signals_data_miss _ _ _ _ Hredis (Hunseen ks Hredis)). reflexivity.
  - rewrite (get_signals_data_disconnected _ _ _ Hredis). reflexivity.
Qed.

Lemma get_current_user_cases c w :
  match c with
  | Some k =>
      match db w !! k with
      | Some u =>
          get_current_user c (with_session (fun _ => ∅) w)
          = (Ok u, with_session (fun _ => {[k := u]}) w)
      | None =>
          get_current_user c (with_session (fun _ => ∅) w)
          = (Raise (HTTPException 401 "Could not validate credentials"),
             with_session (fun _ => ∅) w)
      end
  | None =>
      get_current_user c (with_session (fun _ => ∅) w)
      = (Raise (HTTPException 401 "Could not validate credentials"),
         with_session (fun _ => ∅) w)
  end.
Proof.
  unfold get_current_user, select_user. run.
  destruct c as [k|]; cbn [session with_session]; rewrite ?lookup_empty;
    cbn [db with_session]; [destruct (db w !! k)|]; reflexivity.
Qed.

Lemma serve_signals_unfold rt now c w :
  serve_signals rt now c w
  = match c with
    | Some k =>
        match db w !! k with
        | Some u =>
            ((get_signals rt now u (with_session (fun _ => {[k := u]}) w)).1,
             with_session (fun _ => ∅)
               (get_signals rt now u (with_session (fun _ => {[k := u]}) w)).2)
        | None =>
            (Raise (HTTPException 401 "Could not validate credentials"),
             with_session (fun _ => ∅) w)
        end
    | None =>
        (Raise (HTTPException 401 "Could not validate credentials"),
         with_session (fun _ => ∅) w)
    end.
Proof.
  pose proof (get_current_user_cases c w) as Hu.
  unfold serve_signals, bind at 1.
  destruct c as [k|]; [destruct (db w !! k) as [u|]|]; rewrite Hu; try reflexivity.
  now destruct (get_signals rt now u _).
Qed.

Lemma serve_signals_world rt now c w :
  (serve_signals rt now c w).2 = with_session (fun _ => ∅) w
  \/ exists ks,
       redis (redis_service w) = Some ks
       /\ (serve_signals rt now c w).2
          = with_session (fun _ => ∅)
              (with_keyspace (<[SIGNALS_CACHE_KEY := cached_signals rt now]> ks) w).
Proof.
  rewrite serve_signals_unfold.
  destruct c as [k|]; [destruct (db w !! k) as [u|]|]; try now left.
  cbn [snd]. rewrite get_signals_world.
  destruct (get_signals_data_frame rt now (with_session (fun _ => {[k := u]}) w))
    as [Hsame | (ks & Hredis & Hsame)]; rewrite Hsame.
  - now left.
  - right. exists ks. split; [exact Hredis | reflexivity].
Qed.

(** ** Billing, signup, login and the feed together *)

Lemma same_account_trans x y z :
  same_account x y -> same_account y z -> same_account x z.
Proof. unfold same_account. intuition congruence. Qed.

Lemma accounts_persist_refl rows : accounts_persist rows rows.
Proof. intros k u H. exists u. split; [exact H | apply same_account_refl]. Qed.

Lemma accounts_persist_trans r1 r2 r3 :
  accounts_persist r1 r2 -> accounts_persist r2 r3 -> accounts_persist r1 r3.
Proof.
  intros H12 H23 k u Hrow.
  destruct (H12 k u Hrow) as (u' & Hrow' & Hsame).
  destruct (H23 k u' Hrow') as (u'' & Hrow'' & Hsame').
  exists u''. split; [exact Hrow'' | now apply (same_account_trans _ u')].
Qed.

Lemma commit_accounts_old (s rows : gmap Z User) k u' :
  session_accounts s rows ->
  (s ∪ rows) !! k = Some u' ->
  exists u, rows !! k = Some u /\ same_account u' u.
Proof.
  intros Hs Hnew. apply lookup_union_Some_raw in Hnew as [Hheld | [_ Hrow]].
  - exact (Hs k u' Hheld).
  - exists u'. split; [exact Hrow | apply same_account_refl].
Qed.

Lemma commit_accounts_persist (s rows : gmap Z User) :
  session_accounts s rows -> accounts_persist rows (s ∪ rows).
Proof.
  intros Hs k u Hrow. destruct (s !! k) as [x|] eqn:Hheld.
  - exists x. split; [now apply lookup_union_Some_l|].
    destruct (Hs k x Hheld) as (u0 & Hrow0 & Hsame). congruence.
  - exists u. split; [now rewrite lookup_union_r | apply same_account_refl].
Qed.

Lemma commit_table_ok (s rows : gmap Z User) :
  session_accounts s rows -> table_ok rows -> table_ok (s ∪ rows).
Proof.
  intros Hs [Huniq Hkeyed]. split.
  - intros j k u v Hj Hk Hemail.
    destruct (commit_accounts_old _ _ _ _ Hs Hj) as (u0 & Hj0 & (_ & Hu & _)).
    destruct (commit_accounts_old _ _ _ _ Hs Hk) as (v0 & Hk0 & (_ & Hv & _)).
    apply (Huniq j k u0 v0 Hj0 Hk0). congruence.
  - intros k u Hk.
    destruct (commit_accounts_old _ _ _ _ Hs Hk) as (u0 & Hk0 & (Hid & _)).
    rewrite Hid. now apply Hkeyed.
Qed.

Lemma insert_new_user_table_ok rows now e h :
  unregistered rows e -> table_ok rows ->
  table_ok (<[next_id rows := new_user rows now e h]> rows).
Proof.
  intros Hnone [Huniq Hkeyed]. split.
  - intros j k u v Hj Hk Hemail.
    apply lookup_insert_Some in Hj as [[<- <-] | [Hnej Hj]];
      apply lookup_insert_Some in Hk as [[<- <-] | [Hnek Hk]].
    + reflexivity.
    + cbn in Hemail. symmetry in Hemail. now destruct (Hnone k v Hk).
    + cbn in Hemail. now destruct (Hnone j u Hj).
    + now apply (Huniq j k u v).
  - intros k u Hk. apply lookup_insert_Some in Hk as [[<- <-] | [Hne Hk]].
    + reflexivity.
    + now apply Hkeyed.
Qed.

Lemma insert_new_user_persist rows now e h :
  accounts_persist rows (<[next_id rows := new_user rows now e h]> rows).
Proof.
  intros k u Hrow. exists u. split; [|apply same_account_refl].
  rewrite lookup_insert_ne; [exact Hrow|].
  intros <-. now rewrite next_id_fresh in Hrow.
Qed.

Lemma serve_signals_db rt now c w : db (serve_signals rt now c w).2 = db w.
Proof.
  destruct (serve_signals_world rt now c w) as [-> | (ks & _ & ->)]; reflexivity.
Qed.

(** One request, whatever its router: the table stays well formed and no
    account is lost or renamed. *)
Lemma serve_app_accounts env auth rt now req w :
  table_ok (db w) ->
  table_ok (db (serve_app env auth rt now req w).2)
  /\ accounts_persist (db w) (db (serve_app env auth rt now req w).2).
Proof.
  intros Hok. destruct req as [r | r | c]; cbn [serve_app].
  - destruct (serve_accounts env now r w (proj2 Hok)) as [-> | (s & -> & Hs)].
    + split; [exact Hok | apply accounts_persist_refl].
    + split; [now apply commit_table_ok | now apply commit_accounts_persist].
  - destruct (serve_auth_effect auth now r w)
      as [[-> _] | (salt & ud & request & -> & Hnone & -> & _)].
    + split; [exact Hok | apply accounts_persist_refl].
    + split; [now apply insert_new_user_table_ok | apply insert_new_user_persist].
  - rewrite serve_signals_db. split; [exact Hok | apply accounts_persist_refl].
Qed.

Lemma serve_app_all_accounts env auth rt reqs w :
  table_ok (db w) ->
  table_ok (db (serve_app_all env auth rt reqs w).2)
  /\ accounts_persist (db w) (db (serve_app_all env auth rt reqs w).2).
Proof.
  revert w. induction reqs as [|[now req] rest IH]; intros w Hok.
  - split; [exact Hok | apply accounts_persist_refl].
  - cbn [serve_app_all].
    destruct (serve_app_accounts env auth rt now req w Hok) as [Hok1 Hp1].
    destruct (serve_app env auth rt now req w) as [r w1]. cbn [snd] in *.
    destruct (IH w1 Hok1) as [Hok2 Hp2].
    destruct (serve_app_all env auth rt rest w1) as [rs w2]. cbn [snd] in *.
    split; [exact Hok2 | now apply (accounts_persist_trans _ (db w1))].
Qed.

(** The paid flag, over all of these requests. *)
Lemma serve_app_monotone env auth rt now req w k :
  paid_in (db w) k -> paid_in (db (serve_app env auth rt now req w).2) k.
Proof.
  intros Hpaid. destruct req as [r | r | c]; cbn [serve_app].
  - now apply serve_monotone.
  - destruct (serve_auth_effect auth now r w)
      as [[-> _] | (salt & ud & request & -> & Hnone & -> & _)]; [exact Hpaid|].
    destruct Hpaid as (u & Hrow & Hu). exists u. split; [|exact Hu].
    rewrite lookup_insert_ne; [exact Hrow|].
    intros <-. now rewrite next_id_fresh in Hrow.
  - now rewrite serve_signals_db.
Qed.

Lemma serve_app_all_monotone env auth rt reqs w k :
  paid_in (db w) k -> paid_in (db (serve_app_all env auth rt reqs w).2) k.
Proof.
  revert w. induction reqs as [|[now req] rest IH]; intros w Hpaid; [exact Hpaid|].
  cbn [serve_app_all].
  pose proof (serve_app_monotone env auth rt now req w k Hpaid) as H1.
  destruct (serve_app env auth rt now req w) as [r w1]. cbn [snd] in *.
  specialize (IH w1 H1).
  now destruct (serve_app_all env auth rt rest w1) as [rs w2].
Qed.

(** *** The billing keys among the keys of the other routers *)

Lemma billing_key_not_rate_limit key request :
  billing_key key -> key <> rate_limit_key request.
Proof.
  intros (x & [-> | [-> | ->]]); unfold rate_limit_key;
    cbv [String.append]; discriminate.
Qed.

Lemma billing_key_not_cache key : billing_key key -> key <> SIGNALS_CACHE_KEY.
Proof.
  intros (x & [-> | [-> | ->]]); unfold SIGNALS_CACHE_KEY;
    cbv [String.append]; discriminate.
Qed.

Lemma serve_auth_redis auth now req w :
  redis_service (serve_auth auth now req w).2
  = redis_service (check_rate_limit auth_rate_limiter now (request_of req) w).2.
Proof.
  destruct req as [salt user_data request | user_data request]; cbn [request_of].
  2:{ now destruct (login_reads_only auth now user_data request w) as (_ & _ & _ & ?). }
  destruct (check_rate_limit_keeps auth_rate_limiter now request w) as (Hdb & _).
  destruct (check_rate_limit auth_rate_limiter now request w) as [[b|e] w1] eqn:Hcheck;
    cbn [snd] in *.
  2:{ now rewrite (serve_auth_refused _ _ (Signup salt user_data request) _ _ _ Hcheck). }
  destruct (map_to_list (filter (fun kv : Z * User => email kv.2 = user_data_email user_data)
                           (db w))) as [|[k u] rest] eqn:Hfilter.
  - assert (Hnone : unregistered (db w) (user_data_email user_data)).
    { apply map_to_list_empty_iff in Hfilter.
      intros k u Hrow Hemail. eapply map_filter_empty_not_lookup in Hfilter; eauto. }
    now rewrite (signup_unregistered _ _ _ _ _ _ _ _ Hcheck Hnone).
  - assert ((serve_auth auth now (Signup salt user_data request) w).2
            = with_session (fun _ => ∅) w1) as ->; [|reflexivity].
    unfold serve_auth, signup. unfold bind at 1.
    rewrite check_rate_limit_with_session, Hcheck. cbn [fst snd].
    unfold select_user_by_email. run. cbn [db session with_session].
    rewrite Hdb, Hfilter. destruct rest; cbv beta iota;
      cbn [session with_session]; rewrite ?lookup_empty; reflexivity.
Qed.

Lemma serve_auth_session auth now req w : session (serve_auth auth now req w).2 = ∅.
Proof.
  unfold serve_auth.
  destruct req; [destruct (signup _ _ _ _ _ _) | destruct (login _ _ _ _ _)];
    reflexivity.
Qed.

Lemma serve_signals_session rt now c w : session (serve_signals rt now c w).2 = ∅.
Proof. unfold serve_signals. now destruct (bind _ _ _). Qed.

Lemma serve_app_session env auth rt now req w :
  session (serve_app env auth rt now req w).2 = ∅.
Proof.
  destruct req; cbn [serve_app];
    [apply serve_session | apply serve_auth_session | apply serve_signals_session].
Qed.

Lemma serve_app_all_session env auth rt reqs w :
  session w = ∅ -> session (serve_app_all env auth rt reqs w).2 = ∅.
Proof.
  revert w. induction reqs as [|[now req] rest IH]; intros w Hw; [exact Hw|].
  cbn [serve_app_all].
  pose proof (serve_app_session env auth rt now req w) as H1.
  destruct (serve_app env auth rt now req w) as [r w1]. cbn [snd] in *.
  specialize (IH w1 H1). now destruct (serve_app_all env auth rt rest w1).
Qed.

(** No router removes or shortens a live key of the billing router. *)
Lemma serve_app_keeps_live_key env auth rt now req w at_time key :
  billing_key key ->
  live_key at_time key w -> live_key at_time key (serve_app env auth rt now req w).2.
Proof.
  intros Hkey Hlive. destruct req as [r | r | c]; cbn [serve_app].
  - now apply serve_keeps_live_key.
  - destruct Hlive as (ks & t0 & Hredis & Hentry & Hsoon).
    pose proof (check_rate_limit_frame auth_rate_limiter now (request_of r) w key
                  (billing_key_not_rate_limit key _ Hkey)) as Hframe.
    rewrite Hredis in Hframe. destruct Hframe as (ks' & Hredis' & Hsame).
    exists ks', t0. rewrite serve_auth_redis. split; [exact Hredis'|].
    split; [congruence | exact Hsoon].
  - destruct Hlive as (ks & t0 & Hredis & Hentry & Hsoon).
    destruct (serve_signals_world rt now c w) as [-> | (ks' & Hredis' & ->)].
    + now exists ks, t0.
    + assert (ks' = ks) as -> by congruence.
      exists (<[SIGNALS_CACHE_KEY := cached_signals rt now]> ks), t0.
      split; [reflexivity|]. split; [|exact Hsoon].
      rewrite lookup_insert_ne; [exact Hentry|].
      intros Heq. now apply (billing_key_not_cache key Hkey).
Qed.

Lemma serve_app_all_keeps_live_key env auth rt reqs w at_time key :
  billing_key key ->
  live_key at_time key w -> live_key at_time key (serve_app_all env auth rt reqs w).2.
Proof.
  intros Hkey. revert w. induction reqs as [|[now req] rest IH]; intros w Hw; [exact Hw|].
  cbn [serve_app_all].
  pose proof (serve_app_keeps_live_key env auth rt now req w at_time key Hkey Hw) as H1.
  destruct (serve_app env auth rt now req w) as [r w1]. cbn [snd] in *.
  specialize (IH w1 H1). now destruct (serve_app_all env auth rt rest w1).
Qed.

Lemma stripe_key_billing ev : billing_key (stripe_key ev).
Proof. exists (event_id ev). now left. Qed.

Lemma razorpay_key_billing env pid : billing_key (razorpay_key env pid).
Proof. exists (str_json env pid). right. now left. Qed.

Lemma payment_key_billing payment_data : billing_key (payment_key payment_data).
Proof. exists (razorpay_payment_id payment_data). right. now right. Qed.

(** ** The auth router behind its limiter *)

Lemma verdict_auth n :
  verdict auth_rate_limiter n = if n >? 5 then Raise too_many_requests else Ok true.
Proof. reflexivity. Qed.

Lemma serve_auth_counting auth now req w ks n T :
  redis (redis_service w) = Some ks ->
  ks !! rate_limit_key (request_of req)
  = Some {| value := VInt n; expires_at := Some T |} ->
  1 <= n -> now < T ->
  redis (redis_service (serve_auth auth now req w).2)
  = Some (<[rate_limit_key (request_of req) :=
              {| value := VInt (n + 1); expires_at := Some T |}]> ks)
  /\ (5 <= n ->
      serve_auth auth now req w
      = (Raise too_many_requests,
         with_session (fun _ => ∅)
           (with_keyspace
              (<[rate_limit_key (request_of req) :=
                   {| value := VInt (n + 1); expires_at := Some T |}]> ks) w))).
Proof.
  intros Hredis Hkey Hn Hnow.
  assert (Hlive : live now ks (rate_limit_key (request_of req))
                  = Some {| value := VInt n; expires_at := Some T |}).
  { apply live_Some; [exact Hkey |]. unfold is_live; cbn. now apply Z.ltb_lt. }
  pose proof (check_rate_limit_counting auth_rate_limiter now (request_of req)
                w ks _ n Hredis Hlive eq_refl ltac:(reflexivity)) as Hcheck.
  cbn [value expires_at] in Hcheck.
  destruct (n + 1 =? 1) eqn:Hone; [lia|].
  split.
  - now rewrite serve_auth_redis, Hcheck.
  - intros Hfull. rewrite verdict_auth in Hcheck.
    destruct (n + 1 >? 5) eqn:Hover; [|lia].
    exact (serve_auth_refused auth now req w _ _ Hcheck).
Qed.

Lemma serve_auth_all_counting auth key reqs :
  forall w ks n T,
    redis (redis_service w) = Some ks ->
    ks !! key = Some {| value := VInt n; expires_at := Some T |} ->
    1 <= n ->
    Forall (fun tr => tr.1 < T /\ rate_limit_key (request_of tr.2) = key) reqs ->
    forall i,
      (i < length reqs)%nat ->
      5 <= n + Z.of_nat i ->
      (serve_auth_all auth reqs w).1 !! i = Some (Raise too_many_requests).
Proof.
  induction reqs as [|[now req] rest IH]; intros w ks n T Hredis Hkey Hn Hall i Hi Hfull;
    [cbn in Hi; lia|].
  apply Forall_cons in Hall as [[Hnow Hsame] Hrest]. cbn [fst snd] in *. subst key.
  destruct (serve_auth_counting auth now req w ks n T Hredis Hkey Hn Hnow)
    as [Hredis1 Hrefused].
  cbn [serve_auth_all].
  destruct (serve_auth auth now req w) as [r w1] eqn:Hserve. cbn [snd] in *.
  specialize (IH w1 _ (n + 1) T Hredis1 (lookup_insert_eq _ _ _) ltac:(lia) Hrest).
  destruct (serve_auth_all auth rest w1) as [rs w2]. cbn [fst] in *.
  destruct i as [|i]; cbn.
  - assert (5 <= n) as Hfive by lia. specialize (Hrefused Hfive).
    now injection Hrefused as -> _.
  - apply IH; [cbn in Hi; lia | lia].
Qed.

(** * Further properties of the code *)

(** ** Payment events *)

(** X1.  The user id travels to the provider as [str(user_id)] and comes
    back through [int(user_id)]: the order that [create_order] places
    carries, as its note [user_id], a text that is never empty and that
    the webhook handler's [int()] reads as the id it was made from. *)
Theorem order_user_id_read_back env user_id amount w w' :
  razorpay_client env = true ->
  exists sent_amount receipt sent_user_id,
    calls (create_order env user_id amount w).2
    = RazorpayOrderCreate sent_amount receipt sent_user_id :: calls w
    /\ truthy (JStr sent_user_id) = true
    /\ int_ (JStr sent_user_id) w' = (Ok user_id, w').
Proof.
  intros Hclient.
  exists (amount_or_plan env amount), ("order_user_" +:+ pretty user_id), (pretty user_id).
  split; [now apply create_order_notes|]. apply int_str_round_trip.
Qed.

Lemma order_user_id_read_back_witness :
  razorpay_client Fixture.test_env = true
  /\ exists sent_amount receipt sent_user_id,
       calls (create_order Fixture.test_env 1 None Fixture.online).2
       = RazorpayOrderCreate sent_amount receipt sent_user_id :: calls Fixture.online
       /\ truthy (JStr sent_user_id) = true
       /\ int_ (JStr sent_user_id) Fixture.online = (Ok 1, Fixture.online).
Proof.
  split; [reflexivity|].
  apply (order_user_id_read_back Fixture.test_env 1 None Fixture.online Fixture.online).
  reflexivity.
Defined.





(** X4.  A payment confirmation whose signature the Razorpay SDK accepts,
    for a payment id not yet recorded, marks the caller's own row paid and
    no other, commits once, records [razorpay_payment:<id>] for 24 hours
    and answers [{"status": "success", "is_paid": True}]; the SDK was
    called exactly once. *)
Theorem verified_payment_marks_caller_paid env now k payment_data w ks u :
  db w !! k = Some u ->
  id u = k ->
  redis (redis_service w) = Some ks ->
  live now ks (payment_key payment_data) = None ->
  razorpay_client env = true ->
  razorpay_utility_verify_payment_signature env
    (razorpay_order_id payment_data) (razorpay_payment_id payment_data)
    (razorpay_signature payment_data) = Ok tt ->
  serve env now (VerifyRazorpayPayment (Some k) payment_data) w
  = (Ok (status_paid "success"),
     with_session (fun _ => ∅)
       (with_keyspace (<[payment_key payment_data := processed now]> ks)
          (with_commits S
             (with_db (<[k := set_is_paid true u]>)
                (with_call (verify_call payment_data) w))))).
Proof.
  intros Hrow Hid Hredis Hlive Hclient Hsig.
  unfold serve, endpoint, get_current_user, select_user. run.
  cbn [session with_session]. rewrite lookup_empty.
  cbn [db with_session]. rewrite Hrow.
  unfold verify_razorpay_payment, redis_exists, self_redis, EXISTS,
    verify_payment_signature, payment_key in *. run.
  cbn [redis redis_service with_session]. rewrite Hredis, Hlive.
  cbn [Z.gtb Z.compare]. rewrite Hclient. cbn [negb].
  cbn [calls with_call with_session]. rewrite Hsig. cbn [negb].
  rewrite redis_set_processed.
  cbn [redis redis_service with_session with_commits with_db with_call].
  rewrite Hredis, Hid.
  unfold with_session, with_keyspace, with_commits, with_db, with_call, verify_call; cbn.
  now rewrite commit_insert.
Qed.

Lemma verified_payment_marks_caller_paid_witness :
  serve Fixture.test_env 1700000000
    (VerifyRazorpayPayment (Some 1) (Fixture.confirmation Fixture.payment_signature))
    Fixture.online
  = (Ok (status_paid "success"),
     with_session (fun _ => ∅)
       (with_keyspace (<["razorpay_payment:pay_001" := processed 1700000000]> ∅)
          (with_commits S
             (with_db (<[1 := set_is_paid true Fixture.alice]>)
                (with_call
                   (verify_call (Fixture.confirmation Fixture.payment_signature))
                   Fixture.online))))).
Proof.
  apply (verified_payment_marks_caller_paid Fixture.test_env 1700000000 1
           (Fixture.confirmation Fixture.payment_signature) Fixture.online ∅
           Fixture.alice); vm_compute; reflexivity.
Defined.

(** X5.  A payment confirmation that fails verification, because no
    Razorpay client is configured or because the SDK raises its
    [SignatureVerificationError], is answered with HTTP 400 "Invalid
    payment signature": no row changes, nothing is committed and no key is
    recorded, so the same payment id can be confirmed later. *)
Theorem invalid_payment_signature_changes_nothing env now k payment_data w u :
  db w !! k = Some u ->
  unseen now w (payment_key payment_data) ->
  (razorpay_client env = false ->
   serve env now (VerifyRazorpayPayment (Some k) payment_data) w
   = (Raise (HTTPException 400 "Invalid payment signature"),
      with_session (fun _ => ∅) w))
  /\ (forall e,
        razorpay_client env = true ->
        razorpay_utility_verify_payment_signature env
          (razorpay_order_id payment_data) (razorpay_payment_id payment_data)
          (razorpay_signature payment_data) = Raise e ->
        isinstance e RazorpaySignatureVerificationError = true ->
        serve env now (VerifyRazorpayPayment (Some k) payment_data) w
        = (Raise (HTTPException 400 "Invalid payment signature"),
           with_session (fun _ => ∅) (with_call (verify_call payment_data) w))).
Proof.
  intros Hrow Hunseen.
  assert (Hexists :
    redis_exists now (payment_key payment_data)
      (with_session (<[k := u]>) (with_session (fun _ => ∅) w))
    = (Ok false, with_session (<[k := u]>) (with_session (fun _ => ∅) w))).
  { apply redis_exists_unseen. exact Hunseen. }
  split; [intros Hclient | intros e Hclient Hsig He];
    unfold serve, endpoint, get_current_user, select_user; run;
    cbn [session with_session]; rewrite lookup_empty;
    cbn [db with_session]; rewrite Hrow;
    unfold verify_razorpay_payment; unfold bind at 1;
    fold (payment_key payment_data); rewrite Hexists;
    unfold verify_payment_signature; run; rewrite Hclient; cbn [negb].
  - reflexivity.
  - cbn [calls with_call with_session]. rewrite Hsig, He. reflexivity.
Qed.

Lemma invalid_payment_signature_changes_nothing_witness :
  serve Fixture.test_env 1700000000
    (VerifyRazorpayPayment (Some 1) (Fixture.confirmation "forged")) Fixture.online
  = (Raise (HTTPException 400 "Invalid payment signature"),
     with_session (fun _ => ∅)
       (with_call (verify_call (Fixture.confirmation "forged")) Fixture.online)).
Proof.
  refine (proj2 (invalid_payment_signature_changes_nothing Fixture.test_env 1700000000 1
                   (Fixture.confirmation "forged") Fixture.online Fixture.alice _ _)
            (Exc RazorpaySignatureVerificationError
               "Razorpay Signature Verification Failed") _ _ _).
  - reflexivity.
  - intros ks [= <-]. reflexivity.
  - reflexivity.
  - reflexivity.
  - reflexivity.
Defined.

(** X6.  The Razorpay key is the payment id, whatever the kind of event.
    So once any verified event of a payment, such as [payment.authorized],
    has been handled, which changes no row, a [payment.captured] event of
    the same payment that arrives within 24 hours is answered
    [already_processed] and grants nothing: the world stays as it is. *)
Theorem captured_after_other_event_is_dropped
    env now now' between w ks payload sig payload' sig' event event' pid kind :
  redis (redis_service w) = Some ks ->
  live now ks (razorpay_key env pid) = None ->
  razorpay_verified env payload sig ->
  json_loads env payload = Ok event ->
  payment_id_of event = Ok pid ->
  truthy pid = true ->
  get event "event" JNull = Ok kind ->
  eq_str kind "payment.captured" = false ->
  razorpay_verified env payload' sig' ->
  json_loads env payload' = Ok event' ->
  payment_id_of event' = Ok pid ->
  now' < now + 86400 ->
  serve env now (RazorpayWebhook payload sig) w
  = (Ok (status_only "success"),
     with_session (fun _ => ∅)
       (with_keyspace (<[razorpay_key env pid := processed now]> ks) w))
  /\ serve env now' (RazorpayWebhook payload' sig')
       (serve_all env between (serve env now (RazorpayWebhook payload sig) w).2).2
     = (Ok (status_only "already_processed"),
        (serve_all env between (serve env now (RazorpayWebhook payload sig) w).2).2).
Proof.
  intros Hredis Hlive Hv He Hpid Htruthy Hkind Hother Hv' He' Hpid' Hsoon.
  assert (Hfirst :
    serve env now (RazorpayWebhook payload sig) w
    = (Ok (status_only "success"),
       with_session (fun _ => ∅)
         (with_keyspace (<[razorpay_key env pid := processed now]> ks) w))).
  { unfold serve, endpoint.
    now rewrite (razorpay_webhook_other_kind env now payload sig
                   (with_session (fun _ => ∅) w) ks event pid kind
                   Hv He Hpid Htruthy Hkind Hother Hredis Hlive). }
  split; [exact Hfirst|].
  apply (serve_razorpay_webhook_seen env now' payload' sig' _ event' pid);
    try assumption.
  - apply serve_all_session, serve_session.
  - apply serve_all_keeps_live_key.
    apply (recorded_live_key now now' _ ks); [|exact Hsoon].
    rewrite Hfirst. reflexivity.
Qed.

Lemma captured_after_other_event_is_dropped_witness :
  (serve Demo.env 1700000060
     (RazorpayWebhook (Fixture.body Demo.captured_003) Demo.captured_003_signature)
     (serve_all Demo.env []
        (serve Demo.env 1700000000
           (RazorpayWebhook (Fixture.body Fixture.authorized) Demo.authorized_signature)
           Fixture.online).2).2).1
  = Ok (status_only "already_processed")
  /\ is_paid Fixture.alice = false.
Proof.
  split; [|reflexivity].
  assert (Hfirst : razorpay_verified Demo.env (Fixture.body Fixture.authorized)
                     Demo.authorized_signature)
    by (apply razorpay_verified_of_digest; vm_compute; reflexivity).
  assert (Hsecond : razorpay_verified Demo.env (Fixture.body Demo.captured_003)
                      Demo.captured_003_signature)
    by (apply razorpay_verified_of_digest; vm_compute; reflexivity).
  assert (Hevent : json_loads Demo.env (Fixture.body Fixture.authorized)
                   = Ok Fixture.authorized) by (vm_compute; reflexivity).
  assert (Hevent' : json_loads Demo.env (Fixture.body Demo.captured_003)
                    = Ok Demo.captured_003) by (vm_compute; reflexivity).
  assert (Hsoon : 1700000060 < 1700000000 + 86400) by lia.
  rewrite (proj2 (captured_after_other_event_is_dropped Demo.env
                    1700000000 1700000060 [] Fixture.online ∅
                    (Fixture.body Fixture.authorized) Demo.authorized_signature
                    (Fixture.body Demo.captured_003) Demo.captured_003_signature
                    Fixture.authorized Demo.captured_003 (JStr "pay_003")
                    (JStr "payment.authorized")
                    eq_refl eq_refl Hfirst Hevent eq_refl eq_refl eq_refl eq_refl
                    Hsecond Hevent' eq_refl Hsoon)).
  reflexivity.
Defined.

(** ** Checkout creation and configuration *)



(** X8.  A checkout for a user who is not paid, answered by the provider:
    the Stripe endpoint returns the URL that Stripe gave for a session
    made for the user's email and id, with success and cancel URLs under
    [frontend_url]; the Razorpay endpoint returns the provider's order id,
    amount and currency with the public key id, for an order over the
    plan amount with receipt [order_user_<id>].  One SDK call is made. *)
Theorem checkout_answers_with_provider_data env u w :
  is_paid u = false ->
  (forall url,
     stripe_checkout_Session_create env (calls w)
       (email u) (id u) (success_url_of env) (cancel_url_of env) = Ok url ->
     create_stripe_checkout env u w
     = (Ok (JObj [("gateway", JStr "stripe"); ("checkout_url", JStr url)]),
        with_call (stripe_call env u) w))
  /\ (forall order,
        razorpay_client env = true ->
        razorpay_order_create env (calls w) (razorpay_plan_amount (settings env))
          ("order_user_" +:+ pretty (id u)) (pretty (id u)) = Ok order ->
        create_razorpay_order env u w
        = (Ok (JObj [("gateway", JStr "razorpay");
                     ("order_id", JStr (order_id_ order));
                     ("amount", JInt (order_amount order));
                     ("currency", JStr (order_currency order));
                     ("key_id", JStr (razorpay_key_id (settings env)))]),
           with_call (razorpay_call env u) w)).
Proof.
  intros Hu. split.
  - intros url. now apply create_stripe_checkout_ok.
  - intros order. now apply create_razorpay_order_ok.
Qed.

Lemma checkout_answers_with_provider_data_witness :
  is_paid Fixture.alice = false
  /\ create_razorpay_order Fixture.test_env Fixture.alice Fixture.online
     = (Ok (JObj [("gateway", JStr "razorpay");
                  ("order_id", JStr "order_001");
                  ("amount", JInt 49900);
                  ("currency", JStr "INR");
                  ("key_id", JStr "rzp_test_key")]),
        with_call (RazorpayOrderCreate 49900 "order_user_1" "1") Fixture.online).
Proof.
  split; [reflexivity|].
  exact (proj2 (checkout_answers_with_provider_data Fixture.test_env Fixture.alice
                  Fixture.online eq_refl)
           {| order_id_ := "order_001"; order_amount := 49900; order_currency := "INR" |}
           eq_refl eq_refl).
Defined.

(** X9.  Creating a checkout never grants anything: whatever the outcome,
    the three checkout endpoints leave the table, the commit count, the
    session and Redis as they were, and add at most the one call to the
    provider to the log. *)
Theorem checkout_changes_no_state env u gateway w :
  (entitlements_kept w (create_stripe_checkout env u w).2
   /\ (calls (create_stripe_checkout env u w).2 = calls w
       \/ calls (create_stripe_checkout env u w).2 = stripe_call env u :: calls w))
  /\ (entitlements_kept w (create_razorpay_order env u w).2
      /\ (calls (create_razorpay_order env u w).2 = calls w
          \/ calls (create_razorpay_order env u w).2 = razorpay_call env u :: calls w))
  /\ (entitlements_kept w (create_checkout env u gateway w).2
      /\ (calls (create_checkout env u gateway w).2 = calls w
          \/ calls (create_checkout env u gateway w).2 = stripe_call env u :: calls w
          \/ calls (create_checkout env u gateway w).2 = razorpay_call env u :: calls w)).
Proof.
  pose proof (create_stripe_checkout_frame env u w) as [Hs Hsc].
  pose proof (create_razorpay_order_frame env u w) as [Hr Hrc].
  repeat split; try apply Hs; try apply Hr; try assumption.
  all: rewrite create_checkout_dispatch;
    destruct (String.eqb (selected_gateway env gateway) "razorpay");
    try apply Hs; try apply Hr; tauto.
Qed.

(** X10.  Without its secrets the Razorpay side fails closed.  With no
    webhook secret every delivery to the Razorpay webhook is refused with
    HTTP 400, whatever its signature; with no client, for want of the key
    id or the key secret, every payment confirmation not yet recorded is
    refused with HTTP 400 and every order with HTTP 500 "Razorpay not
    configured".  None of these requests changes the world or calls the
    SDK. *)
Theorem razorpay_unconfigured_fails_closed env now w :
  (razorpay_webhook_secret (settings env) = "" ->
   forall payload sig,
     razorpay_webhook env now payload sig w
     = (Raise (HTTPException 400 "Invalid webhook signature"), w))
  /\ (razorpay_client env = false ->
      (forall payment_data u,
         unseen now w (payment_key payment_data) ->
         verify_razorpay_payment env now payment_data u w
         = (Raise (HTTPException 400 "Invalid payment signature"), w))
      /\ (forall u,
            is_paid u = false ->
            create_razorpay_order env u w
            = (Raise (HTTPException 500 "Razorpay not configured"), w))).
Proof.
  split; [|split].
  - intros Hsecret payload sig. now apply razorpay_webhook_no_secret.
  - intros payment_data u. now apply verify_razorpay_payment_not_configured.
  - intros u Hu. now apply create_razorpay_order_not_configured.
Qed.

Lemma razorpay_unconfigured_fails_closed_witness :
  razorpay_webhook_secret (settings Demo.key_id_only) = ""
  /\ razorpay_webhook Demo.key_id_only 1700000000
       (Fixture.body Fixture.captured) Demo.captured_signature Fixture.online
     = (Raise (HTTPException 400 "Invalid webhook signature"), Fixture.online).
Proof.
  split; [reflexivity|].
  exact (proj1 (razorpay_unconfigured_fails_closed Demo.key_id_only 1700000000
                  Fixture.online) eq_refl
           (Fixture.body Fixture.captured) Demo.captured_signature).
Defined.

(** X11.  [gateway-info] tests the Razorpay key id alone, the client
    needs the key secret as well.  With a key id and no key secret,
    ["razorpay"] is listed as available, and yet every Razorpay checkout
    of an unpaid user, through either endpoint, fails with HTTP 500
    "Razorpay not configured" before any call to the provider. *)
Theorem listed_gateway_may_be_unconfigured env u w :
  razorpay_key_id (settings env) <> "" ->
  razorpay_key_secret (settings env) = "" ->
  is_paid u = false ->
  (exists gateways,
     get_gateway_info env w
     = (Ok (JObj [("active_gateway", JStr (payment_gateway (settings env)));
                  ("available_gateways", JArr gateways)]), w)
     /\ JStr "razorpay" ∈ gateways)
  /\ create_razorpay_order env u w
     = (Raise (HTTPException 500 "Razorpay not configured"), w)
  /\ create_checkout env u (Some "razorpay") w
     = (Raise (HTTPException 500 "Razorpay not configured"), w).
Proof.
  intros Hid Hsecret Hu.
  assert (Hclient : razorpay_client env = false).
  { unfold razorpay_client. rewrite Hsecret. apply andb_false_r. }
  assert (Htruthy : truthy_str (razorpay_key_id (settings env)) = true).
  { unfold truthy_str. now destruct (razorpay_key_id (settings env)). }
  split; [|split].
  - unfold get_gateway_info, ret. rewrite Htruthy. eexists. split; [reflexivity|].
    destruct (truthy_str (stripe_secret_key (settings env))); cbn; set_solver.
  - now apply create_razorpay_order_not_configured.
  - rewrite create_checkout_dispatch. cbn.
    now apply create_razorpay_order_not_configured.
Qed.

Lemma listed_gateway_may_be_unconfigured_witness :
  get_gateway_info Demo.key_id_only Fixture.online
  = (Ok (JObj [("active_gateway", JStr "stripe");
               ("available_gateways", JArr [JStr "stripe"; JStr "razorpay"])]),
     Fixture.online)
  /\ create_checkout Demo.key_id_only Fixture.alice (Some "razorpay") Fixture.online
     = (Raise (HTTPException 500 "Razorpay not configured"), Fixture.online).
Proof.
  split; [reflexivity|].
  assert (Hid : razorpay_key_id (settings Demo.key_id_only) <> "") by discriminate.
  exact (proj2 (proj2 (listed_gateway_may_be_unconfigured Demo.key_id_only
                         Fixture.alice Fixture.online Hid eq_refl eq_refl))).
Defined.

(** X12.  What the Razorpay webhook cannot read it answers with HTTP 500,
    after the signature has verified and before anything is recorded: a
    body that [json.loads] rejects, a body that is JSON but no object, and
    a [payment.captured] event whose notes hold a user id that [int()]
    does not take each end the handler with the uncaught exception.  The
    world is left as it was, with no key, so that every redelivery fails
    in the same way. *)
Theorem razorpay_webhook_unreadable_event env now payload sig w :
  razorpay_verified env payload sig ->
  (forall e,
     json_loads env payload = Raise e ->
     razorpay_webhook env now payload sig w = (Raise e, w))
  /\ (forall event,
        json_loads env payload = Ok event ->
        (forall fields, event <> JObj fields) ->
        razorpay_webhook env now payload sig w
        = (Raise (Exc AttributeError "object has no attribute 'get'"), w))
  /\ (forall event entity pid v,
        json_loads env payload = Ok event ->
        get event "event" JNull = Ok (JStr "payment.captured") ->
        payment_entity_of event = Ok entity ->
        get entity "id" JNull = Ok pid ->
        truthy pid = true ->
        notes_user_id entity = Ok v ->
        truthy v = true ->
        int_of_json v = None ->
        unseen now w (razorpay_key env pid) ->
        razorpay_webhook env now payload sig w
        = (Raise (Exc (int_error_class v) "int() cannot convert the value"), w)
        /\ http_status (razorpay_webhook env now payload sig w).1 = 500).
Proof.
  intros Hverified. split; [|split].
  - intros e Hloads. unfold razorpay_webhook. unfold bind at 1.
    rewrite Hverified. cbn [negb]. run. now rewrite Hloads.
  - intros event Hloads Hshape. unfold razorpay_webhook. unfold bind at 1.
    rewrite Hverified. cbn [negb]. run. rewrite Hloads.
    destruct event; try reflexivity. now destruct (Hshape fields).
  - intros event entity pid v Hevent Hkind Hentity Hid Hpid Hnotes Hv Hk Hunseen.
    assert (Hrun :
      razorpay_webhook env now payload sig w
      = (Raise (Exc (int_error_class v) "int() cannot convert the value"), w));
      [|split; [exact Hrun | now rewrite Hrun]].
    pose proof (payment_entity_payment_id _ _ Hentity) as Hpid_of.
    rewrite Hid in Hpid_of.
    apply payment_entity_of_inv in Hentity as (payload_ & payment & G1 & G2 & G3).
    unfold notes_user_id in Hnotes.
    destruct (get entity "notes" (JObj [])) as [notes|] eqn:G4; [|discriminate].
    razorpay_head Hverified Hevent Hpid_of.
    assert (kind = JStr "payment.captured") as -> by congruence.
    rewrite Hpid. fold (razorpay_key env pid).
    rewrite (redis_exists_unseen _ _ _ Hunseen).
    cbn [eq_str String.eqb Ascii.eqb Bool.eqb].
    rewrite G1, G2, G3, G4, Hnotes, Hv.
    unfold int_. now rewrite Hk.
Qed.

Lemma razorpay_webhook_unreadable_event_witness :
  razorpay_webhook Fixture.test_env 1700000000 (Fixture.body Fixture.captured_abc)
    "38c90d6383945d1760e9cf72c75c36724a2a1f9dee7167d01e1644c7e49ea856"
    Fixture.online
  = (Raise (Exc ValueError "int() cannot convert the value"), Fixture.online).
Proof.
  assert (Hv : razorpay_verified Fixture.test_env (Fixture.body Fixture.captured_abc)
                 "38c90d6383945d1760e9cf72c75c36724a2a1f9dee7167d01e1644c7e49ea856")
    by (apply fixture_razorpay_verified; vm_compute; reflexivity).
  assert (He : json_loads Fixture.test_env (Fixture.body Fixture.captured_abc)
               = Ok Fixture.captured_abc) by (vm_compute; reflexivity).
  refine (proj1 (proj2 (proj2 (razorpay_webhook_unreadable_event Fixture.test_env
                                 1700000000 (Fixture.body Fixture.captured_abc) _
                                 Fixture.online Hv))
                   Fixture.captured_abc
                   (JObj [("id", JStr "pay_002"); ("notes", JObj [("user_id", JStr "abc")])])
                   (JStr "pay_002") (JStr "abc")
                   He eq_refl eq_refl eq_refl eq_refl eq_refl eq_refl eq_refl _)).
  intros ks [= <-]. reflexivity.
Defined.

(** ** The Redis service and the rate limiter *)



(** X14.  [set_json] and [get_json] are inverse to each other as far as
    [json.dumps] and [json.loads] are: a value that survives the two, its
    text not empty, is read back as it was written for as long as the
    entry lives, and as [None] afterwards. *)
Theorem redis_json_round_trip rt now now' key v ttl w ks :
  redis (redis_service w) = Some ks ->
  (forall t, ttl = Some t -> 0 <= t) ->
  json_round_trip rt v ->
  exists w',
    redis_set_json rt now key v ttl w = (Ok true, w')
    /\ redis_get_json rt now' key w'
       = (Ok (match stored now now' (json_dumps rt v) ttl with
              | Some _ => v
              | None => JNull
              end), w').
Proof.
  intros Hredis Httl [Hne Hloads].
  destruct (redis_set_then_get now now' key (json_dumps rt v) ttl w ks Hredis Httl)
    as (w' & Hset & Hget & _).
  exists w'. split; [exact Hset|].
  assert (Htruthy : truthy_str (json_dumps rt v) = true).
  { unfold truthy_str. now destruct (json_dumps rt v). }
  unfold redis_get_json. unfold bind at 1. rewrite Hget.
  unfold stored. destruct (truthy_ttl ttl) as [t|];
    [destruct (now' <? now + t)|]; try reflexivity.
  all: now rewrite Htruthy, Hloads.
Qed.

Lemma redis_json_round_trip_witness :
  json_round_trip Demo.runtime (Demo.feed 1700000000)
  /\ exists w',
       redis_set_json Demo.runtime 1700000000 "signals:all" (Demo.feed 1700000000)
         (Some 300) Fixture.online = (Ok true, w')
       /\ redis_get_json Demo.runtime 1700000120 "signals:all" w'
          = (Ok (Demo.feed 1700000000), w').
Proof.
  assert (Hrt : json_round_trip Demo.runtime (Demo.feed 1700000000)).
  { split; [discriminate | vm_compute; reflexivity]. }
  split; [exact Hrt|].
  destruct (redis_json_round_trip Demo.runtime 1700000000 1700000120 "signals:all"
              (Demo.feed 1700000000) (Some 300) Fixture.online ∅ eq_refl)
    as (w' & Hset & Hget); [intros t [= <-]; lia | exact Hrt |].
  exists w'. split; [exact Hset|]. exact Hget.
Defined.



(** X16.  Counters are not shared.  For paths that contain no colon, as
    the paths of the routes do, two requests have the same counter only
    if they have the same path and the same client address, all clients
    without an address being one client, ["unknown"].  A request under
    another key leaves the answer to this one as it would have been. *)
Theorem rate_limit_counters_are_separate self self' now now' r1 r2 w :
  (no_colon (url_path r1) = true ->
   no_colon (url_path r2) = true ->
   rate_limit_key r1 = rate_limit_key r2 ->
   url_path r1 = url_path r2 /\ client_ip r1 = client_ip r2)
  /\ (rate_limit_key r1 <> rate_limit_key r2 ->
      (check_rate_limit self now r1 (check_rate_limit self' now' r2 w).2).1
      = (check_rate_limit self now r1 w).1).
Proof.
  split; [apply rate_limit_key_inj|].
  intros Hne.
  pose proof (check_rate_limit_frame self' now' r2 w (rate_limit_key r1) Hne) as Hframe.
  destruct (redis (redis_service w)) as [ks|] eqn:Hredis.
  - destruct Hframe as (ks' & Hredis' & Hsame).
    now apply (check_rate_limit_local self now r1 _ w ks' ks).
  - now rewrite Hframe.
Qed.

Lemma rate_limit_counters_are_separate_witness :
  rate_limit_key Demo.from_login <> rate_limit_key Demo.from_signup
  /\ (check_rate_limit auth_rate_limiter 1700000001 Demo.from_login
        (check_rate_limit auth_rate_limiter 1700000000 Demo.from_signup
           Fixture.online).2).1
     = (check_rate_limit auth_rate_limiter 1700000001 Demo.from_login Fixture.online).1.
Proof.
  assert (H : rate_limit_key Demo.from_login <> rate_limit_key Demo.from_signup)
    by discriminate.
  split; [exact H|].
  exact (proj2 (rate_limit_counters_are_separate auth_rate_limiter auth_rate_limiter
                  1700000001 1700000000 Demo.from_login Demo.from_signup Fixture.online)
           H).
Defined.

(** ** Signing up and logging in *)

(** X17.  An address is registered once.  For a signup that the limiter
    lets pass, in a table without duplicate addresses: if the address is
    taken the answer is HTTP 400 "Email already registered" and the table
    and the commit count stay as they are; if it is free, one row is
    inserted under a primary key that was not in use, with the given
    address, the hash of the given password, [is_paid] false and no
    customer reference, it is committed once, every other row stays as it
    was, and the token is made for the new id and address. *)
Theorem signup_registers_an_address_once
    auth now salt user_data request w b w1 :
  check_rate_limit auth_rate_limiter now request w = (Ok b, w1) ->
  (forall k u,
     unique_emails (db w) ->
     db w !! k = Some u ->
     email u = user_data_email user_data ->
     serve_auth auth now (Signup salt user_data request) w
     = (Raise (HTTPException 400 "Email already registered"),
        with_session (fun _ => ∅) w1))
  /\ (unregistered (db w) (user_data_email user_data) ->
      serve_auth auth now (Signup salt user_data request) w
      = (Ok (Token (create_access_token auth now (next_id (db w))
                      (user_data_email user_data))),
         with_session (fun _ => ∅)
           (with_commits S
              (with_db
                 (<[next_id (db w) :=
                      {| id := next_id (db w);
                         email := user_data_email user_data;
                         hashed_password :=
                           hash_password auth salt (user_data_password user_data);
                         is_paid := false;
                         stripe_customer_id := None;
                         created_at := now |}]>)
                 w1)))
      /\ db w !! next_id (db w) = None)
  /\ db w1 = db w /\ commits w1 = commits w.
Proof.
  intros Hcheck.
  destruct (check_rate_limit_keeps auth_rate_limiter now request w)
    as (Hdb & Hcommits & _).
  rewrite Hcheck in Hdb, Hcommits. split; [|split; [|now split]].
  - intros k u Huniq Hrow Hemail.
    now apply (signup_registered auth now salt user_data request w b w1 k u).
  - intros Hnone. split; [|apply next_id_fresh].
    now apply (signup_unregistered auth now salt user_data request w b w1).
Qed.

Lemma signup_registers_an_address_once_witness :
  check_rate_limit auth_rate_limiter 1700000000 Demo.from_signup Fixture.online
  = (Ok true,
     with_keyspace
       {["ratelimit:/auth/signup:203.0.113.7" :=
           {| value := VInt 1; expires_at := Some 1700000060 |}]}
       Fixture.online)
  /\ (serve_auth Demo.auth 1700000000
        (Signup "N9qo8uLOickgx2ZMRZoMye" Demo.carol Demo.from_signup) Fixture.online).1
     = Ok (Token "token.3.carol@example.com.1700001800")
  /\ (serve_auth Demo.auth 1700000000
        (Signup "N9qo8uLOickgx2ZMRZoMye" Demo.alice_again Demo.from_signup)
        Fixture.online).1
     = Raise (HTTPException 400 "Email already registered").
Proof.
  assert (Hcheck :
    check_rate_limit auth_rate_limiter 1700000000 Demo.from_signup Fixture.online
    = (Ok true,
       with_keyspace
         {["ratelimit:/auth/signup:203.0.113.7" :=
             {| value := VInt 1; expires_at := Some 1700000060 |}]}
         Fixture.online)) by (vm_compute; reflexivity).
  assert (Hnone : unregistered (db Fixture.online) (user_data_email Demo.carol)).
  { intros k u Hrow Hemail. unfold Fixture.online in Hrow. cbn [db] in Hrow.
    apply lookup_insert_Some in Hrow as [[<- <-] | [_ Hrow]]; [discriminate|].
    apply lookup_singleton_Some in Hrow as [<- <-]. discriminate. }
  assert (Huniq : unique_emails (db Fixture.online)).
  { intros j k u v Hj Hk Hemail. unfold Fixture.online in Hj, Hk. cbn [db] in Hj, Hk.
    apply lookup_insert_Some in Hj as [[<- <-] | [_ Hj]];
      apply lookup_insert_Some in Hk as [[<- <-] | [_ Hk]];
      try apply lookup_singleton_Some in Hj as [<- <-];
      try apply lookup_singleton_Some in Hk as [<- <-];
      try reflexivity; discriminate. }
  split; [exact Hcheck|]. split.
  - rewrite (proj1 (proj1 (proj2 (signup_registers_an_address_once Demo.auth 1700000000
                                    "N9qo8uLOickgx2ZMRZoMye" Demo.carol Demo.from_signup
                                    Fixture.online _ _ Hcheck)) Hnone)).
    vm_compute. reflexivity.
  - rewrite (proj1 (signup_registers_an_address_once Demo.auth 1700000000
                      "N9qo8uLOickgx2ZMRZoMye" Demo.alice_again Demo.from_signup
                      Fixture.online _ _ Hcheck) 1 Fixture.alice Huniq eq_refl eq_refl).
    reflexivity.
Defined.

(** X18.  [login] tells nothing apart and writes nothing.  For a login
    that the limiter lets pass, in a table without duplicate addresses:
    an address that is not registered and a password that does not verify
    get the same answer, HTTP 401 "Invalid email or password"; a password
    that verifies gets the token for the id and address of the row.
    Whatever its outcome and whatever the table, a login leaves the
    table, the commit count and the log of SDK calls as they were. *)
Theorem login_checks_and_only_reads auth now user_data request w :
  (forall b w1,
     check_rate_limit auth_rate_limiter now request w = (Ok b, w1) ->
     (unregistered (db w) (user_data_email user_data) ->
      serve_auth auth now (Login user_data request) w
      = (Raise invalid_credentials, with_session (fun _ => ∅) w1))
     /\ (forall k u,
           unique_emails (db w) ->
           db w !! k = Some u ->
           email u = user_data_email user_data ->
           serve_auth auth now (Login user_data request) w
           = (if verify_password auth (user_data_password user_data) (hashed_password u)
              then Ok (Token (create_access_token auth now (id u) (email u)))
              else Raise invalid_credentials,
              with_session (fun _ => ∅) w1)))
  /\ db (serve_auth auth now (Login user_data request) w).2 = db w
  /\ commits (serve_auth auth now (Login user_data request) w).2 = commits w
  /\ calls (serve_auth auth now (Login user_data request) w).2 = calls w.
Proof.
  split.
  - intros b w1 Hcheck. split.
    + intros Hnone. now apply (login_unregistered auth now user_data request w b w1).
    + intros k u Huniq Hrow Hemail.
      now apply (login_registered auth now user_data request w b w1 k u).
  - destruct (login_reads_only auth now user_data request w) as (? & ? & ? & _).
    now repeat split.
Qed.

Lemma login_checks_and_only_reads_witness :
  serve_auth Demo.auth 1700000000 (Login Demo.alice_login Demo.from_login) Fixture.online
  = (Ok (Token "token.1.alice@example.com.1700001800"),
     with_keyspace
       {["ratelimit:/auth/login:203.0.113.7" :=
           {| value := VInt 1; expires_at := Some 1700000060 |}]}
       Fixture.online)
  /\ (serve_auth Demo.auth 1700000000 (Login Demo.alice_again Demo.from_login)
        Fixture.online).1
     = Raise invalid_credentials.
Proof.
  assert (Hcheck :
    check_rate_limit auth_rate_limiter 1700000000 Demo.from_login Fixture.online
    = (Ok true,
       with_keyspace
         {["ratelimit:/auth/login:203.0.113.7" :=
             {| value := VInt 1; expires_at := Some 1700000060 |}]}
         Fixture.online)) by (vm_compute; reflexivity).
  assert (Huniq : unique_emails (db Fixture.online)).
  { intros j k u v Hj Hk Hemail. unfold Fixture.online in Hj, Hk. cbn [db] in Hj, Hk.
    apply lookup_insert_Some in Hj as [[<- <-] | [_ Hj]];
      apply lookup_insert_Some in Hk as [[<- <-] | [_ Hk]];
      try apply lookup_singleton_Some in Hj as [<- <-];
      try apply lookup_singleton_Some in Hk as [<- <-];
      try reflexivity; discriminate. }
  split.
  - rewrite (proj2 (proj1 (login_checks_and_only_reads Demo.auth 1700000000
                             Demo.alice_login Demo.from_login Fixture.online)
                      _ _ Hcheck) 1 Fixture.alice Huniq eq_refl eq_refl).
    vm_compute. reflexivity.
  - rewrite (proj2 (proj1 (login_checks_and_only_reads Demo.auth 1700000000
                             Demo.alice_again Demo.from_login Fixture.online)
                      _ _ Hcheck) 1 Fixture.alice Huniq eq_refl eq_refl).
    reflexivity.
Defined.

(** X19.  The limiter comes before the credentials.  Of the requests
    that one client sends to one auth endpoint within 60 seconds of the
    first, signups and logins alike, every one after the fifth is refused
    with HTTP 429, whatever it carries: five attempts, failed or not, use
    up the window. *)
Theorem sixth_attempt_is_refused auth t0 req0 rest w ks :
  redis (redis_service w) = Some ks ->
  live t0 ks (rate_limit_key (request_of req0)) = None ->
  Forall (fun tr => t0 <= tr.1 < t0 + 60
                    /\ rate_limit_key (request_of tr.2)
                       = rate_limit_key (request_of req0)) rest ->
  forall i,
    (5 <= i < length ((t0, req0) :: rest))%nat ->
    (serve_auth_all auth ((t0, req0) :: rest) w).1 !! i
    = Some (Raise (HTTPException 429 "Rate limit exceeded. Try again in 60 seconds.")).
Proof.
  intros Hredis Hfresh Hrest i [Hfive Hi].
  pose proof (check_rate_limit_fresh auth_rate_limiter t0 (request_of req0) w ks
                Hredis Hfresh ltac:(reflexivity)) as Hcheck.
  cbn [window_seconds auth_rate_limiter] in Hcheck.
  assert (Hredis1 :
    redis (redis_service (serve_auth auth t0 req0 w).2)
    = Some (<[rate_limit_key (request_of req0) :=
                {| value := VInt 1; expires_at := Some (t0 + 60) |}]> ks))
    by now rewrite serve_auth_redis, Hcheck.
  cbn [serve_auth_all].
  destruct (serve_auth auth t0 req0 w) as [r w1]. cbn [snd] in *.
  pose proof (serve_auth_all_counting auth (rate_limit_key (request_of req0)) rest
                w1 _ 1 (t0 + 60) Hredis1 (lookup_insert_eq _ _ _) ltac:(lia)) as Hcount.
  destruct (serve_auth_all auth rest w1) as [rs w2]. cbn [fst] in *.
  destruct i as [|i]; [lia|]. cbn. apply Hcount.
  - eapply Forall_impl; [exact Hrest|]. cbn. intros [t r'] [[_ Ht] Hk]. now split.
  - cbn in Hi. lia.
  - lia.
Qed.

Lemma sixth_attempt_is_refused_witness :
  (serve_auth_all Demo.auth
     [(1700000000, Login Demo.carol_mistyped Demo.from_login);
      (1700000005, Login Demo.carol_mistyped Demo.from_login);
      (1700000010, Login Demo.carol_mistyped Demo.from_login);
      (1700000015, Login Demo.carol_mistyped Demo.from_login);
      (1700000020, Login Demo.carol_mistyped Demo.from_login);
      (1700000025, Login Demo.alice_again Demo.from_login)]
     Fixture.online).1 !! 5%nat
  = Some (Raise (HTTPException 429 "Rate limit exceeded. Try again in 60 seconds.")).
Proof.
  apply (sixth_attempt_is_refused Demo.auth 1700000000
           (Login Demo.carol_mistyped Demo.from_login)
           [(1700000005, Login Demo.carol_mistyped Demo.from_login);
            (1700000010, Login Demo.carol_mistyped Demo.from_login);
            (1700000015, Login Demo.carol_mistyped Demo.from_login);
            (1700000020, Login Demo.carol_mistyped Demo.from_login);
            (1700000025, Login Demo.alice_again Demo.from_login)]
           Fixture.online ∅).
  - reflexivity.
  - reflexivity.
  - repeat constructor; cbn; lia.
  - cbn. lia.
Defined.

(** ** Billing, signup, login and the feed together *)

(** X20.  Accounts are kept.  Over any run of billing requests, signups,
    logins and reads of the signals feed, starting from a table in which
    no two rows share an address and every row sits under its id: the
    table stays so, no row is ever removed, and no request changes the
    id, the address, the password hash or the creation time of a row. *)
Theorem accounts_are_kept env auth rt reqs w :
  table_ok (db w) ->
  table_ok (db (serve_app_all env auth rt reqs w).2)
  /\ forall k u,
       db w !! k = Some u ->
       exists u',
         db (serve_app_all env auth rt reqs w).2 !! k = Some u'
         /\ id u' = id u /\ email u' = email u
         /\ hashed_password u' = hashed_password u
         /\ created_at u' = created_at u.
Proof.
  intros Hok. destruct (serve_app_all_accounts env auth rt reqs w Hok) as [Hok' Hkeep].
  split; [exact Hok'|]. intros k u Hrow.
  destruct (Hkeep k u Hrow) as (u' & Hrow' & Hsame). now exists u'.
Qed.

(** X21.  Access is granted by payment alone.  If a user is paid after a run
    of billing requests, signups, logins and reads of the signals feed, then
    the user was paid before it or the run holds a billing request that
    carries a verified payment event; signups create unpaid users, and
    neither logins nor the signals feed write to the table. *)
Theorem only_a_verified_payment_grants_access env auth rt reqs w k :
  paid_in (db (serve_app_all env auth rt reqs w).2) k ->
  paid_in (db w) k
  \/ Exists (fun tr => exists r, tr.2 = Billing r /\ verified_payment env tr.1 r) reqs.
Proof.
  revert w. induction reqs as [|[now req] rest IH]; intros w Hpaid; [now left|].
  cbn [serve_app_all] in Hpaid.
  destruct (serve_app env auth rt now req w) as [r w1] eqn:Hserve.
  destruct (serve_app_all env auth rt rest w1) as [rs w2] eqn:Hrest.
  cbn [snd] in Hpaid.
  specialize (IH w1). rewrite Hrest in IH. cbn [snd] in IH.
  destruct (IH Hpaid) as [Hpaid1 | Hlater]; [|right; now constructor 2].
  assert (Hw1 : w1 = (serve_app env auth rt now req w).2) by now rewrite Hserve.
  rewrite Hw1 in Hpaid1. clear Hserve Hw1.
  destruct req as [b | a | c]; cbn [serve_app] in Hpaid1.
  - destruct (serve_effect env now b w) as [Hsame | (Hverified & _)].
    + left. now rewrite Hsame in Hpaid1.
    + right. constructor 1. now exists b.
  - left. destruct (serve_auth_effect auth now a w)
      as [[Hsame _] | (salt & ud & request & -> & Hnone & Hins & _)].
    + now rewrite Hsame in Hpaid1.
    + rewrite Hins in Hpaid1. destruct Hpaid1 as (u & Hrow & Hu).
      apply lookup_insert_Some in Hrow as [[_ <-] | [_ Hrow]]; [discriminate|].
      now exists u.
  - left. now rewrite serve_signals_db in Hpaid1.
Qed.

Lemma only_a_verified_payment_grants_access_witness :
  paid_in
    (db (serve_app_all Fixture.test_env Demo.auth Demo.runtime
           [(1700000000, Auth (Signup "N9qo8uLOickgx2ZMRZoMye" Demo.carol Demo.from_signup));
            (1700000030,
             Billing (RazorpayWebhook (Fixture.body Fixture.captured)
                        Demo.captured_signature))]
           Fixture.online).2) 1
  /\ (paid_in (db Fixture.online) 1
      \/ Exists (fun tr => exists r,
                   tr.2 = Billing r /\ verified_payment Fixture.test_env tr.1 r)
           [(1700000000, Auth (Signup "N9qo8uLOickgx2ZMRZoMye" Demo.carol Demo.from_signup));
            (1700000030,
             Billing (RazorpayWebhook (Fixture.body Fixture.captured)
                        Demo.captured_signature))]).
Proof.
  assert (Hpaid :
    paid_in
      (db (serve_app_all Fixture.test_env Demo.auth Demo.runtime
             [(1700000000,
               Auth (Signup "N9qo8uLOickgx2ZMRZoMye" Demo.carol Demo.from_signup));
              (1700000030,
               Billing (RazorpayWebhook (Fixture.body Fixture.captured)
                          Demo.captured_signature))]
             Fixture.online).2) 1).
  { exists (set_is_paid true Fixture.alice). split; vm_compute; reflexivity. }
  split; [exact Hpaid|].
  exact (only_a_verified_payment_grants_access Fixture.test_env Demo.auth Demo.runtime
           _ Fixture.online 1 Hpaid).
Defined.

(** X22.  Who signed up can log in.  After a signup that succeeded, and
    after any run of billing requests, signups, logins and reads of the
    feed, a login with the same address and password that the limiter lets
    pass is answered with the token for the id that the signup created,
    provided [verify_password] accepts a password against the hash that
    [hash_password] made of it. *)
Theorem signup_then_login
    env auth rt now salt user_data request between now' request' w b w1 b' w3 :
  table_ok (db w) ->
  check_rate_limit auth_rate_limiter now request w = (Ok b, w1) ->
  unregistered (db w) (user_data_email user_data) ->
  verify_password auth (user_data_password user_data)
    (hash_password auth salt (user_data_password user_data)) = true ->
  check_rate_limit auth_rate_limiter now' request'
    (serve_app_all env auth rt between
       (serve_auth auth now (Signup salt user_data request) w).2).2 = (Ok b', w3) ->
  (serve_auth auth now (Signup salt user_data request) w).1
  = Ok (Token (create_access_token auth now (next_id (db w))
                 (user_data_email user_data)))
  /\ (serve_auth auth now' (Login user_data request')
        (serve_app_all env auth rt between
           (serve_auth auth now (Signup salt user_data request) w).2).2).1
     = Ok (Token (create_access_token auth now' (next_id (db w))
                    (user_data_email user_data))).
Proof.
  intros Hok Hcheck Hnone Hverify Hcheck'.
  pose proof (signup_unregistered auth now salt user_data request w b w1 Hcheck Hnone)
    as Hsignup.
  destruct (check_rate_limit_keeps auth_rate_limiter now request w) as (Hdb & _).
  rewrite Hcheck in Hdb. cbn [snd] in Hdb.
  rewrite Hsignup in Hcheck' |- *. cbn [fst snd] in Hcheck' |- *.
  split; [reflexivity|].
  set (w2 := with_session (fun _ => ∅) _) in *.
  assert (Hdb2 : db w2
                 = <[next_id (db w) :=
                       new_user (db w) now (user_data_email user_data)
                         (hash_password auth salt (user_data_password user_data))]>
                     (db w)).
  { subst w2. cbn. now rewrite Hdb. }
  assert (Hok2 : table_ok (db w2)).
  { rewrite Hdb2. now apply insert_new_user_table_ok. }
  destruct (serve_app_all_accounts env auth rt between w2 Hok2) as [Hok3 Hkeep].
  destruct (Hkeep (next_id (db w))
              (new_user (db w) now (user_data_email user_data)
                 (hash_password auth salt (user_data_password user_data))))
    as (u' & Hrow' & Hid & Hemail & Hhash & _).
  { rewrite Hdb2. apply lookup_insert_eq. }
  cbn in Hid, Hemail, Hhash.
  rewrite (login_registered auth now' user_data request' _ b' w3 (next_id (db w)) u'
             Hcheck' (proj1 Hok3) Hrow' Hemail).
  cbn [fst]. now rewrite Hhash, Hverify, Hid, Hemail.
Qed.

Lemma signup_then_login_witness :
  (serve_auth Demo.auth 1700003600 (Login Demo.carol Demo.from_login)
     (serve_app_all Fixture.test_env Demo.auth Demo.runtime
        [(1700000030,
          Billing (RazorpayWebhook (Fixture.body Fixture.captured)
                     Demo.captured_signature));
         (1700000060, GetSignals (Some 3))]
        (serve_auth Demo.auth 1700000000
           (Signup "N9qo8uLOickgx2ZMRZoMye" Demo.carol Demo.from_signup)
           Fixture.online).2).2).1
  = Ok (Token "token.3.carol@example.com.1700005400").
Proof.
  assert (Hnone : unregistered (db Fixture.online) (user_data_email Demo.carol)).
  { intros k u Hrow Hemail. unfold Fixture.online in Hrow. cbn [db] in Hrow.
    apply lookup_insert_Some in Hrow as [[<- <-] | [_ Hrow]]; [discriminate|].
    apply lookup_singleton_Some in Hrow as [<- <-]. discriminate. }
  assert (Hok : table_ok (db Fixture.online)).
  { split.
    - intros j k u v Hj Hk Hemail. unfold Fixture.online in Hj, Hk. cbn [db] in Hj, Hk.
      apply lookup_insert_Some in Hj as [[<- <-] | [_ Hj]];
        apply lookup_insert_Some in Hk as [[<- <-] | [_ Hk]];
        try apply lookup_singleton_Some in Hj as [<- <-];
        try apply lookup_singleton_Some in Hk as [<- <-];
        try reflexivity; discriminate.
    - intros k u Hrow. unfold Fixture.online in Hrow. cbn [db] in Hrow.
      apply lookup_insert_Some in Hrow as [[<- <-] | [_ Hrow]]; [reflexivity|].
      now apply lookup_singleton_Some in Hrow as [<- <-]. }
  pose proof (signup_then_login Fixture.test_env Demo.auth Demo.runtime 1700000000
                "N9qo8uLOickgx2ZMRZoMye" Demo.carol Demo.from_signup
                [(1700000030,
                  Billing (RazorpayWebhook (Fixture.body Fixture.captured)
                             Demo.captured_signature));
                 (1700000060, GetSignals (Some 3))]
                1700003600 Demo.from_login Fixture.online) as H.
  specialize (H true _ true _ Hok ltac:(vm_compute; reflexivity) Hnone
                ltac:(vm_compute; reflexivity) ltac:(vm_compute; reflexivity)).
  rewrite (proj2 H). vm_compute. reflexivity.
Defined.

Lemma accounts_are_kept_witness :
  table_ok (db Fixture.online)
  /\ email <$> db (serve_app_all Fixture.test_env Demo.auth Demo.runtime
                     [(1700000000,
                       Auth (Signup "N9qo8uLOickgx2ZMRZoMye" Demo.carol Demo.from_signup));
                      (1700000030,
                       Billing (RazorpayWebhook (Fixture.body Fixture.captured)
                                  Demo.captured_signature))]
                     Fixture.online).2 !! 1
     = Some "alice@example.com".
Proof.
  assert (Hok : table_ok (db Fixture.online)).
  { split.
    - intros j k u v Hj Hk Hemail. unfold Fixture.online in Hj, Hk. cbn [db] in Hj, Hk.
      apply lookup_insert_Some in Hj as [[<- <-] | [_ Hj]];
        apply lookup_insert_Some in Hk as [[<- <-] | [_ Hk]];
        try apply lookup_singleton_Some in Hj as [<- <-];
        try apply lookup_singleton_Some in Hk as [<- <-];
        try reflexivity; discriminate.
    - intros k u Hrow. unfold Fixture.online in Hrow. cbn [db] in Hrow.
      apply lookup_insert_Some in Hrow as [[<- <-] | [_ Hrow]]; [reflexivity|].
      now apply lookup_singleton_Some in Hrow as [<- <-]. }
  split; [exact Hok|].
  destruct (proj2 (accounts_are_kept Fixture.test_env Demo.auth Demo.runtime
                     [(1700000000,
                       Auth (Signup "N9qo8uLOickgx2ZMRZoMye" Demo.carol Demo.from_signup));
                      (1700000030,
                       Billing (RazorpayWebhook (Fixture.body Fixture.captured)
                                  Demo.captured_signature))]
                     Fixture.online Hok) 1 Fixture.alice eq_refl)
    as (u' & Hrow & _ & Hemail & _).
  rewrite Hrow. cbn. rewrite Hemail. reflexivity.
Defined.

(** X23.  Duplicates stay duplicates whatever else is served.  The keys of
    the billing router differ from every key of the rate limiter and from
    the key of the signals cache, so that no billing request, signup, login
    or read of the feed removes or shortens one.  A delivery with the event
    id, or the payment id, of one that was handled less than 86400 seconds
    before is therefore answered [already_processed], and changes nothing,
    also when signups, logins and reads of the feed were served in between. *)
Theorem duplicates_are_detected_across_routers
    env auth rt now now' between w ks :
  redis (redis_service w) = Some ks ->
  now' < now + 86400 ->
  (forall payload sig payload' sig' ev ev' w1,
     stripe_Webhook_construct_event env now payload sig
       (stripe_webhook_secret (settings env)) = Ok ev ->
     stripe_Webhook_construct_event env now' payload' sig'
       (stripe_webhook_secret (settings env)) = Ok ev' ->
     event_id ev' = event_id ev ->
     serve env now (StripeWebhook payload sig) w = (Ok (status_only "success"), w1) ->
     serve env now' (StripeWebhook payload' sig') (serve_app_all env auth rt between w1).2
     = (Ok (status_only "already_processed"),
        with_call (StripeConstructEvent payload' sig')
          (serve_app_all env auth rt between w1).2))
  /\
  (forall payload sig payload' sig' event event' pid w1,
     razorpay_verified env payload sig ->
     razorpay_verified env payload' sig' ->
     json_loads env payload = Ok event ->
     json_loads env payload' = Ok event' ->
     payment_id_of event = Ok pid ->
     payment_id_of event' = Ok pid ->
     truthy pid = true ->
     serve env now (RazorpayWebhook payload sig) w = (Ok (status_only "success"), w1) ->
     serve env now' (RazorpayWebhook payload' sig')
       (serve_app_all env auth rt between w1).2
     = (Ok (status_only "already_processed"), (serve_app_all env auth rt between w1).2))
  /\
  (forall c payment_data k' payment_data' w1,
     razorpay_payment_id payment_data' = razorpay_payment_id payment_data ->
     serve env now (VerifyRazorpayPayment c payment_data) w
     = (Ok (status_paid "success"), w1) ->
     is_Some (db (serve_app_all env auth rt between w1).2 !! k') ->
     serve env now' (VerifyRazorpayPayment (Some k') payment_data')
       (serve_app_all env auth rt between w1).2
     = (Ok (status_paid "already_processed"), (serve_app_all env auth rt between w1).2)).
Proof.
  intros Hredis Hsoon. split; [|split].
  - intros payload sig payload' sig' ev ev' w1 Hev Hev' Hid Hfirst.
    apply (serve_stripe_webhook_seen env now' payload' sig' _ ev' ); [| exact Hev' |].
    + apply serve_app_all_session. exact (serve_closed _ _ _ _ _ _ Hfirst).
    + unfold stripe_key. rewrite Hid. fold (stripe_key ev).
      apply serve_app_all_keeps_live_key; [apply stripe_key_billing|].
      apply (recorded_live_key now now' _ ks); [|exact Hsoon].
      exact (serve_stripe_webhook_recorded _ _ _ _ _ _ _ _ Hev Hredis Hfirst).
  - intros payload sig payload' sig' event event' pid w1
      Hv Hv' He He' Hpid Hpid' Htruthy Hfirst.
    apply (serve_razorpay_webhook_seen env now' payload' sig' _ event' pid);
      try assumption.
    + apply serve_app_all_session. exact (serve_closed _ _ _ _ _ _ Hfirst).
    + apply serve_app_all_keeps_live_key; [apply razorpay_key_billing|].
      apply (recorded_live_key now now' _ ks); [|exact Hsoon].
      exact (serve_razorpay_webhook_recorded _ _ _ _ _ _ _ _ _
               Hv He Hpid Htruthy Hredis Hfirst).
  - intros c payment_data k' payment_data' w1 Hid Hfirst Hrow.
    apply serve_verify_payment_seen; [| exact Hrow |].
    + apply serve_app_all_session. exact (serve_closed _ _ _ _ _ _ Hfirst).
    + unfold payment_key. rewrite Hid. fold (payment_key payment_data).
      apply serve_app_all_keeps_live_key; [apply payment_key_billing|].
      apply (recorded_live_key now now' _ ks); [|exact Hsoon].
      exact (serve_verify_payment_recorded _ _ _ _ _ _ _ Hredis Hfirst).
Qed.

Lemma duplicates_are_detected_across_routers_witness :
  (serve Fixture.test_env 1700003600
     (RazorpayWebhook (Fixture.body Fixture.captured) Demo.captured_signature)
     (serve_app_all Fixture.test_env Demo.auth Demo.runtime
        [(1700000060, Auth (Login Demo.alice_login Demo.from_login));
         (1700000120, GetSignals (Some 1))]
        Fixture.after_captured).2).1
  = Ok (status_only "already_processed").
Proof.
  assert (Hv : razorpay_verified Fixture.test_env (Fixture.body Fixture.captured)
                 Demo.captured_signature)
    by (apply fixture_razorpay_verified; vm_compute; reflexivity).
  assert (He : json_loads Fixture.test_env (Fixture.body Fixture.captured)
               = Ok Fixture.captured) by (vm_compute; reflexivity).
  assert (Hfirst :
    serve Fixture.test_env 1700000000
      (RazorpayWebhook (Fixture.body Fixture.captured) Demo.captured_signature)
      Fixture.online
    = (Ok (status_only "success"), Fixture.after_captured))
    by (vm_compute; reflexivity).
  assert (Hsoon : 1700003600 < 1700000000 + 86400) by lia.
  rewrite (proj1 (proj2 (duplicates_are_detected_across_routers Fixture.test_env
                           Demo.auth Demo.runtime 1700000000 1700003600
                           [(1700000060, Auth (Login Demo.alice_login Demo.from_login));
                            (1700000120, GetSignals (Some 1))]
                           Fixture.online ∅ eq_refl Hsoon))
             (Fixture.body Fixture.captured) Demo.captured_signature
             (Fixture.body Fixture.captured) Demo.captured_signature
             Fixture.captured Fixture.captured (JStr "pay_001") Fixture.after_captured
             Hv Hv He He eq_refl eq_refl eq_refl Hfirst).
  reflexivity.
Defined.

(** ** The signals feed *)



(** X25.  Free users get three signals.  Whatever the cache holds and
    whether or not Redis is reachable, a response to a user who is not
    paid carries at most three signals, namely as many as there are if
    there are fewer, is marked [is_limited], and tells the number of all
    signals; a response to a paid user carries them all and is not
    marked.  With nothing cached these are the first three, or all, of
    the eight mock signals under the time of the request. *)
Theorem free_users_get_three_signals rt now u w :
  (forall objs flag n,
     (get_signals rt now u w).1 = Ok (SignalsResponse objs flag n) ->
     flag = negb (is_paid u)
     /\ length objs = if is_paid u then n else Nat.min 3 n)
  /\ (unseen now w SIGNALS_CACHE_KEY ->
      (get_signals rt now u w).1
      = match to_signals rt
                (if is_paid u
                 then set_timestamp (utcnow_isoformat rt now +:+ "Z") <$> MOCK_SIGNALS
                 else take 3 (set_timestamp (utcnow_isoformat rt now +:+ "Z")
                                <$> MOCK_SIGNALS))
        with
        | Ok objs => Ok (SignalsResponse objs (negb (is_paid u)) 8)
        | Raise e => Raise e
        end).
Proof.
  split.
  - intros objs flag n. apply get_signals_limit.
  - apply get_signals_fresh.
Qed.

Lemma free_users_get_three_signals_witness :
  exists objs,
    (get_signals Demo.runtime 1700000000 Fixture.alice Fixture.online).1
    = Ok (SignalsResponse objs true 8)
    /\ length objs = 3%nat.
Proof.
  destruct (get_signals Demo.runtime 1700000000 Fixture.alice Fixture.online)
    as [r w'] eqn:Hrun.
  assert (Hr : r = (get_signals Demo.runtime 1700000000 Fixture.alice Fixture.online).1)
    by now rewrite Hrun.
  rewrite (proj2 (free_users_get_three_signals Demo.runtime 1700000000 Fixture.alice
                    Fixture.online)) in Hr.
  - vm_compute in Hr. subst r. eexists. split; reflexivity.
  - intros ks [= <-]. reflexivity.
Defined.

(** X26.  Paid is for good, in every answer.  Once a user is paid, then
    after any run of billing requests, signups, logins and reads of the feed
    the status endpoint still reports [is_paid] true for that user, and
    every answer of the signals feed to that user is unlimited: it carries
    as many signals as it counts. *)
Theorem paid_user_keeps_full_access env auth rt reqs now w k :
  paid_in (db w) k ->
  (exists u,
     db (serve_app_all env auth rt reqs w).2 !! k = Some u
     /\ (serve_app env auth rt now (Billing (GetSubscriptionStatus (Some k)))
           (serve_app_all env auth rt reqs w).2).1
        = Ok (JObj [("is_paid", JBool true);
                    ("email", JStr (email u));
                    ("payment_gateway", JStr (payment_gateway (settings env)))]))
  /\ (forall objs flag n,
        (serve_app env auth rt now (GetSignals (Some k))
           (serve_app_all env auth rt reqs w).2).1
        = Ok (SignalsResponse objs flag n) ->
        flag = false /\ length objs = n).
Proof.
  intros Hpaid.
  destruct (serve_app_all_monotone env auth rt reqs w k Hpaid) as (u & Hrow & Hu).
  split.
  - exists u. split; [exact Hrow|]. cbn [serve_app].
    rewrite (serve_status env now k _ u Hrow). now rewrite Hu.
  - intros objs flag n. cbn [serve_app]. rewrite serve_signals_unfold, Hrow.
    cbn [fst]. intros Hresp. apply get_signals_limit in Hresp.
    now rewrite Hu in Hresp.
Qed.

Lemma paid_user_keeps_full_access_witness :
  paid_in (db Fixture.online) 2
  /\ exists objs,
       (serve_app Fixture.test_env Demo.auth Demo.runtime 1700000120 (GetSignals (Some 2))
          (serve_app_all Fixture.test_env Demo.auth Demo.runtime
             [(1700000000, Auth (Login Demo.alice_login Demo.from_login));
              (1700000060, Billing (CreateCheckout (Some 2) None))]
             Fixture.online).2).1
       = Ok (SignalsResponse objs false 8)
       /\ length objs = 8%nat.
Proof.
  assert (Hpaid : paid_in (db Fixture.online) 2).
  { exists Fixture.bob. split; reflexivity. }
  split; [exact Hpaid|].
  destruct (serve_app Fixture.test_env Demo.auth Demo.runtime 1700000120
              (GetSignals (Some 2))
              (serve_app_all Fixture.test_env Demo.auth Demo.runtime
                 [(1700000000, Auth (Login Demo.alice_login Demo.from_login));
                  (1700000060, Billing (CreateCheckout (Some 2) None))]
                 Fixture.online).2) as [r w'] eqn:Hrun.
  vm_compute in Hrun. injection Hrun as <- _. cbn [fst].
  eexists. split; [reflexivity|].
  apply (proj2 (paid_user_keeps_full_access Fixture.test_env Demo.auth Demo.runtime
                  [(1700000000, Auth (Login Demo.alice_login Demo.from_login));
                   (1700000060, Billing (CreateCheckout (Some 2) None))]
                  1700000120 Fixture.online 2 Hpaid) _ false 8%nat).
  vm_compute. reflexivity.
Defined.

(** ** Two more consequences *)



(** X27.  The answer to a replayed payment id speaks of nobody in
    particular.  While the key of a confirmed payment is live, a
    confirmation with that payment id by any user, paid or not, with any
    signature, is answered [{"status": "already_processed", "is_paid":
    True}] and changes nothing; for a user who is not paid the status
    endpoint goes on to report [is_paid] false. *)
Theorem replayed_payment_id_says_paid_to_anyone env now payment_data k u w :
  session w = ∅ ->
  db w !! k = Some u ->
  live_key now (payment_key payment_data) w ->
  serve env now (VerifyRazorpayPayment (Some k) payment_data) w
  = (Ok (JObj [("status", JStr "already_processed"); ("is_paid", JBool true)]), w)
  /\ serve env now (GetSubscriptionStatus (Some k)) w
     = (Ok (JObj [("is_paid", JBool (is_paid u));
                  ("email", JStr (email u));
                  ("payment_gateway", JStr (payment_gateway (settings env)))]), w).
Proof.
  intros Hsession Hrow Hkey. split.
  - apply serve_verify_payment_seen; [exact Hsession | now exists u | exact Hkey].
  - rewrite (serve_status env now k w u Hrow). now rewrite with_session_empty.
Qed.

Lemma replayed_payment_id_says_paid_to_anyone_witness :
  is_paid Demo.carol_row = false
  /\ serve Fixture.test_env 1700000600
       (VerifyRazorpayPayment (Some 3) (Fixture.confirmation "forged")) Demo.with_carol
     = (Ok (JObj [("status", JStr "already_processed"); ("is_paid", JBool true)]),
        Demo.with_carol).
Proof.
  split; [reflexivity|].
  assert (Hkey : live_key 1700000600 (payment_key (Fixture.confirmation "forged"))
                   Demo.with_carol).
  { eexists _, 1700000000. split; [vm_compute; reflexivity|].
    split; [vm_compute; reflexivity | lia]. }
  exact (proj1 (replayed_payment_id_says_paid_to_anyone Fixture.test_env 1700000600
                  (Fixture.confirmation "forged") 3 Demo.carol_row Demo.with_carol
                  eq_refl eq_refl Hkey)).
Defined.


